(** * Aspect-based review analysis: a shallow embedding of
      [data_collection/aspect_analyzer.py]

    The Python module is embedded function by function.  Strings are Rocq
    [string]s read as ASCII text (so [lower], [capitalize], [strip] and the
    word regex act on ASCII letters, digits and blanks).  Python dicts whose
    iteration order is observable (the brand table, the keyword registry, the
    per-call tallies, the resulting aspect map) are association lists in
    insertion order; the review record, which is only read through [.get],
    is a [gmap].  The third-party NLP calls (TextBlob polarity, NLTK
    tokenizer, lemmatizer and tagger) are the fields of the [NLP] interface.
    The polarity score and the percentages of the overall feedback (their
    thresholds and their [:.0f] rendering) are binary64 floats; the
    comparison of a ratio of two counts with [0.5] is done on rationals,
    which agrees with binary64 for every total below [2^53]. *)

From Stdlib Require Import ZArith QArith String Ascii List Lia Bool.
From Stdlib Require Import Permutation Sorted.
From Stdlib Require Import PrimFloat FloatOps SpecFloat Uint63.
From Stdlib Require DecimalString.
From stdpp Require Import gmap strings.
Import ListNotations.
Open Scope string_scope.
Open Scope list_scope.
Open Scope nat_scope.

(** ** Python string primitives (ASCII) *)

Module PyStr.

Definition is_upper (c : ascii) : bool :=
  let n := nat_of_ascii c in (65 <=? n) && (n <=? 90).

Definition is_lower (c : ascii) : bool :=
  let n := nat_of_ascii c in (97 <=? n) && (n <=? 122).

Definition is_digit (c : ascii) : bool :=
  let n := nat_of_ascii c in (48 <=? n) && (n <=? 57).

Definition is_alpha (c : ascii) : bool := is_upper c || is_lower c.

(** [str.isspace] on one ASCII character: tab, newline, vertical tab, form
    feed, carriage return, the four separators 0x1c-0x1f and the blank. *)
Definition is_space (c : ascii) : bool :=
  let n := nat_of_ascii c in
  ((9 <=? n) && (n <=? 13)) || ((28 <=? n) && (n <=? 31)) || (n =? 32).

(** The regex class [\s] of a [str] pattern on ASCII text: the characters
    [str.isspace] accepts, the separators 0x1c-0x1f included. *)
Definition is_re_space (c : ascii) : bool :=
  let n := nat_of_ascii c in
  ((9 <=? n) && (n <=? 13)) || ((28 <=? n) && (n <=? 31)) || (n =? 32).

(** The regex class [\w] on ASCII text. *)
Definition is_word_char (c : ascii) : bool :=
  is_alpha c || is_digit c || (nat_of_ascii c =? 95).

Definition lower_char (c : ascii) : ascii :=
  if is_upper c then ascii_of_nat (nat_of_ascii c + 32) else c.

Definition upper_char (c : ascii) : ascii :=
  if is_lower c then ascii_of_nat (nat_of_ascii c - 32) else c.

Fixpoint map_chars (f : ascii -> ascii) (s : string) : string :=
  match s with
  | EmptyString => EmptyString
  | String c s' => String (f c) (map_chars f s')
  end.

Fixpoint filter_chars (f : ascii -> bool) (s : string) : string :=
  match s with
  | EmptyString => EmptyString
  | String c s' => if f c then String c (filter_chars f s') else filter_chars f s'
  end.

(** [s.lower()] *)
Definition lower (s : string) : string := map_chars lower_char s.

(** [s.capitalize()]: first character upper-cased, the rest lower-cased. *)
Definition capitalize (s : string) : string :=
  match s with
  | EmptyString => EmptyString
  | String c s' => String (upper_char c) (lower s')
  end.

Fixpoint title_from (prev_cased : bool) (s : string) : string :=
  match s with
  | EmptyString => EmptyString
  | String c s' =>
      String (if prev_cased then lower_char c else upper_char c)
             (title_from (is_alpha c) s')
  end.

(** [s.title()] *)
Definition title (s : string) : string := title_from false s.

(** [s.replace(a, b)] for one-character [a] and [b]. *)
Definition replace_char (a b : ascii) (s : string) : string :=
  map_chars (fun c => if Ascii.eqb c a then b else c) s.

(** [needle in hay] *)
Fixpoint contains (needle hay : string) : bool :=
  match hay with
  | EmptyString => String.prefix needle EmptyString
  | String _ hay' => String.prefix needle hay || contains needle hay'
  end.

Fixpoint lstrip (s : string) : string :=
  match s with
  | EmptyString => EmptyString
  | String c s' => if is_space c then lstrip s' else s
  end.

Fixpoint rstrip (s : string) : string :=
  match s with
  | EmptyString => EmptyString
  | String c s' =>
      match rstrip s' with
      | EmptyString => if is_space c then EmptyString else String c EmptyString
      | r => String c r
      end
  end.

(** [s.strip()] *)
Definition strip (s : string) : string := rstrip (lstrip s).

(** [s[:n]] *)
Definition slice_to (n : nat) (s : string) : string := String.substring 0 n s.

(** [sep.join(parts)] *)
Fixpoint join (sep : string) (parts : list string) : string :=
  match parts with
  | [] => EmptyString
  | [p] => p
  | p :: rest => p +:+ sep +:+ join sep rest
  end.

(** [str(n)] for an int. *)
Definition str_of_Z (z : Z) : string :=
  DecimalString.NilZero.string_of_int (Z.to_int z).

Definition str_of_nat (n : nat) : string := str_of_Z (Z.of_nat n).

(** [x in words] for a list (or set) of strings. *)
Definition mem (x : string) (l : list string) : bool :=
  existsb (String.eqb x) l.

(** [re.findall(r'\b\w+\b', s)]: the maximal runs of word characters. *)
Fixpoint words_from (cur : string) (s : string) : list string :=
  match s with
  | EmptyString => match cur with EmptyString => [] | _ => [cur] end
  | String c s' =>
      if is_word_char c then words_from (cur +:+ String c EmptyString) s'
      else match cur with
           | EmptyString => words_from EmptyString s'
           | _ => cur :: words_from EmptyString s'
           end
  end.

Definition findall_words (s : string) : list string := words_from EmptyString s.

End PyStr.

Import PyStr.

(** ** Python values that reach the analyzer as review entries *)

(** The scalar values a review field (or a non-dict review entry) holds. *)
Inductive pyval : Type :=
| VNone
| VBool (b : bool)
| VInt (z : Z)
| VStr (s : string).

(** A review entry: a dict (read only through [.get]) or anything else. *)
Inductive ReviewLike : Type :=
| RDict (d : gmap string pyval)
| RObj (v : pyval).

(** Truth value of a Python object, as [or] and [if] test it. *)
Definition truthy (v : pyval) : bool :=
  match v with
  | VNone => false
  | VBool b => b
  | VInt z => negb (z =? 0)%Z
  | VStr s => negb (String.eqb s EmptyString)
  end.

(** [str(v)] *)
Definition py_str (v : pyval) : string :=
  match v with
  | VNone => "None"
  | VBool true => "True"
  | VBool false => "False"
  | VInt z => str_of_Z z
  | VStr s => s
  end.

(** [d.get(k)]: the value, or [None] when the key is absent. *)
Definition dict_get (d : gmap string pyval) (k : string) : pyval :=
  default VNone (d !! k).

(** [a or b] *)
Definition py_or (a b : pyval) : pyval := if truthy a then a else b.

(** The text of one entry, before [str(text).strip()]. *)
Definition review_text_of (r : ReviewLike) : pyval :=
  match r with
  | RDict d =>
      py_or (dict_get d "review_text")
        (py_or (dict_get d "review")
           (py_or (dict_get d "text")
              (py_or (dict_get d "body")
                 (py_or (dict_get d "content") (VStr EmptyString)))))
  | RObj v => VStr (py_str v)
  end.

(** [FlipkartReviewAnalyzer._clean_reviews] *)
Fixpoint _clean_reviews (reviews : list ReviewLike) : list string :=
  match reviews with
  | [] => []
  | r :: rest =>
      let text := strip (py_str (review_text_of r)) in
      if negb (String.eqb text EmptyString) then text :: _clean_reviews rest
      else _clean_reviews rest
  end.

(** ** Categories, brands and competitors (module-level tables) *)

Inductive Category : Type :=
| Mobile | Laptop | Television | Audio | Footwear | Fashion
| HomeAppliance | General.

(** The string each category is written as in the source. *)
Definition category_name (c : Category) : string :=
  match c with
  | Mobile => "mobile"
  | Laptop => "laptop"
  | Television => "television"
  | Audio => "audio"
  | Footwear => "footwear"
  | Fashion => "fashion"
  | HomeAppliance => "home_appliance"
  | General => "general"
  end.

Definition Category_eqb (a b : Category) : bool :=
  String.eqb (category_name a) (category_name b).

(** [BRAND_TO_CATEGORY], in insertion order. *)
Definition BRAND_TO_CATEGORY : list (string * Category) :=
  [ ("Samsung", Mobile); ("Realme", Mobile); ("Vivo", Mobile); ("Oppo", Mobile);
    ("OnePlus", Mobile); ("Apple", Mobile); ("Motorola", Mobile); ("Xiaomi", Mobile);
    ("HP", Laptop); ("Dell", Laptop); ("Lenovo", Laptop); ("Asus", Laptop); ("Acer", Laptop);
    ("Sony", Television); ("LG", Television); ("TCL", Television);
    ("Boat", Audio); ("Noise", Audio); ("JBL", Audio);
    ("Bata", Footwear); ("Sparx", Footwear); ("Puma", Footwear); ("Nike", Footwear);
    ("Whirlpool", HomeAppliance); ("Godrej", HomeAppliance); ("Haier", HomeAppliance) ].

(** [COMPETITOR_MAP.get(category, [])] *)
Definition COMPETITOR_MAP (c : Category) : list string :=
  match c with
  | Mobile => ["Samsung"; "Realme"; "Vivo"; "Oppo"; "OnePlus"; "Apple"; "Motorola"; "Xiaomi"]
  | Laptop => ["HP"; "Dell"; "Lenovo"; "Asus"; "Acer"; "Apple"]
  | Television => ["Sony"; "LG"; "TCL"; "Samsung"; "Mi"]
  | Audio => ["Boat"; "Noise"; "JBL"; "Sony"; "Realme"]
  | Footwear => ["Bata"; "Sparx"; "Puma"; "Nike"; "Adidas"; "Campus"]
  | Fashion => ["Zara"; "H&M"; "Max"; "Allen Solly"; "Peter England"]
  | HomeAppliance => ["Whirlpool"; "Godrej"; "Haier"; "LG"; "Samsung"]
  | General => []
  end.

(** [any(k in name for k in keywords)] *)
Definition any_in (keywords : list string) (name : string) : bool :=
  existsb (fun k => contains k name) keywords.

(** The [for brand, category in BRAND_TO_CATEGORY.items()] loop of
    [detect_product_category]: the category of the first brand found in the
    lower-cased name, if any. *)
Fixpoint brand_loop (table : list (string * Category)) (name : string)
  : option Category :=
  match table with
  | [] => None
  | (brand, category) :: rest =>
      if contains (lower brand) name then Some category
      else brand_loop rest name
  end.

(** [detect_product_category] *)
Definition detect_product_category (product_name : string) : Category :=
  let name := lower product_name in
  match brand_loop BRAND_TO_CATEGORY name with
  | Some category => category
  | None =>
      if any_in ["phone"; "mobile"; "smartphone"; "5g"] name then Mobile
      else if any_in ["laptop"; "notebook"; "macbook"; "chromebook"] name then Laptop
      else if any_in ["tv"; "television"; "smart tv"; "qled"] name then Television
      else if any_in ["earphone"; "headphone"; "earbud"; "speaker"; "soundbar"] name then Audio
      else if any_in ["shoe"; "slipper"; "sandal"; "boot"; "sneaker"] name then Footwear
      else if any_in ["shirt"; "pant"; "jean"; "dress"; "tshirt"; "kurti"] name then Fashion
      else if any_in ["refrigerator"; "washing"; "microwave"; "ac"; "cooler"] name then HomeAppliance
      else General
  end.

(** The [for brand in BRAND_TO_CATEGORY.keys()] loop of
    [recommend_competitors]: the first brand found in the name. *)
Fixpoint detect_brand (brands : list string) (product_name : string)
  : option string :=
  match brands with
  | [] => None
  | brand :: rest =>
      if contains (lower brand) (lower product_name) then Some brand
      else detect_brand rest product_name
  end.

Record CompetitorInfo : Type := {
  ci_category : Category;
  ci_detected_brand : option string;
  ci_competitors : list string
}.

(** The list comprehension [[c for c in competitors if c.lower() != b.lower()]]. *)
Definition without_brand (b : string) (competitors : list string) : list string :=
  List.filter (fun c => negb (String.eqb (lower c) (lower b))) competitors.

(** [recommend_competitors] *)
Definition recommend_competitors (product_name : string) : CompetitorInfo :=
  let category := detect_product_category product_name in
  let competitors := COMPETITOR_MAP category in
  let detected_brand := detect_brand (map fst BRAND_TO_CATEGORY) product_name in
  let competitors :=
    match detected_brand with
    | Some b => if negb (String.eqb b EmptyString) then without_brand b competitors
                else competitors
    | None => competitors
    end in
  {| ci_category := category;
     ci_detected_brand := detected_brand;
     ci_competitors := take 5 competitors |}.

(** ** The analyzer object *)

(** The four attributes [__init__] sets on the instance. *)
Record FlipkartReviewAnalyzer : Type := {
  aspect_keywords : list (string * list string);
  category_aspects : list (Category * list string);
  positive_words : list string;
  negative_words : list string
}.

(** [d.update(extra)] on an insertion-ordered dict: a key already present
    keeps its position and takes the new value, a new key goes to the end. *)
Fixpoint dict_set {V : Type} (k : string) (v : V) (d : list (string * V))
  : list (string * V) :=
  match d with
  | [] => [(k, v)]
  | (k', v') :: rest =>
      if String.eqb k' k then (k', v) :: rest else (k', v') :: dict_set k v rest
  end.

Definition dict_update {V : Type} (d extra : list (string * V)) : list (string * V) :=
  fold_left (fun acc kv => dict_set (fst kv) (snd kv) acc) extra d.

Definition base_aspect_keywords : list (string * list string) :=
  [ ("battery", ["battery"; "batteries"; "charge"; "charges"; "charging"; "charged";
                 "backup"; "power"; "mah"; "juice"; "drain"; "draining"; "life"]);
    ("display", ["display"; "displays"; "screen"; "screens"; "brightness"; "bright";
                 "touch"; "resolution"; "amoled"; "lcd"; "oled"; "refresh"; "panel"]);
    ("performance", ["performance"; "perform"; "performs"; "speed"; "fast"; "faster";
                     "slow"; "slower"; "lag"; "lags"; "lagging"; "laggy"; "processor";
                     "ram"; "smooth"; "smoothly"; "multitask"; "multitasking"; "hang"; "hangs"]);
    ("design", ["design"; "designed"; "look"; "looks"; "looking"; "build"; "built";
                "quality"; "premium"; "body"; "finish"; "finishing"; "aesthetic";
                "aesthetics"; "appearance"; "sleek"]);
    ("camera", ["camera"; "cameras"; "photo"; "photos"; "picture"; "pictures"; "pic";
                "video"; "videos"; "selfie"; "selfies"; "lens"; "megapixel"; "mp";
                "clarity"; "zoom"; "zooming"; "shot"; "shots"]);
    ("sound", ["sound"; "sounds"; "audio"; "speaker"; "speakers"; "music"; "volume";
               "loud"; "loudness"; "headphone"; "headphones"; "bass"; "treble"; "clarity"]);
    ("price", ["price"; "prices"; "priced"; "value"; "worth"; "money"; "expensive";
               "cheap"; "cheaper"; "affordable"; "cost"; "costs"; "costly"; "vfm";
               "overpriced"; "budget"]);
    ("software", ["software"; "ui"; "update"; "updates"; "updated"; "android"; "ios";
                  "interface"; "app"; "apps"; "system"; "bloatware"; "os"]);
    ("heating", ["heat"; "heats"; "heated"; "heating"; "warm"; "warmer"; "hot";
                 "hotter"; "temperature"; "thermal"; "overheat"; "overheating"]);
    ("durability", ["durable"; "durability"; "lasting"; "last"; "lasts"; "sturdy";
                    "fragile"; "break"; "breaks"; "broken"; "scratch"; "scratches";
                    "scratched"]);
    ("delivery", ["delivery"; "delivered"; "shipping"; "shipped"; "packaging";
                  "package"; "packed"; "box"; "boxed"; "received"; "receive"]);
    ("service", ["service"; "services"; "support"; "warranty"; "replacement";
                 "replace"; "customer"; "care"; "helpline"]) ].

Definition appliance_aspect_keywords : list (string * list string) :=
  [ ("cooling", ["cool"; "cooling"; "chill"; "chilling"; "cold"; "temperature"; "hot room"; "heat wave"]);
    ("power_consumption", ["power"; "electricity"; "units"; "consumption"; "energy"; "efficient"; "inverter"; "star rating"]);
    ("noise", ["noise"; "noisy"; "silent"; "quiet"; "sound"; "humming"; "vibration"]);
    ("installation", ["install"; "installation"; "installed"; "technician"; "fitting"; "mounting"; "pipes"; "drain"; "outdoor unit"]);
    ("remote", ["remote"; "remote control"; "buttons"; "display panel"; "led panel"]);
    ("airflow", ["airflow"; "swing"; "throw"; "vent"; "air throw"; "fan speed"]);
    ("compressor", ["compressor"; "coolant"; "gas"; "refrigerant"; "condenser"; "evaporator"]) ].

(** [FlipkartReviewAnalyzer.__init__] *)
Definition __init__ : FlipkartReviewAnalyzer :=
  {| aspect_keywords := dict_update base_aspect_keywords appliance_aspect_keywords;
     category_aspects :=
       [ (Mobile, ["battery"; "display"; "performance"; "design"; "camera"; "sound";
                   "price"; "software"; "heating"; "durability"; "delivery"; "service"]);
         (Laptop, ["battery"; "display"; "performance"; "design"; "sound"; "price";
                   "software"; "heating"; "durability"; "delivery"; "service"]);
         (Television, ["display"; "sound"; "price"; "design"; "durability"; "delivery"; "service"]);
         (Audio, ["sound"; "price"; "design"; "durability"; "delivery"; "service"]);
         (Footwear, ["price"; "design"; "durability"; "delivery"; "service"]);
         (Fashion, ["price"; "design"; "durability"; "delivery"; "service"]);
         (HomeAppliance, ["cooling"; "power_consumption"; "noise"; "installation"; "service";
                          "durability"; "price"; "design"; "delivery"]);
         (General, ["price"; "design"; "durability"; "delivery"; "service"]) ];
     positive_words :=
       [ "good"; "great"; "excellent"; "amazing"; "fantastic"; "love"; "loved"; "best";
         "awesome"; "perfect"; "superb"; "outstanding"; "brilliant"; "nice"; "satisfied";
         "happy"; "impressed"; "impressive"; "recommend"; "recommended"; "solid"; "worth";
         "pleased"; "delighted"; "wonderful"; "fabulous"; "incredible"; "superior"; "top" ];
     negative_words :=
       [ "bad"; "poor"; "terrible"; "worst"; "awful"; "disappointing"; "disappointed";
         "useless"; "waste"; "pathetic"; "horrible"; "issue"; "issues"; "problem";
         "problems"; "defect"; "defective"; "broken"; "regret"; "avoid"; "faulty";
         "damaged"; "fail"; "fails"; "failed"; "cheap"; "hate"; "hated"; "never"; "not" ] |}.

(** ** Sentiments, tallies and verdicts *)

Inductive Sentiment : Type := Positive | Negative | Neutral.

Definition sentiment_name (s : Sentiment) : string :=
  match s with
  | Positive => "positive"
  | Negative => "negative"
  | Neutral => "neutral"
  end.

Definition Sentiment_eqb (a b : Sentiment) : bool :=
  match a, b with
  | Positive, Positive | Negative, Negative | Neutral, Neutral => true
  | _, _ => false
  end.

(** One value of the [aspect_data] defaultdict. *)
Record Tally : Type := {
  n_positive : nat;
  n_negative : nat;
  n_neutral : nat;
  mentions : list string
}.

Definition tally_total (t : Tally) : nat := n_positive t + n_negative t + n_neutral t.

(** The defaultdict's factory. *)
Definition empty_tally : Tally :=
  {| n_positive := 0; n_negative := 0; n_neutral := 0; mentions := [] |}.

Record Distribution : Type := {
  dist_positive : nat;
  dist_negative : nat;
  dist_neutral : nat
}.

(** One value of the aspect map.  The keys ["count"] and ["distribution"]
    are absent from some of the dicts the source builds, hence the options. *)
Record AspectVerdict : Type := {
  sentiment : Sentiment;
  reason : string;
  count : option nat;
  distribution : option Distribution
}.

Record ThemeVerdict : Type := {
  tv_sentiment : Sentiment;
  tv_reason : string
}.

Record Theme : Type := {
  theme : string;
  theme_sentiment : Sentiment;
  theme_reason : string;
  mention_count : nat
}.

Record Recommendation : Type := {
  rec_name : string;
  rec_reason : string;
  rec_category : Category
}.

Record AnalysisResult : Type := {
  product_name : string;
  category : Category;
  overall_feedback : string;
  aspects : list (string * AspectVerdict);
  summary : string;
  key_themes : list Theme;
  recommended_products : list Recommendation;
  review_count : nat;
  analysis_confidence : string
}.

(** ** Numbers *)

(** [a / b > 0.5] for two counts (exact below [2^53]). *)
Definition ratio_gt_half (a b : nat) : bool :=
  negb (Qle_bool (Z.of_nat a # Pos.of_nat b) (1 # 2)).

(** The exact quotient [a / b] of two counts. *)
Definition ratio (a b : nat) : Q := inject_Z (Z.of_nat a) / inject_Z (Z.of_nat b).

Definition float_of_nat (n : nat) : float :=
  PrimFloat.of_uint63 (Uint63.of_Z (Z.of_nat n)).

(** [a / b * 100] on binary64 floats. *)
Definition percent (a b : nat) : float :=
  PrimFloat.mul (PrimFloat.div (float_of_nat a) (float_of_nat b)) 100%float.

(** The integer nearest to [m * 2^e], halves going to the even side. *)
Definition round_half_even (m e : Z) : Z :=
  if (0 <=? e)%Z then (m * 2 ^ e)%Z
  else
    let d := (2 ^ (- e))%Z in
    let q := (m / d)%Z in
    let r := (m mod d)%Z in
    if (2 * r <? d)%Z then q
    else if (d <? 2 * r)%Z then (q + 1)%Z
    else if Z.even q then q else (q + 1)%Z.

(** [f"{x:.0f}"] *)
Definition format_0f (x : float) : string :=
  match Prim2SF x with
  | S754_zero s => if s then "-0" else "0"
  | S754_infinity s => if s then "-inf" else "inf"
  | S754_nan => "nan"
  | S754_finite s m e =>
      (if s then "-" else EmptyString) +:+ str_of_Z (round_half_even (Z.pos m) e)
  end.

(** [sorted(items, key=key, reverse=True)]: stable, largest key first. *)
Fixpoint insert_desc {A : Type} (key : A -> nat) (x : A) (l : list A) : list A :=
  match l with
  | [] => [x]
  | y :: l' => if key y <=? key x then x :: l else y :: insert_desc key x l'
  end.

Fixpoint sorted_desc {A : Type} (key : A -> nat) (l : list A) : list A :=
  match l with
  | [] => []
  | x :: l' => insert_desc key x (sorted_desc key l')
  end.

(** ** The NLP capabilities the module imports *)

Class NLP : Type := {
  (** [TextBlob(text).sentiment.polarity] *)
  polarity : string -> float;
  (** the module flag set by the guarded [import nltk] *)
  NLTK_AVAILABLE : bool;
  (** [nltk.word_tokenize]; [None] when it raises *)
  word_tokenize : string -> option (list string);
  (** [lemmatizer.lemmatize]; [None] when it raises *)
  lemmatize : string -> option string;
  (** [nltk.pos_tag]; [None] when it raises *)
  pos_tag : list string -> option (list (string * string))
}.

Section Analyzer.

Context {nlp : NLP}.
Variable self : FlipkartReviewAnalyzer.

(** The list comprehension [[lemmatizer.lemmatize(token) for token in tokens]];
    [None] when one of the calls raises. *)
Fixpoint lemmatize_all (tokens : list string) : option (list string) :=
  match tokens with
  | [] => Some []
  | token :: rest =>
      match lemmatize token with
      | None => None
      | Some l =>
          match lemmatize_all rest with
          | None => None
          | Some ls => Some (l :: ls)
          end
      end
  end.

(** [_lemmatize_text]: the text unchanged without NLTK, the lower-cased text
    when the tokenizer or the lemmatizer raises. *)
Definition _lemmatize_text (text : string) : string :=
  if negb NLTK_AVAILABLE then text
  else match word_tokenize (lower text) with
       | Some tokens =>
           match lemmatize_all tokens with
           | Some lemmatized => join " " lemmatized
           | None => lower text
           end
       | None => lower text
       end.

(** The binary64 value of the literal [0.2]. *)
Definition threshold : float := 0x1.999999999999ap-3%float.

(** [_get_sentence_sentiment], on the [str] inputs every caller passes. *)
Definition _get_sentence_sentiment (text : string) : Sentiment :=
  let text_lower := lower text in
  let words := findall_words text_lower in
  let pos_count := length (List.filter (fun w => mem w (positive_words self)) words) in
  let neg_count := length (List.filter (fun w => mem w (negative_words self)) words) in
  let p := polarity text in
  if (neg_count <? pos_count) && (0 <=? p)%float then Positive
  else if (pos_count <? neg_count) && (p <=? 0)%float then Negative
  else if (threshold <? p)%float then Positive
  else if (p <? - threshold)%float then Negative
  else Neutral.

(** The adjective-noun scan of [_extract_pos_aspects]. *)
Fixpoint adjective_noun_pairs (pos_tags : list (string * string))
  : list (string * Sentiment) :=
  match pos_tags with
  | (word, tag) :: (((next_word, next_tag) :: _) as rest) =>
      (if String.prefix "JJ" tag && String.prefix "NN" next_tag then
         if mem word (positive_words self) then [(next_word, Positive)]
         else if mem word (negative_words self) then [(next_word, Negative)]
         else []
       else [])
      ++ adjective_noun_pairs rest
  | _ => []
  end.

(** [_extract_pos_aspects] *)
Definition _extract_pos_aspects (text : string) : list (string * Sentiment) :=
  let clean_text :=
    filter_chars (fun c => is_alpha c || is_digit c || is_re_space c) (lower text) in
  match word_tokenize clean_text with
  | None => []
  | Some tokens =>
      match pos_tag tokens with
      | None => []
      | Some pos_tags => adjective_noun_pairs pos_tags
      end
  end.

(** [data[sentiment] += 1; data['mentions'].append(excerpt)] *)
Definition bump (s : Sentiment) (excerpt : string) (t : Tally) : Tally :=
  {| n_positive := (if Sentiment_eqb s Positive then S (n_positive t) else n_positive t);
     n_negative := (if Sentiment_eqb s Negative then S (n_negative t) else n_negative t);
     n_neutral := (if Sentiment_eqb s Neutral then S (n_neutral t) else n_neutral t);
     mentions := mentions t ++ [excerpt] |}.

(** The two statements on [aspect_data[aspect]]: the defaultdict creates the
    entry (at the end) when the key is new. *)
Fixpoint record_mention (aspect : string) (s : Sentiment) (excerpt : string)
    (aspect_data : list (string * Tally)) : list (string * Tally) :=
  match aspect_data with
  | [] => [(aspect, bump s excerpt empty_tally)]
  | (k, t) :: rest =>
      if String.eqb k aspect then (k, bump s excerpt t) :: rest
      else (k, t) :: record_mention aspect s excerpt rest
  end.

Fixpoint lookup_category (c : Category) (table : list (Category * list string))
  : option (list string) :=
  match table with
  | [] => None
  | (c', l) :: rest => if Category_eqb c' c then Some l else lookup_category c rest
  end.

(** The active aspects of a category. *)
Definition active_aspects (c : Category) : list string :=
  match lookup_category c (category_aspects self) with
  | Some l => l
  | None => map fst (aspect_keywords self)
  end.

(** The inner [for keyword in keywords] loop with its two tests. *)
Definition keyword_matched (keywords : list string)
    (review_lower review_lemmatized : string) : bool :=
  existsb (fun keyword =>
             let keyword_lower := lower keyword in
             contains keyword_lower review_lower
             || contains keyword_lower review_lemmatized) keywords.

(** The body of the [for idx, review in enumerate(reviews)] loop. *)
Definition analyze_one_review (active : list string)
    (aspect_data : list (string * Tally)) (review : string)
  : list (string * Tally) :=
  if String.eqb review EmptyString then aspect_data
  else
    let review_lower := lower review in
    let review_lemmatized := _lemmatize_text review in
    let review_sentiment := _get_sentence_sentiment review in
    let excerpt := slice_to 150 review in
    let after_keywords :=
      fold_left
        (fun acc entry =>
           let '(aspect_name, keywords) := entry in
           if negb (mem aspect_name active) then acc
           else if keyword_matched keywords review_lower review_lemmatized
                then record_mention aspect_name review_sentiment excerpt acc
                else acc)
        (aspect_keywords self) aspect_data in
    if NLTK_AVAILABLE then
      fold_left
        (fun acc found => record_mention (fst found) (snd found) excerpt acc)
        (_extract_pos_aspects review) after_keywords
    else after_keywords.

(** [_generate_aspect_reason] *)
Definition _generate_aspect_reason (aspect : string) (s : Sentiment) (data : Tally)
  : string :=
  let total := tally_total data in
  match s with
  | Positive => "Users praised " +:+ aspect +:+ " in "
                +:+ str_of_nat (n_positive data) +:+ "/" +:+ str_of_nat total +:+ " mentions"
  | Negative => "Users complained about " +:+ aspect +:+ " in "
                +:+ str_of_nat (n_negative data) +:+ "/" +:+ str_of_nat total +:+ " mentions"
  | Neutral => "Mixed opinions on " +:+ aspect +:+ " across "
               +:+ str_of_nat total +:+ " mentions"
  end.

(** [_format_aspect_result] *)
Definition _format_aspect_result (aspect_name : string) (data : Tally) : AspectVerdict :=
  let total := tally_total data in
  if total =? 0 then
    {| sentiment := Neutral; reason := "Not mentioned"; count := Some 0;
       distribution := None |}
  else
    let s :=
      if ratio_gt_half (n_positive data) total then Positive
      else if ratio_gt_half (n_negative data) total then Negative
      else Neutral in
    {| sentiment := s;
       reason := _generate_aspect_reason aspect_name s data;
       count := Some total;
       distribution := Some {| dist_positive := n_positive data;
                               dist_negative := n_negative data;
                               dist_neutral := n_neutral data |} |}.

(** The entry synthesized when no aspect was detected. *)
Definition general_verdict : AspectVerdict :=
  {| sentiment := Neutral;
     reason := "No specific aspects identified in reviews";
     count := None;
     distribution := None |}.

(** The [for aspect, data in aspect_data.items()] loop that fills
    [final_aspects]. *)
Definition finalize_aspects (aspect_data : list (string * Tally))
  : list (string * AspectVerdict) :=
  fold_left
    (fun final entry =>
       let '(aspect, data) := entry in
       if 1 <=? tally_total data
       then dict_set (capitalize aspect) (_format_aspect_result aspect data) final
       else final)
    aspect_data [].

(** [_analyze_aspects] *)
Definition _analyze_aspects (reviews : list string) (c : Category)
  : list (string * AspectVerdict) :=
  let active := active_aspects c in
  let aspect_data := fold_left (analyze_one_review active) reviews [] in
  match finalize_aspects aspect_data with
  | [] => [("General", general_verdict)]
  | final_aspects => final_aspects
  end.

(** The tally loop shared by [_generate_overall_feedback] and
    [_analyze_theme_sentiment]: [(positive, negative, neutral)] counts. *)
Definition count_sentiments (texts : list string) : nat * nat * nat :=
  fold_left
    (fun acc r =>
       let '(p, n, u) := acc in
       match _get_sentence_sentiment r with
       | Positive => (S p, n, u)
       | Negative => (p, S n, u)
       | Neutral => (p, n, S u)
       end)
    texts (0, 0, 0).

(** [[k for k, v in aspects.items() if v['sentiment'] == s]] *)
Definition aspects_with (s : Sentiment) (aspects : list (string * AspectVerdict))
  : list string :=
  map fst (List.filter (fun kv => Sentiment_eqb (sentiment (snd kv)) s) aspects).

(** [_generate_overall_feedback] *)
Definition _generate_overall_feedback (reviews : list string)
    (aspects : list (string * AspectVerdict)) : string :=
  let '(p, n, u) := count_sentiments reviews in
  let total := if p + n + u =? 0 then 1 else p + n + u in
  let pos_pct := percent p total in
  let neg_pct := percent n total in
  let positives := aspects_with Positive aspects in
  let negatives := aspects_with Negative aspects in
  let nonempty (l : list string) := negb (length l =? 0) in
  let feedback :=
    if (60 <? pos_pct)%float then
      "Highly recommended product with " +:+ format_0f pos_pct +:+ "% positive reviews. "
      +:+ (if nonempty positives
           then "Strong points: " +:+ join ", " (take 3 positives) +:+ ". " else EmptyString)
      +:+ (if nonempty negatives
           then "Minor concerns: " +:+ join ", " (take 2 negatives) +:+ "." else EmptyString)
    else if (50 <? neg_pct)%float then
      "Product has significant issues (" +:+ format_0f neg_pct +:+ "% negative reviews). "
      +:+ (if nonempty negatives
           then "Main problems: " +:+ join ", " (take 3 negatives) +:+ ". " else EmptyString)
      +:+ "Consider alternatives carefully."
    else
      "Mixed reviews (" +:+ format_0f pos_pct +:+ "% positive, "
      +:+ format_0f neg_pct +:+ "% negative). "
      +:+ (if nonempty positives
           then "Strengths: " +:+ join ", " (take 2 positives) +:+ ". " else EmptyString)
      +:+ (if nonempty negatives
           then "Weaknesses: " +:+ join ", " (take 2 negatives) +:+ "." else EmptyString) in
  strip feedback.

(** [x[1].get('count', 0)], the sort key of [_build_summary]. *)
Definition count_key (kv : string * AspectVerdict) : nat :=
  default 0 (count (snd kv)).

(** One line of the summary. *)
Definition summary_line (kv : string * AspectVerdict) : string :=
  "• " +:+ fst kv +:+ ": " +:+ capitalize (sentiment_name (sentiment (snd kv)))
  +:+ " - " +:+ reason (snd kv).

(** [_build_summary] *)
Definition _build_summary (aspects : list (string * AspectVerdict)) : string :=
  let lines := map summary_line (take 5 (sorted_desc count_key aspects)) in
  match lines with
  | [] => "Limited feedback available"
  | _ => join (String (ascii_of_nat 10) EmptyString) lines
  end.

(** [_analyze_theme_sentiment] *)
Definition _analyze_theme_sentiment (mentions : list string) : ThemeVerdict :=
  let '(p, n, u) := count_sentiments mentions in
  let total := p + n + u in
  if n <? p then
    {| tv_sentiment := Positive;
       tv_reason := "Positive feedback in " +:+ str_of_nat p +:+ "/"
                    +:+ str_of_nat total +:+ " reviews" |}
  else if p <? n then
    {| tv_sentiment := Negative;
       tv_reason := "Concerns raised in " +:+ str_of_nat n +:+ "/"
                    +:+ str_of_nat total +:+ " reviews" |}
  else
    {| tv_sentiment := Neutral;
       tv_reason := "Mixed opinions across " +:+ str_of_nat total +:+ " reviews" |}.

(** The local table [theme_patterns]. *)
Definition theme_patterns : list (string * list string) :=
  [ ("Value for Money", ["value"; "price"; "worth"; "money"; "vfm"]);
    ("Build Quality", ["quality"; "build"; "premium"; "material"; "construction"]);
    ("User Experience", ["experience"; "easy"; "user"; "interface"; "usability"]);
    ("Reliability", ["reliable"; "durable"; "lasting"; "trust"; "dependable"]);
    ("After Sales", ["service"; "support"; "warranty"; "replacement"; "customer"]) ].

(** [[r for r in reviews if any(k in r.lower() for k in keywords)]] *)
Definition theme_mentions (keywords : list string) (reviews : list string)
  : list string :=
  List.filter (fun r => any_in keywords (lower r)) reviews.

(** The body of the [for name, keywords in theme_patterns.items()] loop. *)
Definition theme_step (reviews : list string) (themes : list Theme)
    (entry : string * list string) : list Theme :=
  let '(name, keywords) := entry in
  let found := theme_mentions keywords reviews in
  if 1 <=? length found then
    let verdict := _analyze_theme_sentiment found in
    themes ++ [ {| theme := name;
                   theme_sentiment := tv_sentiment verdict;
                   theme_reason := tv_reason verdict;
                   mention_count := length found |} ]
  else themes.

(** [_extract_key_themes] *)
Definition _extract_key_themes (reviews : list string) : list Theme :=
  let themes := fold_left (theme_step reviews) theme_patterns [] in
  take 5 (sorted_desc mention_count themes).

(** [_generate_competitor_reason] *)
Definition _generate_competitor_reason (brand : string) (c : Category)
    (weak_aspects : list string) (index : nat) : string :=
  let base_reason :=
    match index with
    | 0 => "Alternative " +:+ category_name c +:+ " option with established brand reputation"
    | 1 => "Known for reliability in the " +:+ category_name c +:+ " segment"
    | 2 => "Popular choice offering competitive features"
    | 3 => "Budget-friendly alternative in " +:+ category_name c +:+ " category"
    | _ => "Alternative " +:+ category_name c +:+ " option"
    end in
  if mem "battery" weak_aspects then
    base_reason +:+ " - known for better battery performance"
  else if mem "camera" weak_aspects then
    base_reason +:+ " - strong camera capabilities"
  else if mem "performance" weak_aspects then
    base_reason +:+ " - superior processing power"
  else base_reason.

(** The [for i, comp in enumerate(...)] loop, from index [i] on. *)
Fixpoint recommendations_from (i : nat) (c : Category) (weak_aspects : list string)
    (competitors : list string) : list Recommendation :=
  match competitors with
  | [] => []
  | comp :: rest =>
      {| rec_name := comp +:+ " "
                     +:+ title (replace_char "_" " " (category_name c)) +:+ " Series";
         rec_reason := _generate_competitor_reason comp c weak_aspects i;
         rec_category := c |}
      :: recommendations_from (S i) c weak_aspects rest
  end.

(** [_build_competitor_recommendations] *)
Definition _build_competitor_recommendations (name : string) (c : Category)
    (competitors : list string) (aspects : list (string * AspectVerdict))
  : list Recommendation :=
  let weak_aspects := map lower (aspects_with Negative aspects) in
  recommendations_from 0 c weak_aspects (take 4 competitors).

(** [_calculate_confidence] *)
Definition _calculate_confidence (reviews : list string)
    (aspects : list (string * AspectVerdict)) : string :=
  let review_count := length reviews in
  let aspect_count :=
    length (List.filter (fun a => negb (String.eqb a "General")) (map fst aspects)) in
  if (20 <=? review_count) && (5 <=? aspect_count) then "High"
  else if (10 <=? review_count) && (3 <=? aspect_count) then "Medium"
  else "Low".

(** [_empty_analysis] *)
Definition _empty_analysis (name : string) : AnalysisResult :=
  {| product_name := name;
     category := detect_product_category name;
     overall_feedback := "No reviews available for analysis";
     aspects := [];
     summary := "No customer feedback found";
     key_themes := [];
     recommended_products := [];
     review_count := 0;
     analysis_confidence := "None" |}.

(** [analyze_reviews] *)
Definition analyze_reviews (name : string) (reviews : list ReviewLike)
  : AnalysisResult :=
  match reviews with
  | [] => _empty_analysis name
  | _ =>
      let rec_data := recommend_competitors name in
      let c := ci_category rec_data in
      let competitors := ci_competitors rec_data in
      let clean_reviews := _clean_reviews reviews in
      let aspect_sentiments := _analyze_aspects clean_reviews c in
      let feedback := _generate_overall_feedback clean_reviews aspect_sentiments in
      let themes := _extract_key_themes clean_reviews in
      let competitors_data :=
        _build_competitor_recommendations name c competitors aspect_sentiments in
      {| product_name := name;
         category := c;
         overall_feedback := feedback;
         aspects := aspect_sentiments;
         summary := _build_summary aspect_sentiments;
         key_themes := themes;
         recommended_products := competitors_data;
         review_count := length clean_reviews;
         analysis_confidence := _calculate_confidence clean_reviews aspect_sentiments |}
  end.

End Analyzer.

(** The number of texts the sentence classifier labels [s]. *)
Definition votes {nlp : NLP} (self : FlipkartReviewAnalyzer) (s : Sentiment)
    (texts : list string) : nat :=
  length (List.filter (fun t => Sentiment_eqb (_get_sentence_sentiment self t) s) texts).

(** The degraded configuration: NLTK missing, and a polarity scorer that
    reports [0.0] for every text (the lexicon vote alone decides). *)
Definition lexicon_only : NLP :=
  {| polarity := fun _ => 0%float;
     NLTK_AVAILABLE := false;
     word_tokenize := fun _ => None;
     lemmatize := fun t => Some t;
     pos_tag := fun _ => None |}.

(** ** The same operations, read off the specification's wording

    The definitions named [spec_...], [first_present_non_null],
    [malformed_entry] and [majority_vote] follow the prose of the
    specification, not the code; the theorems below compare them with the
    embedded functions. *)

(** The five field names a review record may carry its text under. *)
Definition text_fields : list string :=
  ["review_text"; "review"; "text"; "body"; "content"].

(** "First present, non-null field wins". *)
Definition first_present_non_null (d : gmap string pyval) : option pyval :=
  match List.filter (fun v => match v with VNone => false | _ => true end)
          (omap (fun k => d !! k) text_fields) with
  | v :: _ => Some v
  | [] => None
  end.

(** The text the specification's sentence assigns to a record. *)
Definition spec_record_text (d : gmap string pyval) : pyval :=
  default (VStr EmptyString) (first_present_non_null d).

(** "Malformed review entries (missing text field, non-string text)". *)
Definition malformed_entry (r : ReviewLike) : bool :=
  match r with
  | RDict d =>
      match first_present_non_null d with
      | None => true
      | Some (VStr _) => false
      | Some _ => true
      end
  | RObj _ => false
  end.

(** The keyword lists of the specification's category detector. *)
Definition spec_keyword_table : list (list string * Category) :=
  [ (["phone"; "mobile"; "smartphone"], Mobile);
    (["laptop"; "notebook"; "macbook"; "chromebook"], Laptop);
    (["tv"; "television"; "qled"], Television);
    (["earphone"; "headphone"; "earbud"; "speaker"; "soundbar"], Audio);
    (["shoe"; "slipper"; "sandal"; "boot"; "sneaker"], Footwear);
    (["shirt"; "pant"; "jean"; "dress"; "tshirt"; "kurti"], Fashion);
    (["refrigerator"; "washing"; "microwave"; "ac"; "cooler"], HomeAppliance) ].

(** The keyword lists as the source has them. *)
Definition keyword_table : list (list string * Category) :=
  [ (["phone"; "mobile"; "smartphone"; "5g"], Mobile);
    (["laptop"; "notebook"; "macbook"; "chromebook"], Laptop);
    (["tv"; "television"; "smart tv"; "qled"], Television);
    (["earphone"; "headphone"; "earbud"; "speaker"; "soundbar"], Audio);
    (["shoe"; "slipper"; "sandal"; "boot"; "sneaker"], Footwear);
    (["shirt"; "pant"; "jean"; "dress"; "tshirt"; "kurti"], Fashion);
    (["refrigerator"; "washing"; "microwave"; "ac"; "cooler"], HomeAppliance) ].

(** First matching brand, else first matching keyword list, else general. *)
Definition first_match_category (brands : list (string * Category))
    (keywords : list (list string * Category)) (product : string) : Category :=
  let name := lower product in
  match find (fun row => contains (lower (fst row)) name) brands with
  | Some row => snd row
  | None =>
      match find (fun row => any_in (fst row) name) keywords with
      | Some row => snd row
      | None => General
      end
  end.

(** The category detector of the specification. *)
Definition spec_detect_category (product : string) : Category :=
  first_match_category BRAND_TO_CATEGORY spec_keyword_table product.

(** "Majority vote ...; ties -> neutral": the label with strictly the most
    votes, neutral when no label has. *)
Definition majority_vote (p n u : nat) : Sentiment :=
  if (n <? p) && (u <? p) then Positive
  else if (p <? n) && (u <? n) then Negative
  else Neutral.

(** ** Notions the theorems are stated with *)


(** Positive against negative votes: the sentiment is positive when the
    positive votes outnumber the negative ones, negative in the converse
    case, neutral when the two are equal; the reason cites the winning count
    over the number of mentions. *)
Definition positive_vs_negative {nlp : NLP} (self : FlipkartReviewAnalyzer)
    (found : list string) (s : Sentiment) (why : string) : Prop :=
  let p := votes self Positive found in
  let n := votes self Negative found in
  (s = Positive <-> n < p)
  /\ (s = Negative <-> p < n)
  /\ (s = Neutral <-> p = n)
  /\ why = match s with
           | Positive => "Positive feedback in " +:+ str_of_nat p +:+ "/"
                         +:+ str_of_nat (length found) +:+ " reviews"
           | Negative => "Concerns raised in " +:+ str_of_nat n +:+ "/"
                         +:+ str_of_nat (length found) +:+ " reviews"
           | Neutral => "Mixed opinions across " +:+ str_of_nat (length found)
                        +:+ " reviews"
           end.

(** Two analyzer objects with the same tables whose word sets hold the same
    words, possibly enumerated in another order (the source keeps
    [positive_words] and [negative_words] in Python sets, whose enumeration
    order varies from one process to the next). *)
Definition same_word_sets (s1 s2 : FlipkartReviewAnalyzer) : Prop :=
  aspect_keywords s1 = aspect_keywords s2
  /\ category_aspects s1 = category_aspects s2
  /\ Permutation (positive_words s1) (positive_words s2)
  /\ Permutation (negative_words s1) (negative_words s2).

(** The competitor list of the product's category, without the brand
    detected in the product name. *)
Definition remaining_candidates (name : string) : list string :=
  let table := COMPETITOR_MAP (detect_product_category name) in
  match detect_brand (map fst BRAND_TO_CATEGORY) name with
  | Some b => without_brand b table
  | None => table
  end.

(** The four positional rationale templates, by index. *)
Definition positional_templates (c : Category) : list string :=
  [ "Alternative " +:+ category_name c +:+ " option with established brand reputation";
    "Known for reliability in the " +:+ category_name c +:+ " segment";
    "Popular choice offering competitive features";
    "Budget-friendly alternative in " +:+ category_name c +:+ " category" ].

(** [a] is, case-insensitively, the name of an aspect of negative sentiment. *)
Definition is_weak (a : string) (aspects : list (string * AspectVerdict)) : bool :=
  existsb (fun kv => Sentiment_eqb (sentiment (snd kv)) Negative
                     && String.eqb (lower (fst kv)) a) aspects.

(** The aspect-specific clause: at most one, battery before camera before
    performance. *)
Definition weak_clause (aspects : list (string * AspectVerdict)) : string :=
  if is_weak "battery" aspects then " - known for better battery performance"
  else if is_weak "camera" aspects then " - strong camera capabilities"
  else if is_weak "performance" aspects then " - superior processing power"
  else EmptyString.

(** The first brand of the brand table, in table order, whose lower-cased
    name occurs in the lower-cased product name. *)
Definition first_brand_found (name : string) : option string :=
  find (fun b => contains (lower b) (lower name)) (map fst BRAND_TO_CATEGORY).

(** The competitor table of the product's category, minus every entry that
    equals, case apart, the first brand found in the product name. *)
Definition candidates_without_own_brand (name : string) : list string :=
  let table := COMPETITOR_MAP (detect_product_category name) in
  match first_brand_found name with
  | Some b => List.filter (fun comp => negb (String.eqb (lower comp) (lower b))) table
  | None => table
  end.

(** The sentiment as a summary line prints it. *)
Definition sentiment_title (s : Sentiment) : string :=
  match s with
  | Positive => "Positive"
  | Negative => "Negative"
  | Neutral => "Neutral"
  end.

(** The count an entry is ranked by: its count, 0 when it has none. *)
Definition reported_count (v : AspectVerdict) : nat :=
  match count v with
  | Some n => n
  | None => 0
  end.

(** No character of the string is blank. *)
Fixpoint no_blank (s : string) : bool :=
  match s with
  | EmptyString => true
  | String c s' => negb (is_space c) && no_blank s'
  end.

(** A record none of whose text fields holds a truthy value. *)
Definition no_truthy_text (d : gmap string pyval) : Prop :=
  Forall (fun k => truthy (dict_get d k) = false) text_fields.

(** ** Example inputs *)

(** A record whose text is the integer 123. *)
Definition int_text_record : ReviewLike :=
  RDict {[ "review_text" := VInt 123 ]}.

(** A record with an empty [review_text] and a filled [text]. *)
Definition empty_then_text : gmap string pyval :=
  {[ "review_text" := VStr EmptyString; "text" := VStr "nice phone" ]}.

(** A record with a blank [review_text] and a filled [text]. *)
Definition blank_then_text : gmap string pyval :=
  {[ "review_text" := VStr " "; "text" := VStr "real" ]}.

(** A record with no usable text at all. *)
Definition blank_record : gmap string pyval :=
  {[ "review_text" := VStr EmptyString; "rating" := VInt 4 ]}.

(** Five reviews mentioning the price, one of them favourably. *)
Definition price_mentions : list string :=
  ["good price"; "price"; "price"; "price"; "price"].

(** The analyzer of [__init__] with both word sets enumerated backwards. *)
Definition reversed_sets : FlipkartReviewAnalyzer :=
  {| aspect_keywords := aspect_keywords __init__;
     category_aspects := category_aspects __init__;
     positive_words := rev (positive_words __init__);
     negative_words := rev (negative_words __init__) |}.

(** Twenty mentions, fifteen of them positive and five negative. *)
Definition fifteen_of_twenty : Tally :=
  {| n_positive := 15; n_negative := 5; n_neutral := 0; mentions := [] |}.

(** ** A caller, and further notions the later theorems are stated with *)

(** [UnifiedReviewFetcher.analyze_aspects] of
    [data_collection/unified_review_fetcher.py], on a list of review dicts;
    [self] is the fetcher's [aspect_analyzer].  The product name is read off
    the first review; a name that is not a [str] makes
    [detect_product_category] raise on [product_name.lower()], which is the
    [None] result here. *)
Definition analyze_aspects {nlp : NLP} (self : FlipkartReviewAnalyzer)
    (reviews : list (gmap string pyval)) : option AnalysisResult :=
  match reviews with
  | [] => Some (_empty_analysis "Unknown Product")
  | first :: _ =>
      match default (VStr "Unknown Product") (first !! "product_name") with
      | VStr name => Some (analyze_reviews self name (map RDict reviews))
      | _ => None
      end
  end.

(** [d.get(k)] on an insertion-ordered dict. *)
Fixpoint dict_lookup {V : Type} (k : string) (d : list (string * V)) : option V :=
  match d with
  | [] => None
  | (k', v) :: rest => if String.eqb k' k then Some v else dict_lookup k rest
  end.

(** The keyword pass of [_analyze_aspects] records review [review] under
    aspect [a]: the review is not empty, [a] is registered and active, and
    one of its keywords occurs in the review. *)
Definition mentions_aspect {nlp : NLP} (self : FlipkartReviewAnalyzer)
    (active : list string) (a : string) (review : string) : bool :=
  negb (String.eqb review EmptyString)
  && match dict_lookup a (aspect_keywords self) with
     | Some keywords =>
         mem a active
         && keyword_matched keywords (lower review) (_lemmatize_text review)
     | None => false
     end.

(** The tally of a list of reviews that all mention one aspect. *)
Definition tally_of {nlp : NLP} (self : FlipkartReviewAnalyzer)
    (found : list string) : Tally :=
  {| n_positive := votes self Positive found;
     n_negative := votes self Negative found;
     n_neutral := votes self Neutral found;
     mentions := map (slice_to 150) found |}.

(** The registry is a dict (no key twice) and its keys are lower-case. *)
Definition lowercase_registry (self : FlipkartReviewAnalyzer) : Prop :=
  List.NoDup (map fst (aspect_keywords self))
  /\ Forall (fun a => lower a = a) (map fst (aspect_keywords self)).

(** The confidence levels in increasing order. *)
Definition confidence_rank (level : string) : nat :=
  if String.eqb level "High" then 3
  else if String.eqb level "Medium" then 2
  else if String.eqb level "Low" then 1
  else 0.

(** The number of aspects other than "General", as [_calculate_confidence]
    counts them. *)
Definition named_aspects (aspects : list (string * AspectVerdict)) : nat :=
  length (List.filter (fun a => negb (String.eqb a "General")) (map fst aspects)).

(** Three reviews of a phone: two mention the battery, one the display. *)
Definition phone_reviews : list string :=
  ["Excellent battery life"; "Display is bright"; "battery drains, bad"].

(** Two review records without any text. *)
Definition textless_records : list ReviewLike :=
  [RDict blank_record; RDict ∅].

(** * Theorems *)

(** ** Cleaning the review list *)

Lemma _clean_reviews_app (l1 l2 : list ReviewLike) :
  _clean_reviews (l1 ++ l2) = _clean_reviews l1 ++ _clean_reviews l2.
Proof.
  induction l1 as [|r l1 IH]; simpl; [reflexivity|].
  destruct (negb _); simpl; now rewrite IH.
Qed.

Lemma no_truthy_text_review (d : gmap string pyval) :
  no_truthy_text d -> review_text_of (RDict d) = VStr EmptyString.
Proof.
  unfold no_truthy_text, text_fields. intros H.
  repeat (apply Forall_cons_iff in H; destruct H as [? H]).
  simpl. unfold py_or.
  repeat match goal with E : truthy _ = false |- _ => rewrite E; clear E end.
  reflexivity.
Qed.

Lemma no_truthy_text_dropped (d : gmap string pyval) :
  no_truthy_text d -> _clean_reviews [RDict d] = [].
Proof.
  intros H. cbn [_clean_reviews]. rewrite (no_truthy_text_review d H). reflexivity.
Qed.

Lemma analyze_reviews_nonempty {nlp : NLP} (self : FlipkartReviewAnalyzer)
    (name : string) (reviews : list ReviewLike) :
  reviews <> [] ->
  let kept := _clean_reviews reviews in
  let c := detect_product_category name in
  let found := _analyze_aspects self kept c in
  analyze_reviews self name reviews =
    {| product_name := name;
       category := c;
       overall_feedback := _generate_overall_feedback self kept found;
       aspects := found;
       summary := _build_summary found;
       key_themes := _extract_key_themes self kept;
       recommended_products :=
         _build_competitor_recommendations name c
           (ci_competitors (recommend_competitors name)) found;
       review_count := length kept;
       analysis_confidence := _calculate_confidence kept found |}.
Proof.
  intros Hne. destruct reviews as [|r rest]; [congruence|]. reflexivity.
Qed.

(** C1 (the code at the failing input).  A review list whose only entry is
    a blank string is not empty, so [analyze_reviews] skips the empty-input
    return; the cleaned list is empty, and the result has [review_count = 0]
    together with a "General" aspect, confidence "Low" and a "Mixed reviews"
    feedback, not the canonical empty analysis. *)
Theorem analyze_reviews_all_blank {nlp : NLP} (self : FlipkartReviewAnalyzer)
    (name : string) :
  let res := analyze_reviews self name [RObj (VStr "   ")] in
  review_count res = 0
  /\ aspects res = [("General", general_verdict)]
  /\ key_themes res = []
  /\ analysis_confidence res = "Low"
  /\ overall_feedback res = "Mixed reviews (0% positive, 0% negative)."
  /\ aspects (_empty_analysis name) = []
  /\ analysis_confidence (_empty_analysis name) = "None"
  /\ overall_feedback (_empty_analysis name) = "No reviews available for analysis".
Proof.
  cbv zeta. rewrite analyze_reviews_nonempty by discriminate.
  cbn [review_count aspects key_themes analysis_confidence overall_feedback].
  change (_clean_reviews [RObj (VStr "   ")]) with (@nil string).
  repeat split; vm_compute; reflexivity.
Qed.

(** C2 (counterexample).  A record whose text is the integer 123 is
    malformed in the specification's sense, yet it is kept: the cleaning step
    turns it into the review "123", and it is counted. *)
Lemma int_text_record_kept :
  malformed_entry int_text_record = true
  /\ _clean_reviews [int_text_record] = ["123"]
  /\ review_count
       (@analyze_reviews lexicon_only __init__ "Unknown Gadget" [int_text_record]) = 1.
Proof. repeat split; vm_compute; reflexivity. Qed.

Lemma rstrip_no_blank (s : string) : no_blank s = true -> rstrip s = s.
Proof.
  induction s as [|c s IH]; [reflexivity|]. cbn [no_blank rstrip].
  intros H. apply andb_true_iff in H as [Hc Hs]. apply negb_true_iff in Hc.
  rewrite (IH Hs), Hc. destruct s; reflexivity.
Qed.

Lemma strip_no_blank (s : string) : no_blank s = true -> strip s = s.
Proof.
  intros H. unfold strip.
  assert (Hl : lstrip s = s).
  { destruct s as [|c s]; [reflexivity|]. cbn [no_blank] in H. cbn [lstrip].
    apply andb_true_iff in H as [Hc _]. apply negb_true_iff in Hc. now rewrite Hc. }
  rewrite Hl. now apply rstrip_no_blank.
Qed.

Lemma digits_no_blank (d : Decimal.uint) :
  no_blank (DecimalString.NilEmpty.string_of_uint d) = true.
Proof. induction d; cbn [DecimalString.NilEmpty.string_of_uint no_blank]; auto. Qed.

(** [str(z)] of an int is not empty and holds no blank. *)
Lemma str_of_Z_no_blank (z : Z) : str_of_Z z <> EmptyString /\ no_blank (str_of_Z z) = true.
Proof.
  unfold str_of_Z, DecimalString.NilZero.string_of_int.
  destruct (Z.to_int z) as [d|d];
    unfold DecimalString.NilZero.string_of_uint;
    destruct d; (split; [discriminate|]);
    cbn [no_blank DecimalString.NilEmpty.string_of_uint];
    rewrite ?digits_no_blank; reflexivity.
Qed.

(** The or-chain yields a truthy field value, or the empty string. *)
Lemma review_text_truthy_or_empty (d : gmap string pyval) :
  truthy (review_text_of (RDict d)) = true
  \/ review_text_of (RDict d) = VStr EmptyString.
Proof.
  cbn [review_text_of]. unfold py_or.
  destruct (truthy (dict_get d "review_text")) eqn:E1; [left; exact E1|].
  destruct (truthy (dict_get d "review")) eqn:E2; [left; exact E2|].
  destruct (truthy (dict_get d "text")) eqn:E3; [left; exact E3|].
  destruct (truthy (dict_get d "body")) eqn:E4; [left; exact E4|].
  destruct (truthy (dict_get d "content")) eqn:E5; [left; exact E5|].
  right. reflexivity.
Qed.

(** A truthy value that is not a string prints as a non-empty text without
    blanks. *)
Lemma non_string_text (v : pyval) :
  truthy v = true -> (forall s, v <> VStr s) ->
  py_str v <> EmptyString /\ strip (py_str v) = py_str v.
Proof.
  intros Ht Hs. destruct v as [|[|]|z|s]; try discriminate Ht.
  - split; [discriminate | reflexivity].
  - cbn [py_str]. destruct (str_of_Z_no_blank z) as [Hne Hnb].
    split; [exact Hne | now apply strip_no_blank].
  - exfalso. now apply (Hs s).
Qed.

(** C2 (amended).  A record none of whose five text fields holds a truthy
    value (absent, None, empty string, 0 or False) is dropped by the cleaning
    step wherever it stands in the list: the cleaned list, the review count,
    the aspect map and the themes are those of the list without it.  A record
    whose text (the value its fields select) is not a string is not dropped:
    that value is truthy, its [str()] is a non-empty text, and the record
    enters the cleaned list, the review count and the aspect analysis as that
    text. *)
Theorem falsy_text_record_dropped {nlp : NLP} (self : FlipkartReviewAnalyzer)
    (name : string) (before after : list ReviewLike) (d : gmap string pyval) :
  (no_truthy_text d ->
   let reviews := before ++ RDict d :: after in
   let kept := _clean_reviews (before ++ after) in
   let res := analyze_reviews self name reviews in
   _clean_reviews reviews = kept
   /\ review_count res = length kept
   /\ aspects res = _analyze_aspects self kept (detect_product_category name)
   /\ key_themes res = _extract_key_themes self kept)
  /\ (forall v : pyval,
         review_text_of (RDict d) = v ->
         (forall s, v <> VStr s) ->
         let reviews := before ++ RDict d :: after in
         let kept := _clean_reviews before ++ py_str v :: _clean_reviews after in
         let res := analyze_reviews self name reviews in
         truthy v = true
         /\ py_str v <> EmptyString
         /\ _clean_reviews reviews = kept
         /\ review_count res = S (length (_clean_reviews (before ++ after)))
         /\ aspects res = _analyze_aspects self kept (detect_product_category name)
         /\ key_themes res = _extract_key_themes self kept).
Proof.
  assert (Hne : before ++ RDict d :: after <> [])
    by (destruct before; discriminate).
  split.
  - intros Hd reviews kept res.
    assert (Hk : _clean_reviews reviews = kept).
    { unfold reviews, kept.
      change (RDict d :: after) with ([RDict d] ++ after).
      rewrite !_clean_reviews_app, (no_truthy_text_dropped d Hd). reflexivity. }
    unfold res. rewrite (analyze_reviews_nonempty self name reviews Hne).
    cbn [review_count aspects key_themes]. rewrite Hk. auto.
  - intros v Hv Hs reviews kept res.
    assert (Ht : truthy v = true).
    { destruct (review_text_truthy_or_empty d) as [H|H]; rewrite Hv in H;
        [exact H | exfalso; now apply (Hs EmptyString)]. }
    destruct (non_string_text v Ht Hs) as [Hstr Hstrip].
    assert (Hone : _clean_reviews [RDict d] = [py_str v]).
    { cbn [_clean_reviews]. rewrite Hv, Hstrip.
      apply String.eqb_neq in Hstr. now rewrite Hstr. }
    assert (Hk : _clean_reviews reviews = kept).
    { unfold reviews, kept.
      change (RDict d :: after) with ([RDict d] ++ after).
      now rewrite !_clean_reviews_app, Hone. }
    unfold res. rewrite (analyze_reviews_nonempty self name reviews Hne).
    cbn [review_count aspects key_themes]. rewrite Hk.
    split; [exact Ht|]. split; [exact Hstr|]. split; [reflexivity|].
    split; [|split; reflexivity].
    unfold kept. rewrite _clean_reviews_app, !length_app. cbn [length]. lia.
Qed.

(** The amended C2 at a list of three entries, the middle one blank. *)
Lemma falsy_text_record_dropped_witness :
  no_truthy_text blank_record
  /\ review_count
       (@analyze_reviews lexicon_only __init__ "Unknown Gadget"
          ([RObj (VStr "good")] ++ RDict blank_record :: [RObj (VStr "fine")]))
     = length (_clean_reviews ([RObj (VStr "good")] ++ [RObj (VStr "fine")])).
Proof.
  assert (H : no_truthy_text blank_record) by (repeat constructor).
  split; [exact H|].
  exact (proj1 (proj2 (proj1 (falsy_text_record_dropped (nlp := lexicon_only) __init__
           "Unknown Gadget" [RObj (VStr "good")] [RObj (VStr "fine")] blank_record) H))).
Defined.

(** C3 (counterexample).  With [review_text] present, non-null and empty,
    the specification's rule selects the empty text; the code falls through
    to [text] and keeps the review. *)
Lemma empty_review_text_falls_through :
  spec_record_text empty_then_text = VStr EmptyString
  /\ review_text_of (RDict empty_then_text) = VStr "nice phone"
  /\ _clean_reviews [RDict empty_then_text] = ["nice phone"].
Proof. repeat split; vm_compute; reflexivity. Qed.

(** C3 (amended).  The value a record's fields select is the value of the
    first field among review_text, review, text, body, content, in that
    order, whose value is truthy (present, not None and not empty), and the
    empty string when there is none; the text analysed is the [str()] of
    that value, stripped.  The record is discarded exactly when that stripped
    text is empty: when no field is truthy, and also when the first truthy
    field holds nothing but blanks (later fields are not tried then). *)
Theorem review_text_first_truthy (d : gmap string pyval) :
  let selected :=
    match find (fun k => truthy (dict_get d k)) text_fields with
    | Some k => dict_get d k
    | None => VStr EmptyString
    end in
  review_text_of (RDict d) = selected
  /\ (strip (py_str selected) = EmptyString -> _clean_reviews [RDict d] = [])
  /\ (strip (py_str selected) <> EmptyString ->
      _clean_reviews [RDict d] = [strip (py_str selected)])
  /\ (find (fun k => truthy (dict_get d k)) text_fields = None ->
      _clean_reviews [RDict d] = []).
Proof.
  assert (Hsel : review_text_of (RDict d) =
                 match find (fun k => truthy (dict_get d k)) text_fields with
                 | Some k => dict_get d k
                 | None => VStr EmptyString
                 end).
  { unfold text_fields. cbn [review_text_of find]. unfold py_or.
    repeat (destruct (truthy (dict_get d _)); [reflexivity|]).
    reflexivity. }
  cbv zeta. split; [exact Hsel|]. cbn [_clean_reviews]. rewrite Hsel.
  split; [|split].
  - intros ->. reflexivity.
  - intros H. apply String.eqb_neq in H. now rewrite H.
  - intros ->. reflexivity.
Qed.

(** A blank first field is truthy: it is selected, and the record is
    discarded although a later field holds text. *)
Example blank_review_text_discards :
  review_text_of (RDict blank_then_text) = VStr " "
  /\ _clean_reviews [RDict blank_then_text] = [].
Proof. split; vm_compute; reflexivity. Qed.

(** ** Aspect verdicts *)

Lemma ratio_as_fraction (a b : nat) :
  0 < b -> (Z.of_nat a # Pos.of_nat b == ratio a b)%Q.
Proof.
  intros Hb. unfold ratio. rewrite Qmake_Qdiv.
  replace (Z.pos (Pos.of_nat b)) with (Z.of_nat b); [reflexivity|].
  rewrite <- (Nat2Pos.id b) at 1 by lia. now rewrite positive_nat_Z.
Qed.

Lemma ratio_gt_half_iff (a b : nat) :
  0 < b -> ratio_gt_half a b = true <-> (1 # 2 < ratio a b)%Q.
Proof.
  intros Hb. unfold ratio_gt_half.
  rewrite negb_true_iff, <- not_true_iff_false, Qle_bool_iff.
  rewrite <- (ratio_as_fraction a b Hb).
  split; [apply Qnot_le_lt | apply Qlt_not_le].
Qed.

Lemma ratio_gt_half_counts (a b : nat) :
  0 < b -> ratio_gt_half a b = true <-> b < 2 * a.
Proof.
  intros Hb. unfold ratio_gt_half.
  rewrite negb_true_iff, <- not_true_iff_false, Qle_bool_iff.
  unfold Qle. cbn [Qnum Qden].
  replace (Z.pos (Pos.of_nat b)) with (Z.of_nat b).
  - lia.
  - rewrite <- (Nat2Pos.id b) at 1 by lia. now rewrite positive_nat_Z.
Qed.









(** C5.  For a tally with a positive total, the formatted sentiment is
    positive exactly when positive/total exceeds 1/2, otherwise negative
    exactly when negative/total exceeds 1/2, otherwise neutral; the reason is
    the template of the resulting sentiment; and the tally 1/1/0 formats to
    neutral. *)
Theorem format_aspect_result_verdict (name : string) (data : Tally) :
  0 < tally_total data ->
  let total := tally_total data in
  let v := _format_aspect_result name data in
  (sentiment v = Positive <-> (1 # 2 < ratio (n_positive data) total)%Q)
  /\ (sentiment v = Negative <->
        ~ (1 # 2 < ratio (n_positive data) total)%Q
        /\ (1 # 2 < ratio (n_negative data) total)%Q)
  /\ (sentiment v = Neutral <->
        ~ (1 # 2 < ratio (n_positive data) total)%Q
        /\ ~ (1 # 2 < ratio (n_negative data) total)%Q)
  /\ reason v =
       match sentiment v with
       | Positive => "Users praised " +:+ name +:+ " in "
                     +:+ str_of_nat (n_positive data) +:+ "/" +:+ str_of_nat total
                     +:+ " mentions"
       | Negative => "Users complained about " +:+ name +:+ " in "
                     +:+ str_of_nat (n_negative data) +:+ "/" +:+ str_of_nat total
                     +:+ " mentions"
       | Neutral => "Mixed opinions on " +:+ name +:+ " across "
                    +:+ str_of_nat total +:+ " mentions"
       end
  /\ sentiment (_format_aspect_result name
                  {| n_positive := 1; n_negative := 1; n_neutral := 0; mentions := [] |})
     = Neutral.
Proof.
  intros Ht total v.
  pose proof (ratio_gt_half_iff (n_positive data) total Ht) as Hp.
  pose proof (ratio_gt_half_iff (n_negative data) total Ht) as Hn.
  subst v. unfold _format_aspect_result. fold total.
  destruct (total =? 0) eqn:E; [apply Nat.eqb_eq in E; lia|].
  destruct (ratio_gt_half (n_positive data) total) eqn:Ep;
    destruct (ratio_gt_half (n_negative data) total) eqn:En;
    cbn [sentiment reason];
    (split; [|split; [|split; [|split; reflexivity]]]);
    intuition congruence.
Qed.

(** C5 at fifteen positive mentions out of twenty. *)
Lemma format_aspect_result_verdict_witness :
  0 < tally_total fifteen_of_twenty
  /\ sentiment (_format_aspect_result "battery" fifteen_of_twenty) = Positive.
Proof.
  assert (H : 0 < tally_total fifteen_of_twenty) by (vm_compute; lia).
  split; [exact H|].
  apply (proj1 (format_aspect_result_verdict "battery" fifteen_of_twenty H)).
  vm_compute. reflexivity.
Defined.

(** ** Category detection *)

Lemma brand_loop_find (table : list (string * Category)) (name : string) :
  brand_loop table name
  = option_map snd (find (fun row => contains (lower (fst row)) name) table).
Proof.
  induction table as [|[brand c] rest IH]; cbn [brand_loop find fst]; [reflexivity|].
  destruct (contains (lower brand) name); [reflexivity | exact IH].
Qed.

Lemma contains_cons (needle : string) (c : ascii) (hay : string) :
  contains needle hay = true -> contains needle (String c hay) = true.
Proof. intros H. cbn [contains]. rewrite H. apply orb_true_r. Qed.

Ltac peel_prefix H :=
  match type of H with
  | String.prefix _ ?h = true =>
      destruct h as [|? ?]; [discriminate H|];
      cbn [String.prefix] in H;
      match type of H with
      | match ascii_dec ?a ?b with _ => _ end = true =>
          destruct (ascii_dec a b) as [<-|]; [|discriminate H]
      end
  end.

Lemma prefix_smart_tv (hay : string) :
  String.prefix "smart tv" hay = true -> contains "tv" hay = true.
Proof.
  intros H. do 8 peel_prefix H. destruct hay; reflexivity.
Qed.

(** Every name that contains "smart tv" contains "tv". *)
Lemma contains_smart_tv (hay : string) :
  contains "smart tv" hay = true -> contains "tv" hay = true.
Proof.
  induction hay as [|c hay IH]; [discriminate|].
  intros H. cbn [contains] in H. apply orb_true_iff in H as [H|H].
  - now apply prefix_smart_tv.
  - apply contains_cons. auto.
Qed.

Lemma tv_keywords_redundant (name : string) :
  any_in ["tv"; "television"; "smart tv"; "qled"] name
  = any_in ["tv"; "television"; "qled"] name.
Proof.
  unfold any_in. cbn [existsb].
  destruct (contains "tv" name) eqn:Etv; [reflexivity|].
  destruct (contains "smart tv" name) eqn:Es; [|reflexivity].
  apply contains_smart_tv in Es. congruence.
Qed.

(** C6 (counterexample).  "Pixel 5G" names no brand of the table and none
    of the specification's keywords, so the specification's detector answers
    general; the code's mobile keyword list also holds "5g" and answers
    mobile. *)
Lemma five_g_is_mobile :
  detect_product_category "Pixel 5G" = Mobile
  /\ spec_detect_category "Pixel 5G" = General.
Proof. split; vm_compute; reflexivity. Qed.

(** C6 (amended).  [detect_product_category] returns the category of the
    first brand of the table found, case-insensitively, in the product name;
    with no brand found, the category of the first matching keyword list in
    the order mobile, laptop, television, audio, footwear, fashion,
    home_appliance, where the mobile list is phone/mobile/smartphone/5g and
    the television list also names "smart tv"; otherwise general.  It agrees
    with the specification's keyword sets on every name that does not
    contain "5g", and the empty name gives general. *)
Theorem detect_product_category_first_match (name : string) :
  detect_product_category name
    = first_match_category BRAND_TO_CATEGORY keyword_table name
  /\ (contains "5g" (lower name) = false ->
      detect_product_category name = spec_detect_category name)
  /\ (find (fun row => contains (lower (fst row)) (lower name)) BRAND_TO_CATEGORY = None ->
      contains "5g" (lower name) = true ->
      detect_product_category name = Mobile)
  /\ detect_product_category EmptyString = General.
Proof.
  assert (Hcode : detect_product_category name
                  = first_match_category BRAND_TO_CATEGORY keyword_table name).
  { unfold detect_product_category, first_match_category.
    rewrite brand_loop_find.
    destruct (find _ BRAND_TO_CATEGORY) as [row|]; cbn [option_map]; [reflexivity|].
    unfold keyword_table. cbn [find fst snd].
    repeat (destruct (any_in _ (lower name)); [reflexivity|]). reflexivity. }
  split; [exact Hcode|]. split; [|split].
  - intros H5. rewrite Hcode. unfold spec_detect_category, first_match_category.
    destruct (find _ BRAND_TO_CATEGORY) as [row|]; [reflexivity|].
    unfold keyword_table, spec_keyword_table. cbn [find fst snd].
    rewrite tv_keywords_redundant.
    replace (any_in ["phone"; "mobile"; "smartphone"; "5g"] (lower name))
      with (any_in ["phone"; "mobile"; "smartphone"] (lower name)).
    + repeat (destruct (any_in _ (lower name)); [reflexivity|]). reflexivity.
    + unfold any_in. cbn [existsb]. rewrite H5. now rewrite !orb_false_r.
  - intros Hb H5. rewrite Hcode. unfold first_match_category. rewrite Hb.
    unfold keyword_table. cbn [find fst snd].
    replace (any_in ["phone"; "mobile"; "smartphone"; "5g"] (lower name)) with true;
      [reflexivity|].
    unfold any_in. cbn [existsb]. rewrite H5. now rewrite !orb_true_r.
  - vm_compute. reflexivity.
Qed.

(** ** Sorting by a key, largest first *)

Section SortedDesc.

Context {A : Type} (key : A -> nat).

Lemma insert_desc_perm (x : A) (l : list A) :
  Permutation (x :: l) (insert_desc key x l).
Proof.
  induction l as [|y l IH]; cbn [insert_desc]; [reflexivity|].
  destruct (key y <=? key x); [reflexivity|].
  rewrite perm_swap. now apply perm_skip.
Qed.

Lemma sorted_desc_perm (l : list A) : Permutation l (sorted_desc key l).
Proof.
  induction l as [|x l IH]; cbn [sorted_desc]; [reflexivity|].
  rewrite <- insert_desc_perm. now apply perm_skip.
Qed.

Lemma insert_desc_sorted (x : A) (l : list A) :
  StronglySorted (fun a b => key b <= key a) l ->
  StronglySorted (fun a b => key b <= key a) (insert_desc key x l).
Proof.
  induction 1 as [|y l Hs IH Hy]; cbn [insert_desc].
  - repeat constructor.
  - destruct (key y <=? key x) eqn:E.
    + apply Nat.leb_le in E. constructor; [now constructor|].
      constructor; [exact E|].
      eapply List.Forall_impl; [|exact Hy]. cbn. intros; lia.
    + apply Nat.leb_gt in E. constructor; [exact IH|].
      eapply Permutation_Forall; [apply insert_desc_perm|].
      constructor; [lia | exact Hy].
Qed.

Lemma sorted_desc_sorted (l : list A) :
  StronglySorted (fun a b => key b <= key a) (sorted_desc key l).
Proof.
  induction l as [|x l IH]; cbn [sorted_desc]; [constructor|].
  now apply insert_desc_sorted.
Qed.

Lemma sorted_desc_nil (l : list A) : sorted_desc key l = [] -> l = [].
Proof.
  intros H. apply Permutation_nil. rewrite <- H. symmetry. apply sorted_desc_perm.
Qed.

End SortedDesc.

(** ** Themes *)

Section Themes.

Context {nlp : NLP}.
Variable self : FlipkartReviewAnalyzer.

Lemma count_sentiments_from (texts : list string) (p0 n0 u0 : nat) :
  fold_left
    (fun acc r =>
       let '(p, n, u) := acc in
       match _get_sentence_sentiment self r with
       | Positive => (S p, n, u)
       | Negative => (p, S n, u)
       | Neutral => (p, n, S u)
       end) texts (p0, n0, u0)
  = (p0 + votes self Positive texts, n0 + votes self Negative texts,
     u0 + votes self Neutral texts).
Proof.
  revert p0 n0 u0. unfold votes.
  induction texts as [|t texts IH]; intros p0 n0 u0; cbn [fold_left List.filter].
  - cbn. now rewrite !Nat.add_0_r.
  - destruct (_get_sentence_sentiment self t); rewrite IH; cbn [Sentiment_eqb length];
      repeat apply (f_equal2 pair); lia.
Qed.

Lemma count_sentiments_votes (texts : list string) :
  count_sentiments self texts
  = (votes self Positive texts, votes self Negative texts, votes self Neutral texts).
Proof. unfold count_sentiments. now rewrite count_sentiments_from. Qed.

Lemma votes_total (texts : list string) :
  votes self Positive texts + votes self Negative texts + votes self Neutral texts
  = length texts.
Proof.
  unfold votes. induction texts as [|t texts IH]; cbn [List.filter length]; [reflexivity|].
  destruct (_get_sentence_sentiment self t); cbn [Sentiment_eqb length]; lia.
Qed.

Lemma analyze_theme_sentiment_rule (found : list string) :
  positive_vs_negative self found
    (tv_sentiment (_analyze_theme_sentiment self found))
    (tv_reason (_analyze_theme_sentiment self found)).
Proof.
  unfold _analyze_theme_sentiment, positive_vs_negative.
  rewrite count_sentiments_votes, votes_total.
  cbv zeta.
  destruct (votes self Negative found <? votes self Positive found) eqn:E1;
    [apply Nat.ltb_lt in E1 | apply Nat.ltb_ge in E1];
    [|destruct (votes self Positive found <? votes self Negative found) eqn:E2;
      [apply Nat.ltb_lt in E2 | apply Nat.ltb_ge in E2]];
    cbn [tv_sentiment tv_reason];
    repeat apply conj; try reflexivity; intros H;
    first [reflexivity | discriminate H | lia].
Qed.

(** What a reported theme must be, given the table it was drawn from. *)
Let reported (patterns : list (string * list string)) (reviews : list string)
    (t : Theme) : Prop :=
  exists keywords,
    In (theme t, keywords) patterns
    /\ 1 <= length (theme_mentions keywords reviews)
    /\ mention_count t = length (theme_mentions keywords reviews)
    /\ positive_vs_negative self (theme_mentions keywords reviews)
         (theme_sentiment t) (theme_reason t).

Lemma theme_fold_sound (reviews : list string) (patterns : list (string * list string)) :
  forall (acc : list Theme) (t : Theme),
    In t (fold_left (theme_step self reviews) patterns acc) ->
    In t acc \/ reported patterns reviews t.
Proof.
  induction patterns as [|[name keywords] rest IH]; intros acc t Hin; cbn [fold_left] in Hin.
  - now left.
  - apply IH in Hin as [Hin|(kws & Hk & Hrest)].
    + unfold theme_step in Hin.
      destruct (1 <=? length (theme_mentions keywords reviews)) eqn:E; [|now left].
      apply in_app_or in Hin as [Hin|[<-|[]]]; [now left|].
      right. exists keywords. cbn [theme theme_sentiment theme_reason mention_count].
      split; [now left|]. split; [now apply Nat.leb_le in E|].
      split; [reflexivity | apply analyze_theme_sentiment_rule].
    + right. exists kws. split; [now right | exact Hrest].
Qed.

Lemma theme_fold_keeps (reviews : list string) (patterns : list (string * list string)) :
  forall (acc : list Theme) (t : Theme),
    In t acc -> In t (fold_left (theme_step self reviews) patterns acc).
Proof.
  induction patterns as [|[name keywords] rest IH]; intros acc t Hin; cbn [fold_left].
  - exact Hin.
  - apply IH. unfold theme_step.
    destruct (1 <=? length (theme_mentions keywords reviews)); [|exact Hin].
    apply in_or_app. now left.
Qed.

Lemma theme_fold_complete (reviews : list string) (patterns : list (string * list string)) :
  forall (acc : list Theme) (name : string) (keywords : list string),
    In (name, keywords) patterns ->
    theme_mentions keywords reviews <> [] ->
    exists t, In t (fold_left (theme_step self reviews) patterns acc) /\ theme t = name.
Proof.
  induction patterns as [|[name' keywords'] rest IH];
    intros acc name keywords Hin Hne; [destruct Hin|].
  cbn [fold_left]. destruct Hin as [Heq|Hin].
  - inversion Heq; subst name' keywords'. clear Heq.
    unfold theme_step at 2.
    destruct (theme_mentions keywords reviews) as [|m found] eqn:E; [congruence|].
    cbn [length Nat.leb].
    eexists. split; [apply theme_fold_keeps, in_or_app; right; left; reflexivity|].
    reflexivity.
  - now apply (IH _ name keywords).
Qed.

Lemma theme_fold_length (reviews : list string) (patterns : list (string * list string)) :
  forall acc : list Theme,
    length (fold_left (theme_step self reviews) patterns acc)
    <= length acc + length patterns.
Proof.
  induction patterns as [|[name keywords] rest IH]; intros acc; cbn [fold_left length].
  - lia.
  - etransitivity; [apply IH|]. unfold theme_step.
    destruct (1 <=? length (theme_mentions keywords reviews));
      rewrite ?length_app; cbn [length]; lia.
Qed.

Lemma key_themes_elements (reviews : list string) (t : Theme) :
  In t (_extract_key_themes self reviews)
  <-> In t (fold_left (theme_step self reviews) theme_patterns []).
Proof.
  unfold _extract_key_themes.
  pose proof (theme_fold_length reviews theme_patterns []) as Hlen.
  cbn [length Nat.add] in Hlen.
  pose proof (sorted_desc_perm mention_count
                (fold_left (theme_step self reviews) theme_patterns [])) as Hp.
  rewrite take_ge by (rewrite <- (Permutation_length Hp); exact Hlen).
  split; apply Permutation_in; [symmetry|]; exact Hp.
Qed.

(** C7 (amended).  Every reported theme comes from a row of the theme table
    with at least one mentioning review, its mention count is the number of
    mentioning reviews, and its sentiment compares the positive with the
    negative votes only: positive when positive votes outnumber negative
    ones, negative in the converse case, neutral when they are equal, however
    many neutral votes there are; the reason is the matching template with
    the winning count over the number of mentions.  Every row with a
    mentioning review is reported. *)
Theorem theme_sentiment_positive_vs_negative (reviews : list string) :
  (forall t : Theme,
      In t (_extract_key_themes self reviews) ->
      exists keywords,
        In (theme t, keywords) theme_patterns
        /\ 1 <= length (theme_mentions keywords reviews)
        /\ mention_count t = length (theme_mentions keywords reviews)
        /\ positive_vs_negative self (theme_mentions keywords reviews)
             (theme_sentiment t) (theme_reason t))
  /\ (forall (name : string) (keywords : list string),
         In (name, keywords) theme_patterns ->
         theme_mentions keywords reviews <> [] ->
         exists t, In t (_extract_key_themes self reviews) /\ theme t = name)
  /\ (forall found : list string,
         positive_vs_negative self found
           (tv_sentiment (_analyze_theme_sentiment self found))
           (tv_reason (_analyze_theme_sentiment self found))).
Proof.
  split; [|split].
  - intros t Hin. apply key_themes_elements in Hin.
    apply theme_fold_sound in Hin as [[]|H]. exact H.
  - intros name keywords Hin Hne.
    destruct (theme_fold_complete reviews theme_patterns [] name keywords Hin Hne)
      as (t & Ht & Hname).
    exists t. split; [now apply key_themes_elements | exact Hname].
  - apply analyze_theme_sentiment_rule.
Qed.

End Themes.

(** C7 (counterexample).  Of five reviews mentioning the price, one is
    classified positive and four neutral: the majority is neutral, yet the
    theme is reported positive, "in 1/5 reviews". *)
Lemma one_positive_four_neutral :
  count_sentiments (nlp := lexicon_only) __init__ price_mentions = (1, 0, 4)
  /\ majority_vote 1 0 4 = Neutral
  /\ _analyze_theme_sentiment (nlp := lexicon_only) __init__ price_mentions
     = {| tv_sentiment := Positive; tv_reason := "Positive feedback in 1/5 reviews" |}
  /\ _extract_key_themes (nlp := lexicon_only) __init__ price_mentions
     = [ {| theme := "Value for Money"; theme_sentiment := Positive;
            theme_reason := "Positive feedback in 1/5 reviews"; mention_count := 5 |} ].
Proof. repeat split; vm_compute; reflexivity. Qed.

(** ** The order of the word sets *)

Lemma mem_perm (w : string) (l1 l2 : list string) :
  Permutation l1 l2 -> mem w l1 = mem w l2.
Proof.
  unfold mem. induction 1 as [|x l1 l2 _ IH|x y l|l1 l2 l3 _ IH1 _ IH2]; cbn [existsb].
  - reflexivity.
  - now rewrite IH.
  - now rewrite !orb_assoc, (orb_comm (String.eqb w y)).
  - congruence.
Qed.

Lemma fold_left_pointwise {A B : Type} (f g : A -> B -> A) (l : list B) :
  (forall a b, f a b = g a b) -> forall a, fold_left f l a = fold_left g l a.
Proof.
  intros Hfg. induction l as [|b l IH]; intros a; cbn [fold_left]; [reflexivity|].
  now rewrite Hfg, IH.
Qed.

Section SetOrder.

Context {nlp : NLP}.
Variables s1 s2 : FlipkartReviewAnalyzer.
Hypothesis Hsame : same_word_sets s1 s2.

Lemma positive_words_same (w : string) :
  mem w (positive_words s1) = mem w (positive_words s2).
Proof. apply mem_perm, Hsame. Qed.

Lemma negative_words_same (w : string) :
  mem w (negative_words s1) = mem w (negative_words s2).
Proof. apply mem_perm, Hsame. Qed.

Lemma get_sentence_sentiment_same (text : string) :
  _get_sentence_sentiment s1 text = _get_sentence_sentiment s2 text.
Proof.
  unfold _get_sentence_sentiment.
  rewrite (List.filter_ext _ _ positive_words_same).
  rewrite (List.filter_ext _ _ negative_words_same). reflexivity.
Qed.

Lemma adjective_noun_pairs_same (pos_tags : list (string * string)) :
  adjective_noun_pairs s1 pos_tags = adjective_noun_pairs s2 pos_tags.
Proof.
  induction pos_tags as [|[word tag] rest IH]; [reflexivity|].
  destruct rest as [|[next_word next_tag] rest']; [reflexivity|].
  cbn [adjective_noun_pairs] in *.
  now rewrite IH, positive_words_same, negative_words_same.
Qed.

Lemma extract_pos_aspects_same (text : string) :
  _extract_pos_aspects s1 text = _extract_pos_aspects s2 text.
Proof.
  unfold _extract_pos_aspects.
  destruct (word_tokenize _) as [tokens|]; [|reflexivity].
  destruct (pos_tag tokens); [apply adjective_noun_pairs_same | reflexivity].
Qed.

Lemma analyze_one_review_same (active : list string)
    (aspect_data : list (string * Tally)) (review : string) :
  analyze_one_review s1 active aspect_data review
  = analyze_one_review s2 active aspect_data review.
Proof.
  unfold analyze_one_review, _lemmatize_text.
  rewrite get_sentence_sentiment_same, extract_pos_aspects_same.
  destruct Hsame as (-> & _). reflexivity.
Qed.

Lemma analyze_aspects_same (reviews : list string) (c : Category) :
  _analyze_aspects s1 reviews c = _analyze_aspects s2 reviews c.
Proof.
  unfold _analyze_aspects, active_aspects.
  destruct Hsame as (Hk & Hc & _). rewrite Hk, Hc.
  now rewrite (fold_left_pointwise _ _ reviews (analyze_one_review_same _)).
Qed.

Lemma count_sentiments_same (texts : list string) :
  count_sentiments s1 texts = count_sentiments s2 texts.
Proof.
  unfold count_sentiments. apply fold_left_pointwise.
  intros [[p n] u] r. now rewrite get_sentence_sentiment_same.
Qed.

Lemma extract_key_themes_same (reviews : list string) :
  _extract_key_themes s1 reviews = _extract_key_themes s2 reviews.
Proof.
  unfold _extract_key_themes. do 2 f_equal. apply fold_left_pointwise.
  intros themes [name keywords]. unfold theme_step, _analyze_theme_sentiment.
  now rewrite count_sentiments_same.
Qed.

Lemma analyze_reviews_same (name : string) (reviews : list ReviewLike) :
  analyze_reviews s1 name reviews = analyze_reviews s2 name reviews.
Proof.
  destruct reviews as [|r rest]; [reflexivity|].
  rewrite !analyze_reviews_nonempty by discriminate. cbv zeta.
  rewrite analyze_aspects_same, extract_key_themes_same.
  unfold _generate_overall_feedback. now rewrite count_sentiments_same.
Qed.

End SetOrder.

Lemma reversed_sets_same : same_word_sets __init__ reversed_sets.
Proof.
  unfold same_word_sets, reversed_sets. cbn [aspect_keywords category_aspects
    positive_words negative_words].
  repeat split; apply Permutation_rev.
Qed.

(** X20.  The result does not depend on the order in which the word sets
    enumerate their elements (the source keeps them in Python sets, and only
    tests membership): analyzers with the same tables and the same positive
    and negative words, listed in any order, give the same analysis of every
    review list and the same label for every text. *)
Theorem word_set_order_irrelevant {nlp : NLP} (self self' : FlipkartReviewAnalyzer)
    (name : string) (reviews : list ReviewLike) (text : string) :
  same_word_sets self self' ->
  analyze_reviews self name reviews = analyze_reviews self' name reviews
  /\ _get_sentence_sentiment self text = _get_sentence_sentiment self' text.
Proof.
  intros Hsame.
  split; [now apply analyze_reviews_same | now apply get_sentence_sentiment_same].
Qed.

(** X20 at the analyzer of [__init__] and the one with reversed word sets. *)
Lemma word_set_order_irrelevant_witness :
  same_word_sets __init__ reversed_sets
  /\ analyze_reviews (nlp := lexicon_only) __init__ "Samsung Galaxy M34 5G"
       [RObj (VStr "Excellent battery life!"); RObj (VStr "Heats during gaming, bad")]
     = analyze_reviews (nlp := lexicon_only) reversed_sets "Samsung Galaxy M34 5G"
         [RObj (VStr "Excellent battery life!"); RObj (VStr "Heats during gaming, bad")].
Proof.
  split; [exact reversed_sets_same|].
  exact (proj1 (word_set_order_irrelevant (nlp := lexicon_only)
           __init__ reversed_sets "Samsung Galaxy M34 5G"
           [RObj (VStr "Excellent battery life!"); RObj (VStr "Heats during gaming, bad")]
           "good" reversed_sets_same)).
Defined.

(** ** Competitor recommendations *)

Lemma append_empty_r (s : string) : s +:+ EmptyString = s.
Proof.
  induction s as [|c s IH]; [reflexivity|].
  change (String c (s +:+ EmptyString) = String c s). now f_equal.
Qed.

Lemma detect_brand_in (brands : list string) (name b : string) :
  detect_brand brands name = Some b -> In b brands.
Proof.
  induction brands as [|x brands IH]; cbn [detect_brand]; [discriminate|].
  destruct (contains (lower x) (lower name)).
  - intros [= ->]. now left.
  - intros H. right. auto.
Qed.

Lemma brand_names_nonempty (b : string) :
  In b (map fst BRAND_TO_CATEGORY) -> String.eqb b EmptyString = false.
Proof.
  cbn. intros H.
  repeat (destruct H as [<-|H]; [reflexivity|]). destruct H.
Qed.

Lemma recommend_competitors_candidates (name : string) :
  ci_category (recommend_competitors name) = detect_product_category name
  /\ ci_competitors (recommend_competitors name) = take 5 (remaining_candidates name).
Proof.
  split; [reflexivity|].
  unfold recommend_competitors, remaining_candidates. cbn [ci_competitors].
  destruct (detect_brand _ name) as [b|] eqn:E; [|reflexivity].
  apply detect_brand_in, brand_names_nonempty in E. now rewrite E.
Qed.

Lemma mem_weak (a : string) (aspects : list (string * AspectVerdict)) :
  mem a (map lower (aspects_with Negative aspects)) = is_weak a aspects.
Proof.
  unfold mem, aspects_with, is_weak.
  induction aspects as [|[k v] rest IH]; cbn [List.filter map existsb fst snd];
    [reflexivity|].
  destruct (Sentiment_eqb (sentiment v) Negative); cbn [map existsb fst andb].
  - now rewrite IH, (String.eqb_sym a).
  - exact IH.
Qed.

Lemma recommendations_from_lookup (c : Category) (weak : list string)
    (competitors : list string) :
  forall (i j : nat) (r : Recommendation),
    recommendations_from i c weak competitors !! j = Some r ->
    exists comp,
      competitors !! j = Some comp
      /\ r = {| rec_name := comp +:+ " "
                            +:+ title (replace_char "_" " " (category_name c))
                            +:+ " Series";
                rec_reason := _generate_competitor_reason comp c weak (i + j);
                rec_category := c |}.
Proof.
  induction competitors as [|comp rest IH]; intros i j r H; [destruct j; discriminate|].
  destruct j as [|j]; cbn in H.
  - injection H as <-. exists comp. rewrite Nat.add_0_r. split; reflexivity.
  - apply IH in H as (comp' & Hc & ->). exists comp'.
    replace (i + S j) with (S i + j) by lia. split; [exact Hc | reflexivity].
Qed.

Lemma recommendations_from_length (c : Category) (weak : list string)
    (competitors : list string) (i : nat) :
  length (recommendations_from i c weak competitors) = length competitors.
Proof.
  revert i. induction competitors as [|comp rest IH]; intros i; cbn; [reflexivity|].
  now rewrite IH.
Qed.

Lemma competitor_reason_template (brand : string) (c : Category)
    (aspects : list (string * AspectVerdict)) (i : nat) :
  i < 4 ->
  _generate_competitor_reason brand c (map lower (aspects_with Negative aspects)) i
  = nth i (positional_templates c) EmptyString +:+ weak_clause aspects.
Proof.
  intros Hi. unfold _generate_competitor_reason, weak_clause.
  rewrite !mem_weak.
  destruct (is_weak "battery" aspects), (is_weak "camera" aspects),
    (is_weak "performance" aspects);
    destruct i as [|[|[|[|i]]]]; try lia;
    cbn [nth positional_templates]; rewrite ?append_empty_r; reflexivity.
Qed.

Lemma detect_brand_find (brands : list string) (name : string) :
  detect_brand brands name = find (fun b => contains (lower b) (lower name)) brands.
Proof.
  induction brands as [|b rest IH]; cbn [detect_brand find]; [reflexivity|].
  destruct (contains (lower b) (lower name)); [reflexivity | exact IH].
Qed.

(** The candidates the code draws from are the competitor table without the
    first brand found in the name. *)
Lemma remaining_candidates_without_own_brand (name : string) :
  remaining_candidates name = candidates_without_own_brand name.
Proof.
  unfold remaining_candidates, candidates_without_own_brand, first_brand_found.
  cbv zeta. rewrite detect_brand_find.
  destruct (find _ (map fst BRAND_TO_CATEGORY)); reflexivity.
Qed.

Lemma candidates_without_own_brand_In (name comp : string) :
  In comp (candidates_without_own_brand name) ->
  In comp (COMPETITOR_MAP (detect_product_category name))
  /\ forall b, first_brand_found name = Some b -> lower comp <> lower b.
Proof.
  unfold candidates_without_own_brand. cbv zeta.
  destruct (first_brand_found name) as [b|].
  - rewrite filter_In. intros [Hin Hne]. split; [exact Hin|].
    intros b' Hb' Heq. injection Hb' as <-.
    apply negb_true_iff, String.eqb_neq in Hne. contradiction.
  - intros Hin. split; [exact Hin | discriminate].
Qed.

(** C9.  The recommendations of an analysis are at most four; on a
    non-empty review list they are as many as the first four candidates, the
    candidates being the competitor list of the detected category, in table
    order, without the entries that equal (case apart) the first brand of the
    brand table found in the product name; entry [i] is built from candidate
    [i], which is an entry of the category's table other than that brand, and
    its reason is the positional template [i] followed by at most one clause,
    chosen by the first of battery, camera, performance that is
    (case-insensitively) an aspect of negative sentiment. *)
Theorem recommended_products_spec {nlp : NLP} (self : FlipkartReviewAnalyzer)
    (name : string) (reviews : list ReviewLike) :
  let res := analyze_reviews self name reviews in
  let c := detect_product_category name in
  length (recommended_products res) <= 4
  /\ (reviews <> [] ->
      length (recommended_products res)
      = min 4 (length (candidates_without_own_brand name)))
  /\ (forall (i : nat) (r : Recommendation),
         recommended_products res !! i = Some r ->
         i < 4
         /\ exists comp,
             candidates_without_own_brand name !! i = Some comp
             /\ In comp (COMPETITOR_MAP c)
             /\ (forall b, first_brand_found name = Some b -> lower comp <> lower b)
             /\ rec_name r = comp +:+ " "
                             +:+ title (replace_char "_" " " (category_name c))
                             +:+ " Series"
             /\ rec_category r = c
             /\ rec_reason r
                = nth i (positional_templates c) EmptyString +:+ weak_clause (aspects res)).
Proof.
  intros res c. subst res.
  destruct reviews as [|r0 rest].
  { cbn. split; [lia|]. split; [congruence|]. intros i r H. destruct i; discriminate. }
  rewrite analyze_reviews_nonempty by discriminate.
  cbn [recommended_products aspects]. unfold _build_competitor_recommendations.
  destruct (recommend_competitors_candidates name) as [_ ->].
  rewrite remaining_candidates_without_own_brand.
  rewrite take_take. change (4 `min` 5) with 4.
  assert (Hlen : forall weak,
             length (recommendations_from 0 c weak
                       (take 4 (candidates_without_own_brand name)))
             = min 4 (length (candidates_without_own_brand name))).
  { intros weak. now rewrite recommendations_from_length, length_take. }
  split; [rewrite Hlen; lia|]. split; [intros _; apply Hlen|].
  intros i r H.
  apply recommendations_from_lookup in H as (comp & Hc & ->).
  apply lookup_take_Some in Hc as [Hc Hi].
  split; [exact Hi|]. exists comp. cbn [rec_name rec_category rec_reason Nat.add].
  split; [exact Hc|].
  pose proof Hc as Hin. apply list_elem_of_lookup_2, list_elem_of_In in Hin.
  apply candidates_without_own_brand_In in Hin as [Htab Hne].
  split; [exact Htab|]. split; [exact Hne|].
  split; [reflexivity|]. split; [reflexivity|].
  now apply competitor_reason_template.
Qed.

(** ** The summary field *)

Lemma summary_line_nonempty (kv : string * AspectVerdict) : summary_line kv <> EmptyString.
Proof. discriminate. Qed.

Lemma join_nonempty (sep p : string) (rest : list string) :
  p <> EmptyString -> join sep (p :: rest) <> EmptyString.
Proof.
  intros Hp. destruct rest as [|q rest]; cbn [join]; [exact Hp|].
  destruct p; [congruence | discriminate].
Qed.

Lemma analyze_aspects_nonempty {nlp : NLP} (self : FlipkartReviewAnalyzer)
    (reviews : list string) (c : Category) :
  _analyze_aspects self reviews c <> [].
Proof.
  unfold _analyze_aspects. destruct (finalize_aspects _); discriminate.
Qed.

Lemma build_summary_lines (aspects : list (string * AspectVerdict)) :
  aspects <> [] ->
  take 5 (sorted_desc count_key aspects) <> []
  /\ _build_summary aspects
     = join (String (ascii_of_nat 10) EmptyString)
         (map summary_line (take 5 (sorted_desc count_key aspects)))
  /\ _build_summary aspects <> EmptyString.
Proof.
  intros Hne. unfold _build_summary.
  destruct (sorted_desc count_key aspects) as [|kv ranked] eqn:E.
  - apply sorted_desc_nil in E. contradiction.
  - cbn [take map]. split; [discriminate|]. split; [reflexivity|].
    apply join_nonempty, summary_line_nonempty.
Qed.

Lemma strongly_sorted_weaken {A : Type} (R R' : A -> A -> Prop) (l : list A) :
  (forall a b, R a b -> R' a b) -> StronglySorted R l -> StronglySorted R' l.
Proof.
  intros Himp Hs. induction Hs as [|a l _ IH Hall]; constructor; [exact IH|].
  eapply List.Forall_impl; [|exact Hall]. intros b. apply Himp.
Qed.

Lemma summary_line_rendering (kv : string * AspectVerdict) :
  summary_line kv
  = "• " +:+ fst kv +:+ ": " +:+ sentiment_title (sentiment (snd kv))
    +:+ " - " +:+ reason (snd kv).
Proof. unfold summary_line. destruct (sentiment (snd kv)); reflexivity. Qed.

Lemma count_key_reported (kv : string * AspectVerdict) :
  count_key kv = reported_count (snd kv).
Proof. unfold count_key, reported_count. destruct (count (snd kv)); reflexivity. Qed.

(** C10.  The result of [analyze_reviews] carries a non-empty [summary]:
    the fixed string "No customer feedback found" for an empty review list;
    otherwise one line per aspect for the first five aspects of the aspect
    map ranked by their count, largest first (an entry without a count
    ranking as 0), each line a bullet, the aspect name, its sentiment with a
    capital initial and its reason, the lines joined by newlines.  On an
    empty aspect map [_build_summary] gives "Limited feedback available". *)
Theorem summary_field {nlp : NLP} (self : FlipkartReviewAnalyzer)
    (name : string) (reviews : list ReviewLike) :
  let res := analyze_reviews self name reviews in
  summary res <> EmptyString
  /\ (reviews = [] -> summary res = "No customer feedback found")
  /\ (reviews <> [] ->
      exists ranked : list (string * AspectVerdict),
        Permutation (aspects res) ranked
        /\ StronglySorted
             (fun a b => reported_count (snd b) <= reported_count (snd a)) ranked
        /\ take 5 ranked <> []
        /\ length (take 5 ranked) <= 5
        /\ summary res
           = join (String (ascii_of_nat 10) EmptyString)
               (map (fun kv =>
                       "• " +:+ fst kv +:+ ": " +:+ sentiment_title (sentiment (snd kv))
                       +:+ " - " +:+ reason (snd kv))
                  (take 5 ranked)))
  /\ _build_summary [] = "Limited feedback available".
Proof.
  intros res. subst res. destruct reviews as [|r rest].
  - cbn. split; [discriminate|]. split; [reflexivity|]. split; [congruence | reflexivity].
  - rewrite analyze_reviews_nonempty by discriminate. cbn [summary aspects].
    set (found := _analyze_aspects self _ _).
    destruct (build_summary_lines found (analyze_aspects_nonempty self _ _))
      as (Htake & Hsum & Hne).
    split; [exact Hne|]. split; [discriminate|]. split; [|reflexivity].
    intros _. exists (sorted_desc count_key found).
    split; [apply sorted_desc_perm|]. split.
    { eapply strongly_sorted_weaken; [|apply (sorted_desc_sorted count_key)].
      intros a b Hab. cbv beta in Hab. now rewrite <- !count_key_reported. }
    split; [exact Htake|]. split; [rewrite length_take; lia|].
    rewrite Hsum. f_equal. apply map_ext. intros kv. apply summary_line_rendering.
Qed.

(** * Further properties of the analyzer *)

(** ** Whitespace stripping and the cleaned review list *)

Lemma rstrip_keeps_head (c : ascii) (s : string) :
  is_space c = false -> rstrip (String c s) = String c (rstrip s).
Proof.
  intros Hc. cbn [rstrip]. rewrite Hc. destruct (rstrip s); reflexivity.
Qed.

Lemma lstrip_head (s : string) :
  match lstrip s with
  | EmptyString => True
  | String c _ => is_space c = false
  end.
Proof.
  induction s as [|c s IH]; cbn [lstrip]; [exact I|].
  destruct (is_space c) eqn:E; [exact IH | exact E].
Qed.

Lemma lstrip_fixed (c : ascii) (s : string) :
  is_space c = false -> lstrip (String c s) = String c s.
Proof. intros Hc. cbn [lstrip]. now rewrite Hc. Qed.

Lemma rstrip_idempotent (s : string) : rstrip (rstrip s) = rstrip s.
Proof.
  induction s as [|c s IH]; [reflexivity|].
  cbn [rstrip]. destruct (rstrip s) as [|d r] eqn:E.
  - destruct (is_space c) eqn:Ec; [reflexivity|].
    now rewrite rstrip_keeps_head.
  - change (rstrip (String c (String d r)))
      with (match rstrip (String d r) with
            | EmptyString => if is_space c then EmptyString else String c EmptyString
            | String _ _ as x => String c x
            end).
    rewrite IH. reflexivity.
Qed.

Lemma strip_idempotent (s : string) : strip (strip s) = strip s.
Proof.
  unfold strip. pose proof (lstrip_head s) as Hh.
  destruct (lstrip s) as [|c u]; [reflexivity|].
  rewrite (rstrip_keeps_head c u Hh), (lstrip_fixed c _ Hh).
  rewrite <- (rstrip_keeps_head c u Hh). apply rstrip_idempotent.
Qed.

Lemma clean_one_clean (t : string) :
  t <> EmptyString -> strip t = t -> _clean_reviews [RObj (VStr t)] = [t].
Proof.
  intros Hne Hs. cbn [_clean_reviews review_text_of py_str]. rewrite Hs.
  destruct (String.eqb t EmptyString) eqn:E; [apply String.eqb_eq in E; contradiction|].
  reflexivity.
Qed.

Lemma clean_reviews_stripped (reviews : list ReviewLike) :
  Forall (fun t => t <> EmptyString /\ strip t = t) (_clean_reviews reviews).
Proof.
  induction reviews as [|r rest IH]; cbn [_clean_reviews]; [constructor|].
  destruct (String.eqb (strip (py_str (review_text_of r))) EmptyString) eqn:E;
    cbn [negb]; [exact IH|].
  constructor; [|exact IH].
  split; [now apply String.eqb_neq in E | apply strip_idempotent].
Qed.

Lemma clean_reviews_length (reviews : list ReviewLike) :
  length (_clean_reviews reviews) <= length reviews.
Proof.
  induction reviews as [|r rest IH]; cbn [_clean_reviews length]; [lia|].
  destruct (negb _); cbn [length]; lia.
Qed.

(** X1.  Every text [_clean_reviews] keeps is non-empty and carries no
    leading or trailing whitespace (stripping it again changes nothing);
    the cleaned list is never longer than the input; and cleaning is
    idempotent: the cleaned texts, passed again as plain-string reviews, come
    back unchanged and in the same order. *)
Theorem clean_reviews_idempotent (reviews : list ReviewLike) :
  Forall (fun t => t <> EmptyString /\ strip t = t) (_clean_reviews reviews)
  /\ length (_clean_reviews reviews) <= length reviews
  /\ _clean_reviews (map (fun t => RObj (VStr t)) (_clean_reviews reviews))
     = _clean_reviews reviews.
Proof.
  split; [apply clean_reviews_stripped|]. split; [apply clean_reviews_length|].
  pose proof (clean_reviews_stripped reviews) as H.
  induction H as [|t kept [Hne Hs] _ IH]; [reflexivity|].
  cbn [map]. change (RObj (VStr t) :: ?l) with ([RObj (VStr t)] ++ l).
  rewrite _clean_reviews_app, (clean_one_clean t Hne Hs), IH. reflexivity.
Qed.

Lemma clean_reviews_nil_iff (reviews : list ReviewLike) :
  _clean_reviews reviews = []
  <-> Forall (fun r => strip (py_str (review_text_of r)) = EmptyString) reviews.
Proof.
  induction reviews as [|r rest IH]; cbn [_clean_reviews].
  - split; [constructor | reflexivity].
  - destruct (String.eqb (strip (py_str (review_text_of r))) EmptyString) eqn:E;
      cbn [negb].
    + apply String.eqb_eq in E. rewrite IH. split.
      * intros H. now constructor.
      * intros H. now inversion H.
    + apply String.eqb_neq in E. split; [discriminate|].
      intros H. inversion H. contradiction.
Qed.

(** X2.  The [review_count] of an analysis never exceeds the number of
    entries passed in, and it is 0 exactly when every entry cleans to the
    empty text (which includes the empty list). *)
Theorem review_count_bounds {nlp : NLP} (self : FlipkartReviewAnalyzer)
    (name : string) (reviews : list ReviewLike) :
  review_count (analyze_reviews self name reviews) <= length reviews
  /\ (review_count (analyze_reviews self name reviews) = 0
      <-> Forall (fun r => strip (py_str (review_text_of r)) = EmptyString) reviews).
Proof.
  destruct reviews as [|r rest].
  - cbn. split; [lia|]. split; [constructor | reflexivity].
  - rewrite analyze_reviews_nonempty by discriminate. cbn [review_count].
    split; [apply clean_reviews_length|].
    rewrite <- clean_reviews_nil_iff. apply length_zero_iff_nil.
Qed.

(** ** Insertion-ordered dicts *)

Section Dicts.

Context {V : Type}.

Lemma dict_set_keys (k k' : string) (v : V) (d : list (string * V)) :
  In k' (map fst (dict_set k v d)) <-> k' = k \/ In k' (map fst d).
Proof.
  induction d as [|[k0 v0] d IH]; cbn [dict_set map fst In].
  - intuition congruence.
  - destruct (String.eqb k0 k) eqn:E; cbn [map fst In].
    + apply String.eqb_eq in E. subst k0. intuition congruence.
    + rewrite IH. intuition congruence.
Qed.

Lemma dict_set_NoDup (k : string) (v : V) (d : list (string * V)) :
  List.NoDup (map fst d) -> List.NoDup (map fst (dict_set k v d)).
Proof.
  induction d as [|[k0 v0] d IH]; cbn [dict_set map fst]; intros Hd.
  - apply NoDup_cons_iff. split; [intros [] | constructor].
  - apply NoDup_cons_iff in Hd as [Hk0 Hd].
    destruct (String.eqb k0 k) eqn:E; cbn [map fst].
    + now apply NoDup_cons_iff.
    + apply NoDup_cons_iff. split; [|auto].
      rewrite dict_set_keys. intros [->|H]; [|contradiction].
      now rewrite String.eqb_refl in E.
Qed.

Lemma dict_lookup_set_eq (k : string) (v : V) (d : list (string * V)) :
  dict_lookup k (dict_set k v d) = Some v.
Proof.
  induction d as [|[k0 v0] d IH]; cbn [dict_set dict_lookup].
  - now rewrite String.eqb_refl.
  - destruct (String.eqb k0 k) eqn:E; cbn [dict_lookup]; rewrite E; auto.
Qed.

Lemma dict_lookup_set_ne (k k' : string) (v : V) (d : list (string * V)) :
  k <> k' -> dict_lookup k' (dict_set k v d) = dict_lookup k' d.
Proof.
  intros Hne. induction d as [|[k0 v0] d IH]; cbn [dict_set dict_lookup].
  - apply String.eqb_neq in Hne. now rewrite Hne.
  - destruct (String.eqb k0 k) eqn:E; cbn [dict_lookup].
    + apply String.eqb_eq in E. subst k0.
      apply String.eqb_neq in Hne. now rewrite Hne.
    + now rewrite IH.
Qed.

Lemma dict_lookup_In (k : string) (v : V) (d : list (string * V)) :
  dict_lookup k d = Some v -> In (k, v) d.
Proof.
  induction d as [|[k0 v0] d IH]; cbn [dict_lookup]; [discriminate|].
  destruct (String.eqb k0 k) eqn:E.
  - apply String.eqb_eq in E. intros [= ->]. left. now subst.
  - intros H. right. auto.
Qed.

Lemma dict_lookup_None (k : string) (d : list (string * V)) :
  dict_lookup k d = None <-> ~ In k (map fst d).
Proof.
  induction d as [|[k0 v0] d IH]; cbn [dict_lookup map fst In]; [tauto|].
  destruct (String.eqb k0 k) eqn:E.
  - apply String.eqb_eq in E. split; [discriminate | tauto].
  - apply String.eqb_neq in E. rewrite IH. tauto.
Qed.

Lemma dict_lookup_key (k : string) (d : list (string * V)) :
  In k (map fst d) -> exists v, dict_lookup k d = Some v.
Proof.
  intros Hin. destruct (dict_lookup k d) as [v|] eqn:E; [eauto|].
  apply dict_lookup_None in E. contradiction.
Qed.

End Dicts.

(** ** The aspect map as a dict *)

Lemma finalize_fold_NoDup (aspect_data : list (string * Tally)) :
  forall acc : list (string * AspectVerdict),
    List.NoDup (map fst acc) ->
    List.NoDup (map fst
             (fold_left
                (fun final entry =>
                   let '(aspect, data) := entry in
                   if 1 <=? tally_total data
                   then dict_set (capitalize aspect)
                          (_format_aspect_result aspect data) final
                   else final) aspect_data acc)).
Proof.
  induction aspect_data as [|[a t] rest IH]; intros acc Hacc; cbn [fold_left];
    [exact Hacc|].
  apply IH. destruct (1 <=? tally_total t); [now apply dict_set_NoDup | exact Hacc].
Qed.

Lemma finalize_fold_origin (aspect_data : list (string * Tally)) :
  forall (acc : list (string * AspectVerdict)) (k : string) (v : AspectVerdict),
    In (k, v)
       (fold_left
          (fun final entry =>
             let '(aspect, data) := entry in
             if 1 <=? tally_total data
             then dict_set (capitalize aspect)
                    (_format_aspect_result aspect data) final
             else final) aspect_data acc) ->
    In (k, v) acc
    \/ exists a t, In (a, t) aspect_data /\ 1 <= tally_total t
                   /\ k = capitalize a /\ v = _format_aspect_result a t.
Proof.
  induction aspect_data as [|[a t] rest IH]; intros acc k v Hin; cbn [fold_left] in Hin;
    [now left|].
  apply IH in Hin as [Hin|(a' & t' & Hin & Hrest)].
  - destruct (1 <=? tally_total t) eqn:E; [|now left].
    assert (Hset : forall d : list (string * AspectVerdict),
               In (k, v) (dict_set (capitalize a) (_format_aspect_result a t) d) ->
               In (k, v) d
               \/ (k = capitalize a /\ v = _format_aspect_result a t)).
    { induction d as [|[k0 v0] d IHd]; cbn [dict_set].
      - intros [[= <- <-]|[]]. now right.
      - destruct (String.eqb k0 (capitalize a)) eqn:E0.
        + apply String.eqb_eq in E0. subst k0.
          intros [[= <- <-]|H]; [now right | left; now right].
        + intros [H|H]; [left; now left|].
          apply IHd in H as [H|H]; [left; now right | now right]. }
    apply Hset in Hin as [Hin|[-> ->]]; [now left|].
    right. exists a, t. split; [now left|]. apply Nat.leb_le in E. auto.
  - right. exists a', t'. split; [now right | exact Hrest].
Qed.

Lemma analyze_aspects_NoDup {nlp : NLP} (self : FlipkartReviewAnalyzer)
    (reviews : list string) (c : Category) :
  List.NoDup (map fst (_analyze_aspects self reviews c)).
Proof.
  unfold _analyze_aspects.
  set (data := fold_left _ reviews []).
  pose proof (finalize_fold_NoDup data [] (List.NoDup_nil _)) as H.
  fold (finalize_aspects data) in H.
  destruct (finalize_aspects data); [|exact H].
  cbn [map fst]. apply NoDup_cons_iff. split; [intros [] | constructor].
Qed.

(** X3.  The aspect map of an analysis is a well-formed dict: no aspect
    name occurs twice in it; it is empty for the empty review list and never
    empty otherwise. *)
Theorem aspect_map_keys_distinct {nlp : NLP} (self : FlipkartReviewAnalyzer)
    (name : string) (reviews : list ReviewLike) :
  List.NoDup (map fst (aspects (analyze_reviews self name reviews)))
  /\ (aspects (analyze_reviews self name reviews) = [] <-> reviews = []).
Proof.
  destruct reviews as [|r rest].
  - cbn. split; [constructor | tauto].
  - rewrite analyze_reviews_nonempty by discriminate. cbn [aspects].
    split; [apply analyze_aspects_NoDup|].
    split; [|discriminate].
    intros H. now apply analyze_aspects_nonempty in H.
Qed.

(** ** The tallies of the keyword pass *)

Lemma bump_total (s : Sentiment) (e : string) (t : Tally) :
  tally_total (bump s e t) = S (tally_total t).
Proof. unfold tally_total. destruct s; cbn; lia. Qed.

Lemma lookup_record_mention_eq (a : string) (s : Sentiment) (e : string)
    (d : list (string * Tally)) :
  dict_lookup a (record_mention a s e d)
  = Some (bump s e (default empty_tally (dict_lookup a d))).
Proof.
  induction d as [|[k t] d IH]; cbn [record_mention dict_lookup].
  - now rewrite String.eqb_refl.
  - destruct (String.eqb k a) eqn:E; cbn [dict_lookup]; rewrite E; auto.
Qed.

Lemma lookup_record_mention_ne (a b : string) (s : Sentiment) (e : string)
    (d : list (string * Tally)) :
  a <> b -> dict_lookup b (record_mention a s e d) = dict_lookup b d.
Proof.
  intros Hne. induction d as [|[k t] d IH]; cbn [record_mention dict_lookup].
  - apply String.eqb_neq in Hne. now rewrite Hne.
  - destruct (String.eqb k a) eqn:E; cbn [dict_lookup].
    + apply String.eqb_eq in E. subst k. apply String.eqb_neq in Hne. now rewrite Hne.
    + now rewrite IH.
Qed.

Lemma record_mention_keys (a k : string) (s : Sentiment) (e : string)
    (d : list (string * Tally)) :
  In k (map fst (record_mention a s e d)) <-> k = a \/ In k (map fst d).
Proof.
  induction d as [|[k0 t0] d IH]; cbn [record_mention map fst In].
  - intuition congruence.
  - destruct (String.eqb k0 a) eqn:E; cbn [map fst In].
    + apply String.eqb_eq in E. subst k0. intuition congruence.
    + rewrite IH. intuition congruence.
Qed.

Lemma record_mention_NoDup (a : string) (s : Sentiment) (e : string)
    (d : list (string * Tally)) :
  List.NoDup (map fst d) -> List.NoDup (map fst (record_mention a s e d)).
Proof.
  induction d as [|[k0 t0] d IH]; cbn [record_mention map fst]; intros Hd.
  - apply NoDup_cons_iff. split; [intros [] | constructor].
  - apply NoDup_cons_iff in Hd as [Hk0 Hd].
    destruct (String.eqb k0 a) eqn:E; cbn [map fst].
    + now apply NoDup_cons_iff.
    + apply NoDup_cons_iff. split; [|auto].
      rewrite record_mention_keys. intros [->|H]; [|contradiction].
      now rewrite String.eqb_refl in E.
Qed.

Lemma mem_In (x : string) (l : list string) : mem x l = true <-> In x l.
Proof.
  unfold mem. rewrite existsb_exists. split.
  - intros (y & Hy & E). apply String.eqb_eq in E. now subst.
  - intros H. exists x. split; [exact H | apply String.eqb_refl].
Qed.

Lemma dict_lookup_absent {V : Type} (k : string) (d : list (string * V)) :
  ~ In k (map fst d) -> dict_lookup k d = None.
Proof. apply dict_lookup_None. Qed.

(** The [for aspect_name, keywords in self.aspect_keywords.items()] loop,
    seen from one key. *)
Lemma keyword_pass_lookup (active : list string) (rl rlem : string)
    (s : Sentiment) (e : string) (registry : list (string * list string)) :
  List.NoDup (map fst registry) ->
  forall (acc : list (string * Tally)) (b : string),
    dict_lookup b
      (fold_left
         (fun acc entry =>
            let '(aspect_name, keywords) := entry in
            if negb (mem aspect_name active) then acc
            else if keyword_matched keywords rl rlem
                 then record_mention aspect_name s e acc
                 else acc) registry acc)
    = match dict_lookup b registry with
      | Some keywords =>
          if mem b active && keyword_matched keywords rl rlem
          then Some (bump s e (default empty_tally (dict_lookup b acc)))
          else dict_lookup b acc
      | None => dict_lookup b acc
      end.
Proof.
  induction registry as [|[a kws] rest IH]; intros Hnd acc b; cbn [fold_left dict_lookup];
    [reflexivity|].
  cbn [map fst] in Hnd. apply NoDup_cons_iff in Hnd as [Ha Hnd].
  rewrite (IH Hnd). destruct (String.eqb a b) eqn:E.
  - apply String.eqb_eq in E. subst b.
    rewrite (dict_lookup_absent a rest Ha).
    destruct (mem a active); cbn [negb andb]; [|reflexivity].
    destruct (keyword_matched kws rl rlem); [|reflexivity].
    apply lookup_record_mention_eq.
  - apply String.eqb_neq in E.
    assert (Hsame : dict_lookup b
                      (if negb (mem a active) then acc
                       else if keyword_matched kws rl rlem
                            then record_mention a s e acc else acc)
                    = dict_lookup b acc).
    { destruct (negb (mem a active)); [reflexivity|].
      destruct (keyword_matched kws rl rlem); [|reflexivity].
      now apply lookup_record_mention_ne. }
    rewrite Hsame. reflexivity.
Qed.

Lemma filter_permutation {A : Type} (f : A -> bool) (l l' : list A) :
  Permutation l l' -> Permutation (List.filter f l) (List.filter f l').
Proof.
  induction 1 as [|x l l' _ IH|x y l|l l' l'' _ IH1 _ IH2]; cbn [List.filter].
  - constructor.
  - destruct (f x); [now constructor | exact IH].
  - destruct (f x), (f y); try reflexivity. apply perm_swap.
  - now transitivity (List.filter f l').
Qed.

Lemma lower_char_upper_char (c : ascii) :
  lower_char c = c -> lower_char (upper_char c) = c.
Proof.
  destruct c as [[] [] [] [] [] [] [] []]; vm_compute; intros H;
    first [reflexivity | discriminate H].
Qed.

(** On lower-case names [capitalize] is injective. *)
Lemma capitalize_injective (a b : string) :
  lower a = a -> lower b = b -> capitalize a = capitalize b -> a = b.
Proof.
  destruct a as [|c1 r1], b as [|c2 r2]; cbn [lower map_chars capitalize];
    try discriminate; [reflexivity|].
  fold (lower r1). fold (lower r2).
  intros [= Hc1 Hr1] [= Hc2 Hr2] [= Hu Hr].
  rewrite Hr1, Hr2 in Hr. subst r2. f_equal.
  rewrite <- (lower_char_upper_char c1 Hc1), <- (lower_char_upper_char c2 Hc2).
  now rewrite Hu.
Qed.

Lemma finalize_lookup (a : string) (aspect_data : list (string * Tally)) :
  List.NoDup (map fst aspect_data) ->
  lower a = a ->
  Forall (fun k => lower k = k) (map fst aspect_data) ->
  forall acc : list (string * AspectVerdict),
    dict_lookup (capitalize a)
      (fold_left
         (fun final entry =>
            let '(aspect, data) := entry in
            if 1 <=? tally_total data
            then dict_set (capitalize aspect)
                   (_format_aspect_result aspect data) final
            else final) aspect_data acc)
    = match dict_lookup a aspect_data with
      | Some t =>
          if 1 <=? tally_total t then Some (_format_aspect_result a t)
          else dict_lookup (capitalize a) acc
      | None => dict_lookup (capitalize a) acc
      end.
Proof.
  intros Hnd Ha. induction aspect_data as [|[b t] rest IH]; intros Hlow acc;
    cbn [fold_left dict_lookup]; [reflexivity|].
  cbn [map fst] in Hnd, Hlow. apply NoDup_cons_iff in Hnd as [Hb Hnd].
  apply Forall_cons_iff in Hlow as [Hbl Hlow].
  rewrite (IH Hnd Hlow). destruct (String.eqb b a) eqn:E.
  - apply String.eqb_eq in E. subst b.
    rewrite (dict_lookup_absent a rest Hb).
    destruct (1 <=? tally_total t); [apply dict_lookup_set_eq | reflexivity].
  - apply String.eqb_neq in E.
    assert (Hcap : capitalize b <> capitalize a).
    { intros H. apply E. now apply capitalize_injective. }
    assert (Hsame : dict_lookup (capitalize a)
                      (if 1 <=? tally_total t
                       then dict_set (capitalize b) (_format_aspect_result b t) acc
                       else acc)
                    = dict_lookup (capitalize a) acc).
    { destruct (1 <=? tally_total t); [now apply dict_lookup_set_ne | reflexivity]. }
    rewrite Hsame. reflexivity.
Qed.

Section KeywordPass.

Context {nlp : NLP}.
Variable self : FlipkartReviewAnalyzer.
Variable active : list string.

Lemma keyword_fold_NoDup (rl rlem : string) (s : Sentiment) (e : string)
    (registry : list (string * list string)) :
  forall acc : list (string * Tally),
    List.NoDup (map fst acc) ->
    List.NoDup
      (map fst
         (fold_left
            (fun acc entry =>
               let '(aspect_name, keywords) := entry in
               if negb (mem aspect_name active) then acc
               else if keyword_matched keywords rl rlem
                    then record_mention aspect_name s e acc
                    else acc) registry acc)).
Proof.
  induction registry as [|[a kws] rest IH]; intros acc Hacc; cbn [fold_left];
    [exact Hacc|].
  apply IH. destruct (negb (mem a active)); [exact Hacc|].
  destruct (keyword_matched kws rl rlem); [now apply record_mention_NoDup | exact Hacc].
Qed.

Lemma pos_fold_NoDup (e : string) (found : list (string * Sentiment)) :
  forall acc : list (string * Tally),
    List.NoDup (map fst acc) ->
    List.NoDup
      (map fst
         (fold_left (fun acc p => record_mention (fst p) (snd p) e acc) found acc)).
Proof.
  induction found as [|p rest IH]; intros acc Hacc; cbn [fold_left]; [exact Hacc|].
  apply IH. now apply record_mention_NoDup.
Qed.

Lemma analyze_one_review_NoDup (data : list (string * Tally)) (review : string) :
  List.NoDup (map fst data) ->
  List.NoDup (map fst (analyze_one_review self active data review)).
Proof.
  intros Hd. unfold analyze_one_review.
  destruct (String.eqb review EmptyString); [exact Hd|]. cbv zeta.
  destruct NLTK_AVAILABLE; [apply pos_fold_NoDup|]; now apply keyword_fold_NoDup.
Qed.

Lemma aspect_data_NoDup (reviews : list string) :
  forall data : list (string * Tally),
    List.NoDup (map fst data) ->
    List.NoDup (map fst (fold_left (analyze_one_review self active) reviews data)).
Proof.
  induction reviews as [|r rest IH]; intros data Hd; cbn [fold_left]; [exact Hd|].
  apply IH. now apply analyze_one_review_NoDup.
Qed.

Lemma bump_fold (found : list string) :
  forall t0 : Tally,
    fold_left (fun t r => bump (_get_sentence_sentiment self r) (slice_to 150 r) t)
      found t0
    = {| n_positive := n_positive t0 + votes self Positive found;
         n_negative := n_negative t0 + votes self Negative found;
         n_neutral := n_neutral t0 + votes self Neutral found;
         mentions := mentions t0 ++ map (slice_to 150) found |}.
Proof.
  unfold votes. induction found as [|r rest IH]; intros t0; cbn [fold_left].
  - cbn. rewrite !Nat.add_0_r, app_nil_r. now destruct t0.
  - rewrite IH. cbn [List.filter map].
    destruct (_get_sentence_sentiment self r);
      cbn [bump Sentiment_eqb n_positive n_negative n_neutral mentions length];
      rewrite <- app_assoc; cbn [app]; f_equal; lia.
Qed.

Hypothesis Hnltk : NLTK_AVAILABLE = false.
Hypothesis Hkeys : List.NoDup (map fst (aspect_keywords self)).

Lemma one_review_lookup (data : list (string * Tally)) (review b : string) :
  dict_lookup b (analyze_one_review self active data review)
  = if mentions_aspect self active b review
    then Some (bump (_get_sentence_sentiment self review) (slice_to 150 review)
                 (default empty_tally (dict_lookup b data)))
    else dict_lookup b data.
Proof.
  unfold analyze_one_review, mentions_aspect.
  destruct (String.eqb review EmptyString); [reflexivity|]. cbv zeta.
  rewrite Hnltk, (keyword_pass_lookup _ _ _ _ _ _ Hkeys). cbn [negb andb].
  destruct (dict_lookup b (aspect_keywords self)); reflexivity.
Qed.

Lemma aspect_data_lookup (reviews : list string) :
  forall (data : list (string * Tally)) (b : string),
    dict_lookup b (fold_left (analyze_one_review self active) reviews data)
    = match List.filter (mentions_aspect self active b) reviews with
      | [] => dict_lookup b data
      | found =>
          Some (fold_left
                  (fun t r => bump (_get_sentence_sentiment self r) (slice_to 150 r) t)
                  found (default empty_tally (dict_lookup b data)))
      end.
Proof.
  induction reviews as [|r rest IH]; intros data b; cbn [fold_left List.filter];
    [reflexivity|].
  rewrite IH, one_review_lookup.
  destruct (mentions_aspect self active b r); [|reflexivity].
  cbn [default fold_left].
  destruct (List.filter (mentions_aspect self active b) rest); reflexivity.
Qed.

(** After the loop over the reviews, the tally kept under [b] is the tally
    of the reviews that mention [b]; a key with no such review is absent. *)
Lemma aspect_data_tally (reviews : list string) (b : string) :
  dict_lookup b (fold_left (analyze_one_review self active) reviews [])
  = match List.filter (mentions_aspect self active b) reviews with
    | [] => None
    | found => Some (tally_of self found)
    end.
Proof.
  rewrite aspect_data_lookup. cbn [dict_lookup default].
  destruct (List.filter (mentions_aspect self active b) reviews) as [|r found] eqn:E;
    [reflexivity|].
  now rewrite bump_fold.
Qed.

Lemma mentions_aspect_registered (b review : string) :
  mentions_aspect self active b review = true ->
  In b (map fst (aspect_keywords self)) /\ In b active.
Proof.
  unfold mentions_aspect. intros H. apply andb_true_iff in H as [_ H].
  destruct (dict_lookup b (aspect_keywords self)) as [kws|] eqn:E; [|discriminate].
  apply andb_true_iff in H as [Hact _]. split; [|now apply mem_In].
  apply dict_lookup_In in E. apply (in_map fst) in E. exact E.
Qed.

Lemma aspect_data_keys (reviews : list string) (b : string) :
  In b (map fst (fold_left (analyze_one_review self active) reviews [])) ->
  exists r, In r reviews /\ mentions_aspect self active b r = true.
Proof.
  intros Hin. apply dict_lookup_key in Hin as [t Ht].
  rewrite aspect_data_tally in Ht.
  destruct (List.filter (mentions_aspect self active b) reviews) as [|r found] eqn:E;
    [discriminate|].
  assert (Hr : In r (List.filter (mentions_aspect self active b) reviews))
    by (rewrite E; now left).
  apply filter_In in Hr. eauto.
Qed.

End KeywordPass.

Lemma dict_lookup_of_In {V : Type} (k : string) (v : V) (d : list (string * V)) :
  List.NoDup (map fst d) -> In (k, v) d -> dict_lookup k d = Some v.
Proof.
  induction d as [|[k0 v0] d IH]; cbn [map fst dict_lookup]; intros Hnd Hin;
    [destruct Hin|].
  apply NoDup_cons_iff in Hnd as [Hk0 Hnd]. destruct Hin as [[= -> ->]|Hin].
  - now rewrite String.eqb_refl.
  - destruct (String.eqb k0 k) eqn:E; [|auto].
    apply String.eqb_eq in E. subst k0.
    exfalso. apply Hk0. apply (in_map fst) in Hin. exact Hin.
Qed.

Lemma format_counts (a : string) (t : Tally) :
  1 <= tally_total t ->
  count (_format_aspect_result a t) = Some (tally_total t)
  /\ distribution (_format_aspect_result a t)
     = Some {| dist_positive := n_positive t; dist_negative := n_negative t;
               dist_neutral := n_neutral t |}.
Proof.
  intros Ht. unfold _format_aspect_result.
  destruct (tally_total t =? 0) eqn:E; [apply Nat.eqb_eq in E; lia|].
  split; reflexivity.
Qed.

Lemma tally_of_total {nlp : NLP} (self : FlipkartReviewAnalyzer) (found : list string) :
  tally_total (tally_of self found) = length found.
Proof. unfold tally_total, tally_of. cbn. apply votes_total. Qed.

Lemma analyze_aspects_cases {nlp : NLP} (self : FlipkartReviewAnalyzer)
    (reviews : list string) (c : Category) :
  let data := fold_left (analyze_one_review self (active_aspects self c)) reviews [] in
  (finalize_aspects data = []
   /\ _analyze_aspects self reviews c = [("General", general_verdict)])
  \/ (finalize_aspects data <> []
      /\ _analyze_aspects self reviews c = finalize_aspects data).
Proof.
  cbv zeta. unfold _analyze_aspects.
  destruct (finalize_aspects _) eqn:E; [left | right]; split;
    first [reflexivity | discriminate].
Qed.

Section KeywordVerdicts.

Context {nlp : NLP}.
Variable self : FlipkartReviewAnalyzer.
Hypothesis Hnltk : NLTK_AVAILABLE = false.
Hypothesis Hreg : lowercase_registry self.

Lemma aspect_data_lowercase (active : list string) (reviews : list string) :
  Forall (fun k => lower k = k)
    (map fst (fold_left (analyze_one_review self active) reviews [])).
Proof.
  apply List.Forall_forall. intros k Hk.
  apply (aspect_data_keys self active Hnltk (proj1 Hreg)) in Hk as (r & _ & Hm).
  apply mentions_aspect_registered in Hm as [Hin _].
  destruct Hreg as [_ Hlow]. rewrite List.Forall_forall in Hlow. auto.
Qed.

Lemma finalized_lookup (reviews : list string) (c : Category) (a : string) :
  lower a = a ->
  dict_lookup (capitalize a)
    (finalize_aspects
       (fold_left (analyze_one_review self (active_aspects self c)) reviews []))
  = match List.filter (mentions_aspect self (active_aspects self c) a) reviews with
    | [] => None
    | found => Some (_format_aspect_result a (tally_of self found))
    end.
Proof.
  intros Ha. unfold finalize_aspects.
  rewrite (finalize_lookup a _ (aspect_data_NoDup self _ reviews [] (List.NoDup_nil _))
             Ha (aspect_data_lowercase _ reviews)).
  rewrite (aspect_data_tally self _ Hnltk (proj1 Hreg)). cbn [dict_lookup].
  destruct (List.filter _ reviews) as [|r found] eqn:E; [reflexivity|].
  rewrite tally_of_total. reflexivity.
Qed.

Lemma finalized_origin (reviews : list string) (c : Category)
    (k : string) (v : AspectVerdict) :
  In (k, v)
     (finalize_aspects
        (fold_left (analyze_one_review self (active_aspects self c)) reviews [])) ->
  exists a,
    k = capitalize a /\ lower a = a
    /\ In a (map fst (aspect_keywords self)) /\ In a (active_aspects self c)
    /\ List.filter (mentions_aspect self (active_aspects self c) a) reviews <> []
    /\ v = _format_aspect_result a
             (tally_of self
                (List.filter (mentions_aspect self (active_aspects self c) a) reviews)).
Proof.
  intros Hin. apply finalize_fold_origin in Hin as [[]|(a & t & Hat & _ & -> & ->)].
  exists a.
  assert (Hk : In a (map fst
             (fold_left (analyze_one_review self (active_aspects self c)) reviews [])))
    by (apply (in_map fst) in Hat; exact Hat).
  pose proof (aspect_data_lowercase (active_aspects self c) reviews) as Hlow.
  rewrite List.Forall_forall in Hlow.
  destruct (aspect_data_keys self _ Hnltk (proj1 Hreg) reviews a Hk) as (r & Hr & Hm).
  destruct (mentions_aspect_registered self _ a r Hm) as [Hreg_a Hact].
  apply dict_lookup_of_In in Hat;
    [|apply aspect_data_NoDup; constructor].
  rewrite (aspect_data_tally self _ Hnltk (proj1 Hreg)) in Hat.
  destruct (List.filter _ reviews) as [|r0 found] eqn:E; [discriminate|].
  injection Hat as <-.
  repeat (split; [first [reflexivity | now auto | discriminate]|]). reflexivity.
Qed.

End KeywordVerdicts.

Lemma init_registry_lowercase : lowercase_registry __init__.
Proof.
  unfold lowercase_registry.
  set (names := map fst (aspect_keywords __init__)). vm_compute in names. subst names.
  split.
  - repeat (apply NoDup_cons_iff; split;
            [cbn [In]; intros H; repeat (destruct H as [H|H]; [discriminate H|]); exact H|]).
    constructor.
  - repeat (constructor; [reflexivity|]). constructor.
Qed.

Lemma votes_permutation {nlp : NLP} (self : FlipkartReviewAnalyzer) (s : Sentiment)
    (l l' : list string) :
  Permutation l l' -> votes self s l = votes self s l'.
Proof. intros H. unfold votes. apply Permutation_length. now apply filter_permutation. Qed.

Lemma format_permutation {nlp : NLP} (self : FlipkartReviewAnalyzer) (a : string)
    (l l' : list string) :
  Permutation l l' ->
  _format_aspect_result a (tally_of self l) = _format_aspect_result a (tally_of self l').
Proof.
  intros H. unfold _format_aspect_result, _generate_aspect_reason, tally_total, tally_of.
  cbn [n_positive n_negative n_neutral].
  now rewrite !(votes_permutation self _ l l' H).
Qed.

(** X4.  With keyword detection alone (NLTK unavailable) and a registry
    whose keys are distinct and lower-case, the verdict reported under the
    capitalized name of an aspect is the formatted tally of exactly the
    reviews that mention it (non-empty reviews in which a keyword of the
    aspect occurs, the aspect being active for the category): its count is
    the number of those reviews and its distribution their split by sentence
    sentiment.  An aspect that no review mentions has no entry. *)
Theorem aspect_verdict_counts_mentions {nlp : NLP} (self : FlipkartReviewAnalyzer)
    (reviews : list string) (c : Category) (a : string) :
  NLTK_AVAILABLE = false ->
  lowercase_registry self ->
  lower a = a ->
  let found := List.filter (mentions_aspect self (active_aspects self c) a) reviews in
  (found <> [] ->
   dict_lookup (capitalize a) (_analyze_aspects self reviews c)
   = Some (_format_aspect_result a (tally_of self found))
   /\ count (_format_aspect_result a (tally_of self found)) = Some (length found)
   /\ distribution (_format_aspect_result a (tally_of self found))
      = Some {| dist_positive := votes self Positive found;
                dist_negative := votes self Negative found;
                dist_neutral := votes self Neutral found |})
  /\ (found = [] -> capitalize a <> "General" ->
      dict_lookup (capitalize a) (_analyze_aspects self reviews c) = None).
Proof.
  intros Hnltk Hreg Ha found.
  pose proof (finalized_lookup self Hnltk Hreg reviews c a Ha) as Hl. fold found in Hl.
  destruct (analyze_aspects_cases self reviews c) as [[Hfin ->]|[Hfin ->]]; split.
  - intros Hne. rewrite Hfin in Hl. destruct found; [congruence | discriminate Hl].
  - intros _ Hg. cbn [dict_lookup].
    destruct (String.eqb "General" (capitalize a)) eqn:E; [|reflexivity].
    apply String.eqb_eq in E. congruence.
  - intros Hne. rewrite Hl. destruct found as [|r rest] eqn:E; [congruence|].
    split; [reflexivity|].
    assert (Ht : 1 <= tally_total (tally_of self (r :: rest)))
      by (rewrite tally_of_total; cbn [length]; lia).
    destruct (format_counts a _ Ht) as [Hc Hd].
    split; [now rewrite Hc, tally_of_total | exact Hd].
  - intros Hnil _. rewrite Hl, Hnil. reflexivity.
Qed.

(** X4 at three phone reviews, two of which mention the battery. *)
Lemma aspect_verdict_counts_mentions_witness :
  NLTK_AVAILABLE (NLP := lexicon_only) = false
  /\ lowercase_registry __init__
  /\ lower "battery" = "battery"
  /\ dict_lookup "Battery"
       (_analyze_aspects (nlp := lexicon_only) __init__ phone_reviews Mobile)
     = Some (_format_aspect_result "battery"
               (tally_of (nlp := lexicon_only) __init__
                  ["Excellent battery life"; "battery drains, bad"])).
Proof.
  split; [reflexivity|]. split; [exact init_registry_lowercase|].
  split; [reflexivity|].
  refine (proj1 (proj1 (aspect_verdict_counts_mentions (nlp := lexicon_only) __init__
                   phone_reviews Mobile "battery" eq_refl init_registry_lowercase eq_refl)
                   _)).
  vm_compute. discriminate.
Defined.

(** X5.  With keyword detection alone, no verdict counts more mentions
    than there are reviews: every count in the aspect map lies between 1 and
    the number of reviews analysed, and the entry is the verdict of an aspect
    that is registered and active for the category. *)
Theorem aspect_count_within_reviews {nlp : NLP} (self : FlipkartReviewAnalyzer)
    (reviews : list string) (c : Category) :
  NLTK_AVAILABLE = false ->
  lowercase_registry self ->
  Forall (fun kv =>
            (fst kv = "General" /\ snd kv = general_verdict)
            \/ exists a n,
                fst kv = capitalize a
                /\ In a (map fst (aspect_keywords self))
                /\ In a (active_aspects self c)
                /\ count (snd kv) = Some n /\ 1 <= n <= length reviews)
    (_analyze_aspects self reviews c).
Proof.
  intros Hnltk Hreg. apply List.Forall_forall. intros [k v] Hin. cbn [fst snd].
  destruct (analyze_aspects_cases self reviews c) as [[_ Hout]|[_ Hout]];
    rewrite Hout in Hin.
  - destruct Hin as [[= <- <-]|[]]. now left.
  - right. apply (finalized_origin self Hnltk Hreg) in Hin
      as (a & -> & _ & Hra & Hact & Hne & ->).
    set (found := List.filter _ reviews) in *.
    assert (Ht : 1 <= tally_total (tally_of self found)).
    { rewrite tally_of_total. destruct found; [congruence | cbn [length]; lia]. }
    exists a, (length found). split; [reflexivity|]. split; [exact Hra|].
    split; [exact Hact|].
    destruct (format_counts a _ Ht) as [Hc _]. rewrite Hc, tally_of_total.
    split; [reflexivity|]. rewrite tally_of_total in Ht. split; [exact Ht|].
    apply filter_length_le.
Qed.

(** X5 at the three phone reviews. *)
Lemma aspect_count_within_reviews_witness :
  NLTK_AVAILABLE (NLP := lexicon_only) = false
  /\ lowercase_registry __init__
  /\ Forall (fun kv =>
               (fst kv = "General" /\ snd kv = general_verdict)
               \/ exists a n,
                   fst kv = capitalize a
                   /\ In a (map fst (aspect_keywords __init__))
                   /\ In a (active_aspects __init__ Mobile)
                   /\ count (snd kv) = Some n /\ 1 <= n <= length phone_reviews)
       (_analyze_aspects (nlp := lexicon_only) __init__ phone_reviews Mobile).
Proof.
  split; [reflexivity|]. split; [exact init_registry_lowercase|].
  exact (aspect_count_within_reviews (nlp := lexicon_only) __init__ phone_reviews
           Mobile eq_refl init_registry_lowercase).
Defined.

Section OrderOfReviews.

Context {nlp : NLP}.
Variable self : FlipkartReviewAnalyzer.
Hypothesis Hnltk : NLTK_AVAILABLE = false.
Hypothesis Hreg : lowercase_registry self.

Lemma finalized_entry_permutation (reviews reviews' : list string) (c : Category)
    (k : string) (v : AspectVerdict) :
  Permutation reviews reviews' ->
  In (k, v)
     (finalize_aspects
        (fold_left (analyze_one_review self (active_aspects self c)) reviews [])) ->
  dict_lookup k
    (finalize_aspects
       (fold_left (analyze_one_review self (active_aspects self c)) reviews' []))
  = Some v.
Proof.
  intros Hp Hin.
  apply (finalized_origin self Hnltk Hreg) in Hin as (a & -> & Ha & _ & _ & Hne & ->).
  rewrite (finalized_lookup self Hnltk Hreg reviews' c a Ha).
  pose proof (filter_permutation (mentions_aspect self (active_aspects self c) a)
                _ _ Hp) as Hf.
  destruct (List.filter _ reviews') as [|r found'] eqn:E.
  - symmetry in Hf. apply Permutation_nil in Hf. contradiction.
  - f_equal. symmetry. now apply format_permutation.
Qed.

Lemma finalized_lookup_permutation (reviews reviews' : list string) (c : Category)
    (k : string) :
  Permutation reviews reviews' ->
  dict_lookup k
    (finalize_aspects
       (fold_left (analyze_one_review self (active_aspects self c)) reviews []))
  = dict_lookup k
      (finalize_aspects
         (fold_left (analyze_one_review self (active_aspects self c)) reviews' [])).
Proof.
  intros Hp.
  destruct (dict_lookup k (finalize_aspects (fold_left _ reviews []))) as [v|] eqn:E1.
  - apply dict_lookup_In in E1.
    symmetry. now apply (finalized_entry_permutation reviews reviews').
  - destruct (dict_lookup k (finalize_aspects (fold_left _ reviews' []))) as [v|] eqn:E2;
      [|reflexivity].
    apply dict_lookup_In in E2.
    apply (finalized_entry_permutation reviews' reviews c k v (Permutation_sym Hp)) in E2.
    congruence.
Qed.

Lemma finalized_nil_permutation (reviews reviews' : list string) (c : Category) :
  Permutation reviews reviews' ->
  finalize_aspects
    (fold_left (analyze_one_review self (active_aspects self c)) reviews []) = [] ->
  finalize_aspects
    (fold_left (analyze_one_review self (active_aspects self c)) reviews' []) = [].
Proof.
  intros Hp Hnil.
  destruct (finalize_aspects (fold_left _ reviews' [])) as [|[k v] rest] eqn:E;
    [reflexivity|].
  assert (Hin : In (k, v) (finalize_aspects
                   (fold_left (analyze_one_review self (active_aspects self c))
                      reviews' []))) by (rewrite E; now left).
  apply (finalized_entry_permutation reviews' reviews c k v (Permutation_sym Hp)) in Hin.
  rewrite Hnil in Hin. discriminate Hin.
Qed.

End OrderOfReviews.

(** X6.  With keyword detection alone, the verdicts do not depend on the
    order of the reviews: analysing a reordered review list gives, under
    every aspect name, the same verdict (sentiment, reason, count and
    distribution), or no entry in both cases. *)
Theorem aspect_verdicts_order_independent {nlp : NLP} (self : FlipkartReviewAnalyzer)
    (reviews reviews' : list string) (c : Category) (k : string) :
  NLTK_AVAILABLE = false ->
  lowercase_registry self ->
  Permutation reviews reviews' ->
  dict_lookup k (_analyze_aspects self reviews c)
  = dict_lookup k (_analyze_aspects self reviews' c).
Proof.
  intros Hnltk Hreg Hp.
  destruct (analyze_aspects_cases self reviews c) as [[Hf ->]|[Hf ->]];
    destruct (analyze_aspects_cases self reviews' c) as [[Hf' ->]|[Hf' ->]].
  - reflexivity.
  - exfalso. apply Hf'.
    now apply (finalized_nil_permutation self Hnltk Hreg reviews reviews').
  - exfalso. apply Hf.
    apply (finalized_nil_permutation self Hnltk Hreg reviews' reviews);
      [now apply Permutation_sym | exact Hf'].
  - now apply finalized_lookup_permutation.
Qed.

(** X6 at the three phone reviews and their reversal. *)
Lemma aspect_verdicts_order_independent_witness :
  NLTK_AVAILABLE (NLP := lexicon_only) = false
  /\ lowercase_registry __init__
  /\ Permutation phone_reviews (rev phone_reviews)
  /\ dict_lookup "Battery"
       (_analyze_aspects (nlp := lexicon_only) __init__ phone_reviews Mobile)
     = dict_lookup "Battery"
         (_analyze_aspects (nlp := lexicon_only) __init__ (rev phone_reviews) Mobile).
Proof.
  split; [reflexivity|]. split; [exact init_registry_lowercase|].
  split; [apply Permutation_rev|].
  exact (aspect_verdicts_order_independent (nlp := lexicon_only) __init__
           phone_reviews (rev phone_reviews) Mobile "Battery"
           eq_refl init_registry_lowercase (Permutation_rev phone_reviews)).
Defined.

(** ** Which aspects can appear *)

Section AspectKeys.

Context {nlp : NLP}.
Variable self : FlipkartReviewAnalyzer.
Variable active : list string.

Lemma keyword_fold_keys (rl rlem : string) (s : Sentiment) (e : string)
    (registry : list (string * list string)) :
  forall (acc : list (string * Tally)) (k : string),
    In k (map fst
            (fold_left
               (fun acc entry =>
                  let '(aspect_name, keywords) := entry in
                  if negb (mem aspect_name active) then acc
                  else if keyword_matched keywords rl rlem
                       then record_mention aspect_name s e acc
                       else acc) registry acc)) ->
    In k (map fst acc) \/ (In k (map fst registry) /\ In k active).
Proof.
  induction registry as [|[a kws] rest IH]; intros acc k Hin; cbn [fold_left] in Hin;
    [now left|].
  apply IH in Hin as [Hin|[Hin Hact]]; [|right; split; [now right | exact Hact]].
  destruct (mem a active) eqn:Ea; cbn [negb] in Hin; [|now left].
  destruct (keyword_matched kws rl rlem); [|now left].
  apply record_mention_keys in Hin as [->|Hin]; [|now left].
  right. split; [now left | now apply mem_In].
Qed.

Lemma pos_fold_keys (e : string) (found : list (string * Sentiment)) :
  forall (acc : list (string * Tally)) (k : string),
    In k (map fst
            (fold_left (fun acc p => record_mention (fst p) (snd p) e acc) found acc)) ->
    In k (map fst acc) \/ In k (map fst found).
Proof.
  induction found as [|p rest IH]; intros acc k Hin; cbn [fold_left] in Hin; [now left|].
  apply IH in Hin as [Hin|Hin]; [|right; now right].
  apply record_mention_keys in Hin as [->|Hin]; [right; now left | now left].
Qed.

Lemma one_review_keys (data : list (string * Tally)) (review k : string) :
  In k (map fst (analyze_one_review self active data review)) ->
  In k (map fst data)
  \/ (In k (map fst (aspect_keywords self)) /\ In k active)
  \/ (NLTK_AVAILABLE = true /\ In k (map fst (_extract_pos_aspects self review))).
Proof.
  unfold analyze_one_review.
  destruct (String.eqb review EmptyString); [now left|]. cbv zeta.
  destruct NLTK_AVAILABLE eqn:En; intros Hin.
  - apply pos_fold_keys in Hin as [Hin|Hin]; [|right; right; now split].
    apply keyword_fold_keys in Hin as [Hin|Hin]; [now left | right; now left].
  - apply keyword_fold_keys in Hin as [Hin|Hin]; [now left | right; now left].
Qed.

Lemma reviews_fold_keys (reviews : list string) :
  forall (data : list (string * Tally)) (k : string),
    In k (map fst (fold_left (analyze_one_review self active) reviews data)) ->
    In k (map fst data)
    \/ (In k (map fst (aspect_keywords self)) /\ In k active)
    \/ (NLTK_AVAILABLE = true
        /\ exists r, In r reviews /\ In k (map fst (_extract_pos_aspects self r))).
Proof.
  induction reviews as [|r rest IH]; intros data k Hin; cbn [fold_left] in Hin;
    [now left|].
  apply IH in Hin as [Hin|[Hin|(Hn & r' & Hr' & Hin)]].
  - apply one_review_keys in Hin as [Hin|[Hin|[Hn Hin]]];
      [now left | right; now left|].
    right; right. split; [exact Hn|]. exists r. split; [now left | exact Hin].
  - right; now left.
  - right; right. split; [exact Hn|]. exists r'. split; [now right | exact Hin].
Qed.

End AspectKeys.

(** X7.  Category scoping: every name in the aspect map is "General", or
    the capitalized name of a registered aspect that is active for the
    category, or (only when the tagger is available) the capitalized form of
    a noun that the part-of-speech pass extracted from one of the reviews.
    In particular, without the tagger, an aspect that is not active for the
    category never appears. *)
Theorem aspect_names_scoped {nlp : NLP} (self : FlipkartReviewAnalyzer)
    (reviews : list string) (c : Category) :
  Forall (fun k =>
            k = "General"
            \/ exists a,
                k = capitalize a
                /\ ((In a (map fst (aspect_keywords self)) /\ In a (active_aspects self c))
                    \/ (NLTK_AVAILABLE = true
                        /\ exists r, In r reviews
                                     /\ In a (map fst (_extract_pos_aspects self r)))))
    (map fst (_analyze_aspects self reviews c)).
Proof.
  apply List.Forall_forall. intros k Hin.
  apply in_map_iff in Hin as ([k' v] & <- & Hin). cbn [fst].
  destruct (analyze_aspects_cases self reviews c) as [[_ Hout]|[_ Hout]];
    rewrite Hout in Hin.
  - destruct Hin as [[= <- <-]|[]]. now left.
  - right. apply finalize_fold_origin in Hin as [[]|(a & t & Hat & _ & -> & _)].
    exists a. split; [reflexivity|].
    apply (in_map fst) in Hat. cbn [fst] in Hat.
    apply reviews_fold_keys in Hat as [[]|[H|H]]; [now left | now right].
Qed.

(** ** The ranking of the themes *)

Lemma theme_fold_names {nlp : NLP} (self : FlipkartReviewAnalyzer)
    (reviews : list string) (patterns : list (string * list string)) :
  forall acc : list Theme,
    List.NoDup (map theme acc ++ map fst patterns) ->
    List.NoDup (map theme (fold_left (theme_step self reviews) patterns acc)).
Proof.
  induction patterns as [|[name keywords] rest IH]; intros acc Hnd; cbn [fold_left].
  - cbn [map] in Hnd. now rewrite app_nil_r in Hnd.
  - apply IH. unfold theme_step. cbn [map fst] in Hnd.
    destruct (1 <=? length (theme_mentions keywords reviews)).
    + rewrite map_app. cbn [map theme]. now rewrite <- app_assoc.
    + now apply NoDup_remove_1 in Hnd.
Qed.

Lemma key_themes_sorted_all {nlp : NLP} (self : FlipkartReviewAnalyzer)
    (reviews : list string) :
  _extract_key_themes self reviews
  = sorted_desc mention_count (fold_left (theme_step self reviews) theme_patterns []).
Proof.
  unfold _extract_key_themes.
  pose proof (theme_fold_length self reviews theme_patterns []) as Hlen.
  cbn [length Nat.add] in Hlen.
  apply take_ge.
  rewrite <- (Permutation_length (sorted_desc_perm mention_count _)). exact Hlen.
Qed.

(** X8.  The key themes are at most five, listed by decreasing mention
    count, each reported once; every mention count is at least 1 and at most
    the number of reviews. *)
Theorem key_themes_ranked {nlp : NLP} (self : FlipkartReviewAnalyzer)
    (reviews : list string) :
  length (_extract_key_themes self reviews) <= 5
  /\ StronglySorted (fun a b => mention_count b <= mention_count a)
       (_extract_key_themes self reviews)
  /\ List.NoDup (map theme (_extract_key_themes self reviews))
  /\ Forall (fun t => 1 <= mention_count t <= length reviews)
       (_extract_key_themes self reviews).
Proof.
  rewrite key_themes_sorted_all.
  set (found := fold_left (theme_step self reviews) theme_patterns []).
  pose proof (sorted_desc_perm mention_count found) as Hp.
  split.
  { rewrite <- (Permutation_length Hp).
    apply (theme_fold_length self reviews theme_patterns []). }
  split; [apply sorted_desc_sorted|]. split.
  - apply (Permutation_NoDup (Permutation_map theme Hp)).
    apply theme_fold_names. cbn.
    repeat (apply NoDup_cons_iff; split;
            [cbn [In]; intros H; repeat (destruct H as [H|H]; [discriminate H|]); exact H|]).
    constructor.
  - apply List.Forall_forall. intros t Hin.
    apply (Permutation_in _ (Permutation_sym Hp)) in Hin.
    apply theme_fold_sound in Hin as [[]|(keywords & _ & Hone & -> & _)].
    split; [exact Hone | apply filter_length_le].
Qed.

(** ** The recommended products *)

Lemma analyze_reviews_category {nlp : NLP} (self : FlipkartReviewAnalyzer)
    (name : string) (reviews : list ReviewLike) :
  category (analyze_reviews self name reviews) = detect_product_category name.
Proof.
  destruct reviews; [reflexivity|]. now rewrite analyze_reviews_nonempty by discriminate.
Qed.

Lemma detect_brand_category (table : list (string * Category)) (name b : string) :
  detect_brand (map fst table) name = Some b ->
  exists c, brand_loop table (lower name) = Some c /\ In (b, c) table.
Proof.
  induction table as [|[brand c] rest IH]; cbn [map fst detect_brand brand_loop];
    [discriminate|].
  destruct (contains (lower brand) (lower name)).
  - intros [= ->]. exists c. split; [reflexivity | now left].
  - intros H. destruct (IH H) as (c' & Hc & Hin). exists c'. split; [exact Hc | now right].
Qed.

Lemma recommended_products_nonempty {nlp : NLP} (self : FlipkartReviewAnalyzer)
    (name : string) (r0 : ReviewLike) (rest : list ReviewLike) :
  exists weak,
    recommended_products (analyze_reviews self name (r0 :: rest))
    = recommendations_from 0 (detect_product_category name) weak
        (take 4 (remaining_candidates name)).
Proof.
  rewrite analyze_reviews_nonempty by discriminate. cbn [recommended_products].
  unfold _build_competitor_recommendations.
  destruct (recommend_competitors_candidates name) as [_ ->].
  rewrite take_take. change (4 `min` 5) with 4. eauto.
Qed.

Lemma remaining_candidates_from_table (name comp : string) :
  In comp (remaining_candidates name) ->
  In comp (COMPETITOR_MAP (detect_product_category name))
  /\ forall b, detect_brand (map fst BRAND_TO_CATEGORY) name = Some b ->
               lower comp <> lower b.
Proof.
  unfold remaining_candidates. cbv zeta.
  destruct (detect_brand _ name) as [b|].
  - unfold without_brand. rewrite filter_In. intros [Hin Hne].
    split; [exact Hin|]. intros b' [= <-] Heq.
    apply negb_true_iff, String.eqb_neq in Hne. contradiction.
  - intros Hin. split; [exact Hin | discriminate].
Qed.

Lemma find_first {A : Type} (f : A -> bool) (l : list A) (x : A) :
  find f l = Some x ->
  exists earlier later,
    l = earlier ++ x :: later
    /\ f x = true
    /\ Forall (fun y => f y = false) earlier.
Proof.
  induction l as [|y l IH]; cbn [find]; [discriminate|].
  destruct (f y) eqn:E.
  - intros [= ->]. exists [], l. split; [reflexivity|]. split; [exact E | constructor].
  - intros H. destruct (IH H) as (earlier & later & -> & Hx & Hall).
    exists (y :: earlier), later. split; [reflexivity|]. split; [exact Hx|].
    constructor; [exact E | exact Hall].
Qed.

(** X9.  Let [b] be the first brand of the brand table, in table order,
    whose lower-cased name occurs in the lower-cased product name as a
    substring (no earlier brand of the table occurs in it; later ones may).
    Then the category of the analysis is the category of [b], and [b] itself
    is never recommended: every recommendation is named after a competitor
    of that category whose name differs from [b], case apart.  Other brands
    the name contains can be recommended. *)
Theorem own_brand_never_recommended {nlp : NLP} (self : FlipkartReviewAnalyzer)
    (name : string) (reviews : list ReviewLike) (b : string) :
  first_brand_found name = Some b ->
  (exists earlier later,
      map fst BRAND_TO_CATEGORY = earlier ++ b :: later
      /\ contains (lower b) (lower name) = true
      /\ Forall (fun b' => contains (lower b') (lower name) = false) earlier)
  /\ In (b, category (analyze_reviews self name reviews)) BRAND_TO_CATEGORY
  /\ Forall (fun r =>
               exists comp,
                 In comp (COMPETITOR_MAP (category (analyze_reviews self name reviews)))
                 /\ lower comp <> lower b
                 /\ rec_name r
                    = comp +:+ " "
                      +:+ title (replace_char "_" " "
                                   (category_name
                                      (category (analyze_reviews self name reviews))))
                      +:+ " Series")
       (recommended_products (analyze_reviews self name reviews)).
Proof.
  intros Hfirst.
  assert (Hb : detect_brand (map fst BRAND_TO_CATEGORY) name = Some b)
    by (rewrite detect_brand_find; exact Hfirst).
  split; [exact (find_first _ _ _ Hfirst)|].
  rewrite analyze_reviews_category. split.
  - destruct (detect_brand_category _ _ _ Hb) as (c & Hc & Hin).
    unfold detect_product_category. cbv zeta. now rewrite Hc.
  - destruct reviews as [|r0 rest]; [constructor|].
    destruct (recommended_products_nonempty self name r0 rest) as [weak ->].
    apply List.Forall_forall. intros r Hin.
    apply list_elem_of_In, list_elem_of_lookup_1 in Hin as [i Hi].
    apply recommendations_from_lookup in Hi as (comp & Hc & ->).
    apply lookup_take_Some in Hc as [Hc _].
    apply list_elem_of_lookup_2, list_elem_of_In in Hc.
    apply remaining_candidates_from_table in Hc as [Htab Hne].
    exists comp. split; [exact Htab|]. split; [now apply Hne | reflexivity].
Qed.

(** X9 at a name that contains two brands of the table: Samsung, the first
    in table order, is the one left out. *)
Lemma own_brand_never_recommended_witness :
  first_brand_found "Vivo Samsung phone" = Some "Samsung"
  /\ In ("Samsung",
         category (analyze_reviews (nlp := lexicon_only) __init__
                     "Vivo Samsung phone" [RObj (VStr "good phone")]))
       BRAND_TO_CATEGORY
  /\ Forall (fun r =>
               exists comp,
                 In comp (COMPETITOR_MAP
                            (category (analyze_reviews (nlp := lexicon_only) __init__
                                         "Vivo Samsung phone" [RObj (VStr "good phone")])))
                 /\ lower comp <> lower "Samsung"
                 /\ rec_name r
                    = comp +:+ " "
                      +:+ title (replace_char "_" " "
                                   (category_name
                                      (category
                                         (analyze_reviews (nlp := lexicon_only) __init__
                                            "Vivo Samsung phone"
                                            [RObj (VStr "good phone")]))))
                      +:+ " Series")
       (recommended_products
          (analyze_reviews (nlp := lexicon_only) __init__
             "Vivo Samsung phone" [RObj (VStr "good phone")])).
Proof.
  assert (H : first_brand_found "Vivo Samsung phone" = Some "Samsung")
    by (vm_compute; reflexivity).
  split; [exact H|].
  exact (proj2 (own_brand_never_recommended (nlp := lexicon_only) __init__
                  "Vivo Samsung phone" [RObj (VStr "good phone")] "Samsung" H)).
Defined.

(** A later brand of the table contained in the name is recommended. *)
Example later_brand_still_recommended :
  map rec_name
    (recommended_products
       (analyze_reviews (nlp := lexicon_only) __init__
          "Vivo Samsung phone" [RObj (VStr "good phone")]))
  = ["Realme Mobile Series"; "Vivo Mobile Series"; "Oppo Mobile Series";
     "OnePlus Mobile Series"].
Proof. vm_compute. reflexivity. Qed.

Lemma without_brand_leaves_four (c : Category) (b : string) :
  In b (map fst BRAND_TO_CATEGORY) ->
  c <> General ->
  4 <= length (without_brand b (COMPETITOR_MAP c)).
Proof.
  intros Hb Hc. cbn in Hb.
  destruct c; try congruence;
    repeat (destruct Hb as [<-|Hb]; [vm_compute; lia|]); destruct Hb.
Qed.

Lemma remaining_candidates_length (name : string) :
  (detect_product_category name = General -> remaining_candidates name = [])
  /\ (detect_product_category name <> General -> 4 <= length (remaining_candidates name)).
Proof.
  unfold remaining_candidates. cbv zeta. split.
  - intros ->. cbn [COMPETITOR_MAP]. destruct (detect_brand _ name); reflexivity.
  - intros Hc. destruct (detect_brand _ name) as [b|] eqn:E.
    + apply without_brand_leaves_four; [now apply detect_brand_in in E | exact Hc].
    + destruct (detect_product_category name); try congruence; cbn; lia.
Qed.

(** X10.  An analysis recommends no product for the empty review list and
    for a product of category general, and exactly four products for every
    other category. *)
Theorem recommendation_count {nlp : NLP} (self : FlipkartReviewAnalyzer)
    (name : string) (reviews : list ReviewLike) :
  length (recommended_products (analyze_reviews self name reviews))
  = match reviews with
    | [] => 0
    | _ :: _ =>
        match category (analyze_reviews self name reviews) with
        | General => 0
        | _ => 4
        end
    end.
Proof.
  destruct reviews as [|r0 rest]; [reflexivity|].
  rewrite analyze_reviews_category.
  destruct (recommended_products_nonempty self name r0 rest) as [weak ->].
  rewrite recommendations_from_length, length_take.
  destruct (remaining_candidates_length name) as [Hgen Hother].
  destruct (detect_product_category name) eqn:E;
    first [rewrite Hgen by reflexivity; reflexivity
          | specialize (Hother ltac:(discriminate)); lia].
Qed.

(** ** Confidence levels *)

Lemma calculate_confidence_cases (reviews : list string)
    (aspects : list (string * AspectVerdict)) :
  let rc := length reviews in
  let na := named_aspects aspects in
  (20 <= rc /\ 5 <= na /\ _calculate_confidence reviews aspects = "High")
  \/ (~ (20 <= rc /\ 5 <= na) /\ 10 <= rc /\ 3 <= na
      /\ _calculate_confidence reviews aspects = "Medium")
  \/ (~ (20 <= rc /\ 5 <= na) /\ ~ (10 <= rc /\ 3 <= na)
      /\ _calculate_confidence reviews aspects = "Low").
Proof.
  cbv zeta. unfold _calculate_confidence. fold (named_aspects aspects).
  destruct (20 <=? length reviews) eqn:E1; destruct (5 <=? named_aspects aspects) eqn:E2;
    destruct (10 <=? length reviews) eqn:E3; destruct (3 <=? named_aspects aspects) eqn:E4;
    cbn [andb];
    repeat match goal with
           | H : (_ <=? _) = true |- _ => apply Nat.leb_le in H
           | H : (_ <=? _) = false |- _ => apply Nat.leb_gt in H
           end;
    first [ left; repeat split; first [assumption | reflexivity]
          | right; left; repeat split; first [assumption | reflexivity | lia]
          | right; right; repeat split; first [reflexivity | lia] ].
Qed.

(** X11.  The confidence of an analysis is "None" exactly for the empty
    review list; it is "High" exactly when at least 20 reviews survive
    cleaning and at least 5 aspects other than "General" are reported, and
    "Medium" exactly when that fails but at least 10 reviews and 3 such
    aspects are there; an analysis whose only aspect is the synthesized
    "General" is "Low".  The level never decreases when reviews or aspects
    are added. *)
Theorem confidence_levels {nlp : NLP} (self : FlipkartReviewAnalyzer)
    (name : string) (reviews : list ReviewLike) :
  let res := analyze_reviews self name reviews in
  let rc := review_count res in
  let na := named_aspects (aspects res) in
  (analysis_confidence res = "None" <-> reviews = [])
  /\ (analysis_confidence res = "High" <-> 20 <= rc /\ 5 <= na)
  /\ (analysis_confidence res = "Medium" <->
        ~ (20 <= rc /\ 5 <= na) /\ 10 <= rc /\ 3 <= na)
  /\ (aspects res = [("General", general_verdict)] -> analysis_confidence res = "Low")
  /\ (forall (r1 r2 : list string) (a1 a2 : list (string * AspectVerdict)),
         length r1 <= length r2 ->
         named_aspects a1 <= named_aspects a2 ->
         confidence_rank (_calculate_confidence r1 a1)
         <= confidence_rank (_calculate_confidence r2 a2)).
Proof.
  cbv zeta. split; [|split; [|split; [|split]]].
  - destruct reviews as [|r rest]; [cbn; tauto|].
    rewrite analyze_reviews_nonempty by discriminate. cbn [analysis_confidence].
    split; [|discriminate]. intros H.
    destruct (calculate_confidence_cases
                (_clean_reviews (r :: rest))
                (_analyze_aspects self (_clean_reviews (r :: rest))
                   (detect_product_category name)))
      as [(_ & _ & E)|[(_ & _ & _ & E)|(_ & _ & E)]];
      rewrite E in H; discriminate H.
  - destruct reviews as [|r rest]; [cbn; split; [discriminate | lia]|].
    rewrite analyze_reviews_nonempty by discriminate.
    cbn [analysis_confidence review_count aspects].
    destruct (calculate_confidence_cases
                (_clean_reviews (r :: rest))
                (_analyze_aspects self (_clean_reviews (r :: rest))
                   (detect_product_category name)))
      as [(H1 & H2 & E)|[(H1 & _ & _ & E)|(H1 & _ & E)]]; rewrite E;
      split; first [discriminate | tauto].
  - destruct reviews as [|r rest]; [cbn; split; [discriminate | lia]|].
    rewrite analyze_reviews_nonempty by discriminate.
    cbn [analysis_confidence review_count aspects].
    destruct (calculate_confidence_cases
                (_clean_reviews (r :: rest))
                (_analyze_aspects self (_clean_reviews (r :: rest))
                   (detect_product_category name)))
      as [(H1 & H2 & E)|[(H1 & H2 & H3 & E)|(H1 & H2 & E)]]; rewrite E;
      split; first [discriminate | tauto].
  - destruct reviews as [|r rest]; [discriminate|].
    rewrite analyze_reviews_nonempty by discriminate.
    cbn [analysis_confidence aspects]. intros ->.
    destruct (calculate_confidence_cases (_clean_reviews (r :: rest))
                [("General", general_verdict)])
      as [(_ & H & _)|[(_ & _ & H & _)|(_ & _ & E)]];
      [vm_compute in H; lia | vm_compute in H; lia | exact E].
  - intros r1 r2 a1 a2 Hr Ha.
    destruct (calculate_confidence_cases r1 a1)
      as [(H1 & H2 & ->)|[(_ & H1 & H2 & ->)|(_ & _ & ->)]];
      destruct (calculate_confidence_cases r2 a2)
        as [(G1 & G2 & ->)|[(G0 & G1 & G2 & ->)|(G0 & G1 & ->)]];
      cbn; lia.
Qed.

(** ** Verdicts on integer counts *)

(** X12.  The formatted sentiment is a strict majority of all mentions:
    positive exactly when the positive mentions are more than half of the
    total, negative exactly when the negative ones are (the order of the two
    tests does not matter, both cannot hold), neutral otherwise; a positive
    verdict therefore has more positive mentions than negative and neutral
    ones together. *)
Theorem verdict_is_strict_majority (name : string) (data : Tally) :
  (sentiment (_format_aspect_result name data) = Positive
   <-> tally_total data < 2 * n_positive data)
  /\ (sentiment (_format_aspect_result name data) = Negative
      <-> tally_total data < 2 * n_negative data)
  /\ (sentiment (_format_aspect_result name data) = Neutral
      <-> 2 * n_positive data <= tally_total data
          /\ 2 * n_negative data <= tally_total data)
  /\ (sentiment (_format_aspect_result name data) = Positive
      -> n_negative data + n_neutral data < n_positive data).
Proof.
  unfold _format_aspect_result.
  destruct (tally_total data =? 0) eqn:E.
  - apply Nat.eqb_eq in E. cbn [sentiment]. unfold tally_total in *.
    repeat apply conj; intros; first [discriminate | lia | reflexivity].
  - apply Nat.eqb_neq in E.
    assert (Ht : 0 < tally_total data) by lia.
    pose proof (ratio_gt_half_counts (n_positive data) _ Ht) as Hp.
    pose proof (ratio_gt_half_counts (n_negative data) _ Ht) as Hn.
    destruct (ratio_gt_half (n_positive data) (tally_total data)) eqn:Ep;
      destruct (ratio_gt_half (n_negative data) (tally_total data)) eqn:En;
      cbn [sentiment];
      (assert (Hp' : tally_total data < 2 * n_positive data
                     \/ 2 * n_positive data <= tally_total data) by lia);
      (assert (Hn' : tally_total data < 2 * n_negative data
                     \/ 2 * n_negative data <= tally_total data) by lia);
      unfold tally_total in *;
      repeat apply conj; intros;
      first [reflexivity | discriminate
            | (destruct Hp as [Hp1 Hp2]; destruct Hn as [Hn1 Hn2];
               try specialize (Hp1 eq_refl); try specialize (Hn1 eq_refl);
               destruct Hp' as [Hp'|Hp']; destruct Hn' as [Hn'|Hn'];
               try (apply Hp2 in Hp'; discriminate Hp');
               try (apply Hn2 in Hn'; discriminate Hn');
               lia) ].
Qed.

(** ** The part-of-speech pass *)

Lemma adjective_noun_pairs_polar (self : FlipkartReviewAnalyzer)
    (pos_tags : list (string * string)) :
  Forall (fun p =>
            In (fst p) (map fst pos_tags)
            /\ ((snd p = Positive
                 /\ exists adj, In adj (map fst pos_tags)
                                /\ mem adj (positive_words self) = true)
                \/ (snd p = Negative
                    /\ exists adj, In adj (map fst pos_tags)
                                   /\ mem adj (negative_words self) = true
                                   /\ mem adj (positive_words self) = false)))
    (adjective_noun_pairs self pos_tags)
  /\ length (adjective_noun_pairs self pos_tags) <= pred (length pos_tags).
Proof.
  induction pos_tags as [|[word tag] rest IH]; [split; [constructor | cbn; lia]|].
  destruct rest as [|[next_word next_tag] rest']; [split; [constructor | cbn; lia]|].
  destruct IH as [IHf IHl].
  change (adjective_noun_pairs self ((word, tag) :: (next_word, next_tag) :: rest'))
    with ((if String.prefix "JJ" tag && String.prefix "NN" next_tag then
             if mem word (positive_words self) then [(next_word, Positive)]
             else if mem word (negative_words self) then [(next_word, Negative)]
             else []
           else [])
          ++ adjective_noun_pairs self ((next_word, next_tag) :: rest')).
  split.
  - apply Forall_app. split.
    + destruct (String.prefix "JJ" tag && String.prefix "NN" next_tag); [|constructor].
      destruct (mem word (positive_words self)) eqn:Ep.
      * constructor; [|constructor]. cbn [fst snd map In]. split; [tauto|].
        left. split; [reflexivity|]. exists word. split; [now left | exact Ep].
      * destruct (mem word (negative_words self)) eqn:En; [|constructor].
        constructor; [|constructor]. cbn [fst snd map In]. split; [tauto|].
        right. split; [reflexivity|]. exists word. split; [now left | now split].
    + eapply List.Forall_impl; [|exact IHf]. cbn [map fst In].
      intros p [Hin [[Hs (adj & Ha & Hm)]|[Hs (adj & Ha & Hm)]]];
        (split; [now right|]); [left | right]; (split; [exact Hs|]);
        exists adj; (split; [now right | exact Hm]).
  - rewrite length_app. cbn [length pred] in *.
    destruct (String.prefix "JJ" tag && String.prefix "NN" next_tag);
      [|cbn [length Nat.add]; lia].
    destruct (mem word (positive_words self)); [cbn [length Nat.add]; lia|].
    destruct (mem word (negative_words self)); cbn [length Nat.add]; lia.
Qed.

Lemma adjective_noun_pairs_lookup (self : FlipkartReviewAnalyzer)
    (pos_tags : list (string * string)) (noun : string) (s : Sentiment) :
  In (noun, s) (adjective_noun_pairs self pos_tags)
  <-> exists (i : nat) (adj tag ntag : string),
        pos_tags !! i = Some (adj, tag)
        /\ pos_tags !! S i = Some (noun, ntag)
        /\ String.prefix "JJ" tag = true
        /\ String.prefix "NN" ntag = true
        /\ ((s = Positive /\ mem adj (positive_words self) = true)
            \/ (s = Negative /\ mem adj (positive_words self) = false
                /\ mem adj (negative_words self) = true)).
Proof.
  induction pos_tags as [|[word tag] rest IH].
  { split; [intros []|]. intros (i & adj & t & nt & H & _). discriminate H. }
  destruct rest as [|[next_word next_tag] rest'].
  { split; [intros []|]. intros (i & adj & t & nt & _ & H & _). discriminate H. }
  change (adjective_noun_pairs self ((word, tag) :: (next_word, next_tag) :: rest'))
    with ((if String.prefix "JJ" tag && String.prefix "NN" next_tag then
             if mem word (positive_words self) then [(next_word, Positive)]
             else if mem word (negative_words self) then [(next_word, Negative)]
             else []
           else [])
          ++ adjective_noun_pairs self ((next_word, next_tag) :: rest')).
  rewrite in_app_iff, IH. clear IH. split.
  - intros [Hh | (i & adj & t & nt & H1 & H2 & Hr)].
    + exists 0, word, tag, next_tag.
      destruct (String.prefix "JJ" tag && String.prefix "NN" next_tag) eqn:E;
        [|destruct Hh].
      apply andb_true_iff in E as [E1 E2].
      destruct (mem word (positive_words self)) eqn:Ep.
      * destruct Hh as [[= <- <-]|[]].
        split; [reflexivity|]. split; [reflexivity|]. split; [exact E1|].
        split; [exact E2|]. left. now split.
      * destruct (mem word (negative_words self)) eqn:En; [|destruct Hh].
        destruct Hh as [[= <- <-]|[]].
        split; [reflexivity|]. split; [reflexivity|]. split; [exact E1|].
        split; [exact E2|]. right. now split.
    + exists (S i), adj, t, nt. split; [exact H1|]. split; [exact H2 | exact Hr].
  - intros (i & adj & t & nt & H1 & H2 & Hj & Hn & Hs). destruct i as [|i].
    + left. injection H1 as <- <-. injection H2 as <- <-.
      rewrite Hj, Hn. cbn [andb].
      destruct Hs as [[-> Hp]|[-> [Hp Hng]]]; rewrite Hp; [now left|].
      rewrite Hng. now left.
    + right. exists i, adj, t, nt. split; [exact H1|]. split; [exact H2|].
      split; [exact Hj|]. split; [exact Hn | exact Hs].
Qed.

(** X13.  The part-of-speech pass works on the lower-cased text without
    the characters that are neither letters, digits nor whitespace.  When the
    tokenizer or the tagger fails on it, nothing is extracted.  Otherwise the
    pass extracts exactly the pairs that two adjacent tagged tokens justify:
    [(noun, s)] is extracted if and only if some token tagged "JJ..." is
    directly followed by the token [noun] tagged "NN...", and either [s] is
    positive and the adjective is a positive word, or [s] is negative and the
    adjective is a negative but not a positive word.  It extracts at most as
    many pairs as there are pairs of adjacent tagged tokens, and never a
    neutral one. *)
Theorem pos_aspects_never_neutral {nlp : NLP} (self : FlipkartReviewAnalyzer)
    (text : string) :
  let clean_text :=
    filter_chars (fun c => is_alpha c || is_digit c || is_re_space c) (lower text) in
  match word_tokenize clean_text with
  | None => _extract_pos_aspects self text = []
  | Some tokens =>
      match pos_tag tokens with
      | None => _extract_pos_aspects self text = []
      | Some pos_tags =>
          length (_extract_pos_aspects self text) <= pred (length pos_tags)
          /\ forall (noun : string) (s : Sentiment),
               In (noun, s) (_extract_pos_aspects self text)
               <-> exists (i : nat) (adj tag ntag : string),
                     pos_tags !! i = Some (adj, tag)
                     /\ pos_tags !! S i = Some (noun, ntag)
                     /\ String.prefix "JJ" tag = true
                     /\ String.prefix "NN" ntag = true
                     /\ ((s = Positive /\ mem adj (positive_words self) = true)
                         \/ (s = Negative
                             /\ mem adj (positive_words self) = false
                             /\ mem adj (negative_words self) = true))
      end
  end
  /\ Forall (fun p => snd p <> Neutral) (_extract_pos_aspects self text).
Proof.
  unfold _extract_pos_aspects. cbv zeta.
  destruct (word_tokenize _) as [tokens|]; [|split; [reflexivity | constructor]].
  destruct (pos_tag tokens) as [pos_tags|]; [|split; [reflexivity | constructor]].
  destruct (adjective_noun_pairs_polar self pos_tags) as [Hf Hl].
  split; [split; [exact Hl|]|].
  - intros noun s. apply adjective_noun_pairs_lookup.
  - eapply List.Forall_impl; [|exact Hf].
    intros p [_ [[-> _]|[-> _]]]; discriminate.
Qed.

(** ** The sentence classifier on a neutral polarity *)

(** X14.  When the polarity score of a text is exactly 0, the lexicon vote
    alone decides its label: positive when the text has more words of the
    positive set than of the negative set, negative in the converse case,
    neutral on a tie. *)
Theorem lexicon_vote_decides {nlp : NLP} (self : FlipkartReviewAnalyzer)
    (text : string) :
  polarity text = 0%float ->
  let words := findall_words (lower text) in
  let p := length (List.filter (fun w => mem w (positive_words self)) words) in
  let n := length (List.filter (fun w => mem w (negative_words self)) words) in
  (_get_sentence_sentiment self text = Positive <-> n < p)
  /\ (_get_sentence_sentiment self text = Negative <-> p < n)
  /\ (_get_sentence_sentiment self text = Neutral <-> p = n).
Proof.
  intros Hpol words p n. unfold _get_sentence_sentiment. cbv zeta.
  fold words. fold p. fold n. rewrite Hpol.
  replace (0 <=? 0)%float with true by (vm_compute; reflexivity).
  replace (threshold <? 0)%float with false by (vm_compute; reflexivity).
  replace (0 <? - threshold)%float with false by (vm_compute; reflexivity).
  rewrite !andb_true_r.
  destruct (n <? p) eqn:E1; [apply Nat.ltb_lt in E1 | apply Nat.ltb_ge in E1];
    [|destruct (p <? n) eqn:E2; [apply Nat.ltb_lt in E2 | apply Nat.ltb_ge in E2]];
    repeat apply conj; intros H; first [reflexivity | discriminate H | lia].
Qed.

(** X14 at the review "good price". *)
Lemma lexicon_vote_decides_witness :
  polarity (NLP := lexicon_only) "good price" = 0%float
  /\ _get_sentence_sentiment (nlp := lexicon_only) __init__ "good price" = Positive.
Proof.
  split; [reflexivity|].
  apply (proj1 (lexicon_vote_decides (nlp := lexicon_only) __init__ "good price"
                  eq_refl)).
  vm_compute. lia.
Defined.

(** ** The overall feedback sentence *)

Lemma append_nonempty_r (a b : string) : b <> EmptyString -> a +:+ b <> EmptyString.
Proof. intros Hb. destruct a; [exact Hb | discriminate]. Qed.

Lemma rstrip_app (a x : string) :
  rstrip x <> EmptyString -> rstrip (a +:+ x) = a +:+ rstrip x.
Proof.
  intros Hx. induction a as [|c a IH]; [reflexivity|].
  change (rstrip (String c (a +:+ x)) = String c (a +:+ rstrip x)).
  cbn [rstrip]. rewrite IH.
  pose proof (append_nonempty_r a (rstrip x) Hx) as Hne.
  destruct (a +:+ rstrip x); [congruence | reflexivity].
Qed.

Lemma prefix_empty (s : string) : String.prefix EmptyString s = true.
Proof. destruct s; reflexivity. Qed.

Lemma prefix_app (a z : string) : String.prefix a (a +:+ z) = true.
Proof.
  induction a as [|c a IH]; [apply prefix_empty|].
  change (String.prefix (String c a) (String c (a +:+ z)) = true).
  cbn [String.prefix]. destruct (ascii_dec c c); [exact IH | congruence].
Qed.

(** A sentence that opens with a non-blank character and has a non-blank
    character after its opener keeps the opener when stripped. *)
Lemma opener_kept (c0 : ascii) (opener middle : string) (c : ascii)
    (after rest : string) :
  is_space c0 = false -> is_space c = false ->
  String.prefix (String c0 opener)
    (strip (String c0 opener +:+ middle +:+ String c after +:+ rest)) = true
  /\ strip (String c0 opener +:+ middle +:+ String c after +:+ rest) <> EmptyString.
Proof.
  intros Hc0 Hc. unfold strip.
  change (String c0 opener +:+ middle +:+ String c after +:+ rest)
    with (String c0 (opener +:+ middle +:+ String c (after +:+ rest))).
  rewrite (lstrip_fixed c0 _ Hc0).
  change (String c0 (opener +:+ middle +:+ String c (after +:+ rest)))
    with (String c0 opener +:+ (middle +:+ String c (after +:+ rest))).
  assert (Hne : rstrip (middle +:+ String c (after +:+ rest)) <> EmptyString).
  { rewrite rstrip_app; rewrite (rstrip_keeps_head c _ Hc);
      [apply append_nonempty_r|]; discriminate. }
  rewrite (rstrip_app _ _ Hne). split; [apply prefix_app|].
  now apply append_nonempty_r.
Qed.

(** X15.  The overall feedback is never empty and carries no leading or
    trailing whitespace; it is the fixed no-reviews sentence for the empty
    review list, and otherwise opens with one of the three verdict openers. *)
Theorem overall_feedback_opener {nlp : NLP} (self : FlipkartReviewAnalyzer)
    (name : string) (reviews : list ReviewLike) :
  overall_feedback (analyze_reviews self name reviews) <> EmptyString
  /\ strip (overall_feedback (analyze_reviews self name reviews))
     = overall_feedback (analyze_reviews self name reviews)
  /\ match reviews with
     | [] => overall_feedback (analyze_reviews self name reviews)
             = "No reviews available for analysis"
     | _ :: _ =>
         String.prefix "Highly recommended product with "
           (overall_feedback (analyze_reviews self name reviews)) = true
         \/ String.prefix "Product has significant issues ("
              (overall_feedback (analyze_reviews self name reviews)) = true
         \/ String.prefix "Mixed reviews ("
              (overall_feedback (analyze_reviews self name reviews)) = true
     end.
Proof.
  destruct reviews as [|r rest].
  - cbn. split; [discriminate|]. split; reflexivity.
  - rewrite analyze_reviews_nonempty by discriminate. cbn [overall_feedback].
    unfold _generate_overall_feedback.
    destruct (count_sentiments self (_clean_reviews (r :: rest))) as [[p n] u].
    cbv zeta.
    split; [|split; [apply strip_idempotent|]].
    + destruct (60 <? percent p _)%float; [|destruct (50 <? percent n _)%float];
        apply opener_kept; reflexivity.
    + destruct (60 <? percent p _)%float; [|destruct (50 <? percent n _)%float];
        [left | right; left | right; right]; apply opener_kept; reflexivity.
Qed.

(** ** The caller in the review fetcher *)

Lemma review_count_of_nonempty {nlp : NLP} (self : FlipkartReviewAnalyzer)
    (name : string) (reviews : list ReviewLike) :
  review_count (analyze_reviews self name reviews) <= length reviews.
Proof.
  destruct reviews as [|r rest]; [cbn; lia|].
  rewrite analyze_reviews_nonempty by discriminate. apply clean_reviews_length.
Qed.

Lemma general_recommends_nothing {nlp : NLP} (self : FlipkartReviewAnalyzer)
    (name : string) (reviews : list ReviewLike) :
  detect_product_category name = General ->
  recommended_products (analyze_reviews self name reviews) = [].
Proof.
  intros Hg. destruct reviews as [|r rest]; [reflexivity|].
  destruct (recommended_products_nonempty self name r rest) as [weak ->].
  destruct (remaining_candidates_length name) as [Hnil _].
  now rewrite (Hnil Hg).
Qed.

(** X16.  [analyze_aspects] of the review fetcher gives the empty analysis
    of "Unknown Product" for the empty list, and otherwise analyses the whole
    list under the product name of its first review: when that name is a
    string, the result is [analyze_reviews] of that name and all the reviews;
    when the first review carries no product name, it is [analyze_reviews] of
    "Unknown Product" and all the reviews, whose category is general and
    which recommends no product, whatever the reviews say.  It raises exactly
    when the name is present and not a string.  A successful call never
    counts more reviews than it was given, and its category is the one
    detected from the product name it reports. *)
Theorem analyze_aspects_first_review {nlp : NLP} (self : FlipkartReviewAnalyzer)
    (reviews : list (gmap string pyval)) :
  (reviews = [] ->
   analyze_aspects self reviews = Some (_empty_analysis "Unknown Product"))
  /\ (forall first rest name,
         reviews = first :: rest -> first !! "product_name" = Some (VStr name) ->
         analyze_aspects self reviews
         = Some (analyze_reviews self name (map RDict reviews)))
  /\ (forall first rest,
         reviews = first :: rest -> first !! "product_name" = None ->
         analyze_aspects self reviews
         = Some (analyze_reviews self "Unknown Product" (map RDict reviews)))
  /\ (analyze_aspects self reviews = None
      <-> exists first rest v,
           reviews = first :: rest /\ first !! "product_name" = Some v
           /\ forall s, v <> VStr s)
  /\ (forall first rest,
         reviews = first :: rest -> first !! "product_name" = None ->
         exists res,
           analyze_aspects self reviews = Some res
           /\ product_name res = "Unknown Product"
           /\ category res = General
           /\ recommended_products res = [])
  /\ (forall res,
         analyze_aspects self reviews = Some res ->
         review_count res <= length reviews
         /\ category res = detect_product_category (product_name res)).
Proof.
  split; [|split; [|split; [|split; [|split]]]].
  - intros ->. reflexivity.
  - intros first rest name -> Hname. cbn [analyze_aspects]. rewrite Hname. reflexivity.
  - intros first rest -> Hnone. cbn [analyze_aspects]. rewrite Hnone. reflexivity.
  - destruct reviews as [|first rest]; cbn [analyze_aspects].
    + split; [discriminate|]. intros (f & r & v & H & _). discriminate H.
    + destruct (first !! "product_name") as [v|] eqn:E; cbn [default].
      * destruct v as [|b|z|s].
        1-3: (split; [|reflexivity]; intros _; exists first, rest; eexists;
              split; [reflexivity|]; split; [exact E | intros s; discriminate]).
        split; [discriminate|].
        intros (f & r & v' & Heq & Hv & Hs). injection Heq as <- <-.
        rewrite E in Hv. injection Hv as <-. exfalso. now apply (Hs s).
      * split; [discriminate|].
        intros (f & r & v' & Heq & Hv & _). injection Heq as <- <-.
        rewrite E in Hv. discriminate Hv.
  - intros first rest -> Hnone. cbn [analyze_aspects]. rewrite Hnone. cbn [default].
    eexists. split; [reflexivity|].
    split; [now rewrite analyze_reviews_nonempty by discriminate|].
    split; [now rewrite analyze_reviews_category|].
    now apply general_recommends_nothing.
  - intros res. destruct reviews as [|first rest]; cbn [analyze_aspects].
    + intros H. assert (Hres : res = _empty_analysis "Unknown Product") by congruence.
      subst res. cbn. split; [lia | reflexivity].
    + destruct (default _ (first !! "product_name")) as [| | |s]; try discriminate.
      intros H.
      assert (Hres : res = analyze_reviews self s (map RDict (first :: rest)))
        by congruence.
      subst res. split.
      * etransitivity; [apply review_count_of_nonempty|]. now rewrite length_map.
      * rewrite analyze_reviews_category.
        now rewrite analyze_reviews_nonempty by discriminate.
Qed.

(** ** Case of the product name *)

Lemma lower_char_idempotent (c : ascii) : lower_char (lower_char c) = lower_char c.
Proof. destruct c as [[] [] [] [] [] [] [] []]; reflexivity. Qed.

Lemma lower_idempotent (s : string) : lower (lower s) = lower s.
Proof.
  unfold lower. induction s as [|c s IH]; cbn [map_chars]; [reflexivity|].
  now rewrite lower_char_idempotent, IH.
Qed.

Lemma detect_brand_lower (brands : list string) (name name' : string) :
  lower name = lower name' -> detect_brand brands name = detect_brand brands name'.
Proof.
  intros H. induction brands as [|b rest IH]; cbn [detect_brand]; [reflexivity|].
  now rewrite H, IH.
Qed.

(** X17.  Category detection and competitor selection ignore the case of
    the product name: two names that agree once lower-cased get the same
    category, the same detected brand and the same competitor list, and
    lower-casing a name changes none of them. *)
Theorem detection_ignores_case (name name' : string) :
  lower name = lower name' ->
  detect_product_category name = detect_product_category name'
  /\ recommend_competitors name = recommend_competitors name'
  /\ detect_product_category (lower name) = detect_product_category name
  /\ recommend_competitors (lower name) = recommend_competitors name.
Proof.
  intros H.
  assert (Hd : forall a b, lower a = lower b ->
                 detect_product_category a = detect_product_category b).
  { intros a b Hab. unfold detect_product_category. cbv zeta. now rewrite Hab. }
  assert (Hr : forall a b, lower a = lower b ->
                 recommend_competitors a = recommend_competitors b).
  { intros a b Hab. unfold recommend_competitors. cbv zeta.
    now rewrite (Hd a b Hab), (detect_brand_lower _ a b Hab). }
  split; [now apply Hd|]. split; [now apply Hr|].
  split; [apply Hd | apply Hr]; apply lower_idempotent.
Qed.

(** X17 at two spellings of a Samsung television. *)
Lemma detection_ignores_case_witness :
  lower "SAMSUNG Smart TV" = lower "samsung smart tv"
  /\ detect_product_category "SAMSUNG Smart TV"
     = detect_product_category "samsung smart tv".
Proof.
  split; [reflexivity|].
  exact (proj1 (detection_ignores_case "SAMSUNG Smart TV" "samsung smart tv" eq_refl)).
Defined.

(** ** Review lists without any text *)

(** X18.  On a non-empty review list every entry of which cleans to the
    empty text, [analyze_reviews] does not return the empty analysis: it
    reports 0 reviews together with the synthesized "General" aspect, no
    theme, confidence "Low", the mixed-reviews sentence with 0% on both
    sides and the one-line summary of the "General" aspect; the category is
    still the one detected from the product name. *)
Theorem textless_reviews_analysis {nlp : NLP} (self : FlipkartReviewAnalyzer)
    (name : string) (reviews : list ReviewLike) :
  reviews <> [] ->
  Forall (fun r => strip (py_str (review_text_of r)) = EmptyString) reviews ->
  review_count (analyze_reviews self name reviews) = 0
  /\ aspects (analyze_reviews self name reviews) = [("General", general_verdict)]
  /\ key_themes (analyze_reviews self name reviews) = []
  /\ analysis_confidence (analyze_reviews self name reviews) = "Low"
  /\ overall_feedback (analyze_reviews self name reviews)
     = "Mixed reviews (0% positive, 0% negative)."
  /\ summary (analyze_reviews self name reviews)
     = "• General: Neutral - No specific aspects identified in reviews"
  /\ category (analyze_reviews self name reviews) = detect_product_category name.
Proof.
  intros Hne Hblank. apply clean_reviews_nil_iff in Hblank.
  rewrite (analyze_reviews_nonempty self name reviews Hne).
  cbn [review_count aspects key_themes analysis_confidence overall_feedback summary
       category].
  rewrite Hblank.
  repeat split; vm_compute; reflexivity.
Qed.

(** X18 at two records without text. *)
Lemma textless_reviews_analysis_witness :
  textless_records <> []
  /\ Forall (fun r => strip (py_str (review_text_of r)) = EmptyString) textless_records
  /\ review_count
       (analyze_reviews (nlp := lexicon_only) __init__ "Unknown Gadget" textless_records)
     = 0.
Proof.
  assert (H1 : textless_records <> []) by discriminate.
  assert (H2 : Forall (fun r => strip (py_str (review_text_of r)) = EmptyString)
                 textless_records)
    by (repeat constructor).
  split; [exact H1|]. split; [exact H2|].
  exact (proj1 (textless_reviews_analysis (nlp := lexicon_only) __init__
                  "Unknown Gadget" textless_records H1 H2)).
Defined.

(** ** Themes and the aspects they imply *)

Lemma fold_left_invariant {A B : Type} (P : A -> Prop) (f : A -> B -> A) (l : list B) :
  (forall a b, P a -> P (f a b)) -> forall a, P a -> P (fold_left f l a).
Proof.
  intros Hf. induction l as [|b l IH]; intros a Ha; cbn [fold_left]; auto.
Qed.

Lemma record_mention_counted (a : string) (s : Sentiment) (e : string)
    (d : list (string * Tally)) :
  Forall (fun kt => 1 <= tally_total (snd kt)) d ->
  Forall (fun kt => 1 <= tally_total (snd kt)) (record_mention a s e d).
Proof.
  induction 1 as [|[k t] d Hkt Hd IH]; cbn [record_mention].
  - constructor; [|constructor]. cbn [snd]. rewrite bump_total. lia.
  - destruct (String.eqb k a); constructor; auto.
    cbn [snd]. rewrite bump_total. lia.
Qed.

Section Implied.

Context {nlp : NLP}.
Variable self : FlipkartReviewAnalyzer.
Variable active : list string.

Lemma one_review_invariant (P : list (string * Tally) -> Prop) :
  (forall a s e d, P d -> P (record_mention a s e d)) ->
  forall (data : list (string * Tally)) (review : string),
    P data -> P (analyze_one_review self active data review).
Proof.
  intros HP data review Hd. unfold analyze_one_review.
  destruct (String.eqb review EmptyString); [exact Hd|]. cbv zeta.
  assert (Hk : P (fold_left
                    (fun acc entry =>
                       let '(aspect_name, keywords) := entry in
                       if negb (mem aspect_name active) then acc
                       else if keyword_matched keywords (lower review)
                                 (_lemmatize_text review)
                            then record_mention aspect_name
                                   (_get_sentence_sentiment self review)
                                   (slice_to 150 review) acc
                            else acc) (aspect_keywords self) data)).
  { apply fold_left_invariant; [|exact Hd].
    intros acc [a kws] Hacc. destruct (negb (mem a active)); [exact Hacc|].
    destruct (keyword_matched kws _ _); auto. }
  destruct NLTK_AVAILABLE; [|exact Hk].
  apply fold_left_invariant; [|exact Hk]. intros acc p Hacc. auto.
Qed.

Lemma keyword_fold_adds (rl rlem : string) (s : Sentiment) (e : string)
    (registry : list (string * list string)) (a : string) (kws : list string) :
  In (a, kws) registry ->
  mem a active = true ->
  keyword_matched kws rl rlem = true ->
  forall acc : list (string * Tally),
    In a (map fst
            (fold_left
               (fun acc entry =>
                  let '(aspect_name, keywords) := entry in
                  if negb (mem aspect_name active) then acc
                  else if keyword_matched keywords rl rlem
                       then record_mention aspect_name s e acc
                       else acc) registry acc)).
Proof.
  intros Hin Hact Hm.
  induction registry as [|[b kws'] rest IH]; intros acc; [destruct Hin|].
  cbn [fold_left]. destruct Hin as [[= -> ->]|Hin]; [|now apply IH].
  rewrite Hact, Hm. cbn [negb].
  apply (fold_left_invariant (fun d => In a (map fst d))).
  - intros d [b kws'] Hd. destruct (negb (mem b active)); [exact Hd|].
    destruct (keyword_matched kws' rl rlem); [|exact Hd].
    apply record_mention_keys. now right.
  - apply record_mention_keys. now left.
Qed.

Lemma one_review_adds (data : list (string * Tally)) (review a : string)
    (kws : list string) :
  review <> EmptyString ->
  In (a, kws) (aspect_keywords self) ->
  mem a active = true ->
  keyword_matched kws (lower review) (_lemmatize_text review) = true ->
  In a (map fst (analyze_one_review self active data review)).
Proof.
  intros Hne Hin Hact Hm. unfold analyze_one_review.
  apply String.eqb_neq in Hne. rewrite Hne. cbv zeta.
  pose proof (keyword_fold_adds (lower review) (_lemmatize_text review)
                (_get_sentence_sentiment self review) (slice_to 150 review)
                (aspect_keywords self) a kws Hin Hact Hm data) as Hk.
  destruct NLTK_AVAILABLE; [|exact Hk].
  apply (fold_left_invariant (fun d => In a (map fst d))); [|exact Hk].
  intros d p Hd. apply record_mention_keys. now right.
Qed.

Lemma reviews_fold_adds (reviews : list string) (review a : string) (kws : list string) :
  In review reviews ->
  review <> EmptyString ->
  In (a, kws) (aspect_keywords self) ->
  mem a active = true ->
  keyword_matched kws (lower review) (_lemmatize_text review) = true ->
  forall data : list (string * Tally),
    In a (map fst (fold_left (analyze_one_review self active) reviews data)).
Proof.
  intros Hin Hne Ha Hact Hm.
  induction reviews as [|r rest IH]; intros data; [destruct Hin|].
  cbn [fold_left]. destruct Hin as [->|Hin]; [|now apply IH].
  apply (fold_left_invariant (fun d => In a (map fst d))).
  - intros d r Hd. apply (one_review_invariant (fun d => In a (map fst d))); [|exact Hd].
    intros b s e d' Hd'. apply record_mention_keys. now right.
  - now apply (one_review_adds data review a kws).
Qed.

Lemma aspect_data_counted (reviews : list string) :
  Forall (fun kt => 1 <= tally_total (snd kt))
    (fold_left (analyze_one_review self active) reviews []).
Proof.
  apply (fold_left_invariant (fun d => Forall (fun kt => 1 <= tally_total (snd kt)) d));
    [|constructor].
  intros d r Hd.
  apply (one_review_invariant
           (fun d => Forall (fun kt => 1 <= tally_total (snd kt)) d)); [|exact Hd].
  intros a s e d'. apply record_mention_counted.
Qed.

End Implied.

Lemma finalize_has_key (aspect_data : list (string * Tally)) (a : string) :
  In a (map fst aspect_data) ->
  Forall (fun kt => 1 <= tally_total (snd kt)) aspect_data ->
  In (capitalize a) (map fst (finalize_aspects aspect_data)).
Proof.
  unfold finalize_aspects. generalize (@nil (string * AspectVerdict)).
  induction aspect_data as [|[b t] rest IH]; intros acc Hin Hall; [destruct Hin|].
  apply Forall_cons_iff in Hall as [Ht Hall]. cbn [snd] in Ht.
  cbn [fold_left]. destruct Hin as [Hb|Hin]; [|now apply IH].
  cbn [fst] in Hb. subst b.
  apply Nat.leb_le in Ht. rewrite Ht.
  apply (fold_left_invariant (fun d => In (capitalize a) (map fst d))).
  - intros d [b' t'] Hd. destruct (1 <=? tally_total t'); [|exact Hd].
    apply dict_set_keys. now right.
  - apply dict_set_keys. now left.
Qed.

Lemma theme_keywords_imply_aspect {nlp : NLP} (c : Category) (reviews : list string)
    (theme_keywords aspect_kws : list string) (a review : string) :
  In (a, aspect_kws) (aspect_keywords __init__) ->
  mem a (active_aspects __init__ c) = true ->
  (forall k, In k theme_keywords -> k <> EmptyString /\ In k aspect_kws /\ lower k = k) ->
  In review reviews ->
  any_in theme_keywords (lower review) = true ->
  In (capitalize a) (map fst (_analyze_aspects __init__ reviews c)).
Proof.
  intros Ha Hact Hsub Hr Hany.
  unfold any_in in Hany. apply existsb_exists in Hany as (k & Hk & Hc).
  destruct (Hsub k Hk) as (Hkne & Hkin & Hklow).
  assert (Hne : review <> EmptyString).
  { intros ->. cbn in Hc. destruct k; [congruence | discriminate Hc]. }
  assert (Hm : keyword_matched aspect_kws (lower review) (_lemmatize_text review) = true).
  { unfold keyword_matched. apply existsb_exists. exists k. split; [exact Hkin|].
    cbv zeta. rewrite Hklow, Hc. reflexivity. }
  pose proof (reviews_fold_adds __init__ (active_aspects __init__ c) reviews review a
                aspect_kws Hr Hne Ha Hact Hm []) as Hkey.
  pose proof (finalize_has_key _ a Hkey
                (aspect_data_counted __init__ (active_aspects __init__ c) reviews)) as Hfin.
  destruct (analyze_aspects_cases __init__ reviews c) as [[Hnil _]|[_ ->]];
    [|exact Hfin].
  rewrite Hnil in Hfin. destruct Hfin.
Qed.

Lemma theme_row_keywords (name : string) (kws : list string) :
  In (name, kws) theme_patterns ->
  (name = "Value for Money" -> kws = ["value"; "price"; "worth"; "money"; "vfm"])
  /\ (name = "After Sales" ->
      kws = ["service"; "support"; "warranty"; "replacement"; "customer"]).
Proof.
  intros H. cbn in H.
  split; intros ->;
    destruct H as [H|[H|[H|[H|[H|[]]]]]]; try discriminate H;
    injection H as <-; reflexivity.
Qed.

Lemma price_and_service_active (c : Category) :
  mem "price" (active_aspects __init__ c) = true
  /\ mem "service" (active_aspects __init__ c) = true.
Proof. destruct c; split; vm_compute; reflexivity. Qed.

Lemma price_keywords_registered :
  exists kws,
    In ("price", kws) (aspect_keywords __init__)
    /\ forall k, In k ["value"; "price"; "worth"; "money"; "vfm"] ->
                 k <> EmptyString /\ In k kws /\ lower k = k.
Proof.
  eexists. split; [vm_compute; do 6 right; left; reflexivity|].
  intros k Hk. cbn [In] in Hk.
  repeat (destruct Hk as [<-|Hk];
          [split; [discriminate|]; split; [cbn [In]; tauto | reflexivity]|]).
  destruct Hk.
Qed.

Lemma service_keywords_registered :
  exists kws,
    In ("service", kws) (aspect_keywords __init__)
    /\ forall k, In k ["service"; "support"; "warranty"; "replacement"; "customer"] ->
                 k <> EmptyString /\ In k kws /\ lower k = k.
Proof.
  eexists. split; [vm_compute; do 11 right; left; reflexivity|].
  intros k Hk. cbn [In] in Hk.
  repeat (destruct Hk as [<-|Hk];
          [split; [discriminate|]; split; [cbn [In]; tauto | reflexivity]|]).
  destruct Hk.
Qed.

(** X19.  For the analyzer as [__init__] builds it, themes and aspects
    agree: whenever the theme "Value for Money" is reported the aspect map
    has a "Price" entry, and whenever "After Sales" is reported it has a
    "Service" entry, for every category and whatever the NLP capabilities
    are (each keyword of these themes is a keyword of that aspect, which is
    active in every category). *)
Theorem themes_imply_aspects {nlp : NLP} (name : string) (reviews : list ReviewLike) :
  Forall (fun t =>
            (theme t = "Value for Money" ->
             In "Price" (map fst (aspects (analyze_reviews __init__ name reviews))))
            /\ (theme t = "After Sales" ->
                In "Service" (map fst (aspects (analyze_reviews __init__ name reviews)))))
    (key_themes (analyze_reviews __init__ name reviews)).
Proof.
  destruct reviews as [|r0 rest]; [constructor|].
  rewrite analyze_reviews_nonempty by discriminate. cbn [key_themes aspects].
  generalize (_clean_reviews (r0 :: rest)) as kept.
  generalize (detect_product_category name) as c.
  intros c kept.
  apply List.Forall_forall. intros t Ht.
  apply key_themes_elements, theme_fold_sound in Ht as [[]|(kws & Hrow & Hone & _)].
  assert (Hfound : exists review, In review kept /\ any_in kws (lower review) = true).
  { unfold theme_mentions in Hone.
    destruct (List.filter (fun r => any_in kws (lower r)) kept) as [|review found] eqn:E;
      [cbn [length] in Hone; lia|].
    assert (Hin : In review (List.filter (fun r => any_in kws (lower r)) kept))
      by (rewrite E; now left).
    apply filter_In in Hin. eauto. }
  destruct Hfound as (review & Hr & Hany).
  destruct (theme_row_keywords _ _ Hrow) as [Hvalue Hsales].
  destruct (price_and_service_active c) as [Hprice Hservice].
  split; intros Hname; [specialize (Hvalue Hname) | specialize (Hsales Hname)];
    subst kws.
  - destruct price_keywords_registered as (akws & Ha & Hsub).
    exact (theme_keywords_imply_aspect c kept _ akws "price" review
             Ha Hprice Hsub Hr Hany).
  - destruct service_keywords_registered as (akws & Ha & Hsub).
    exact (theme_keywords_imply_aspect c kept _ akws "service" review
             Ha Hservice Hsub Hr Hany).
Qed.
